(** * MoodCanvas: prompt composition, mood analysis and catalog search

    A shallow embedding of the core of the MoodCanvas application
    ([image_generator.py], [video_generator.py], [mood_to_music.py],
    [spotify_client.py]) together with the properties its specification
    states about it.

    Conventions of the embedding:
    - a Python [str] is a [string]; its characters are the code points
      below 256 ([ascii]); [len] is [String.length];
    - a Python [int] is a [Z], a [float] is a number of an [Arithmetic]
      (binary64, or exact rationals), a list is a [list], [None]-able arguments
      are [option]s, a [dict] with string keys is an association list when
      it is a literal table and a [gmap string _] when it is data;
    - an exception is a value of [py.exn]; code that can raise returns a
      [py.Result]; [try]/[except Exception] is [py.try_except];
    - calls to remote services are answered by oracles passed as
      arguments, and the requests that were issued are returned as a
      trace next to the result. *)

From Stdlib Require Import ZArith QArith Qround Floats String Ascii List Lia Permutation.
From stdpp Require Import base gmap list strings.

Local Open Scope string_scope.
Local Open Scope list_scope.

(** ** Python built-ins used by the sources *)

Module py.

(** Exceptions, by class. [OtherError] stands for the exceptions of the
    remote services' client libraries (transport, HTTP status, quota). *)
Inductive exn : Type :=
| ValueError (msg : string)
| JSONDecodeError
| AttributeError
| TypeError
| KeyError
| IndexError
| OverflowError
| ZeroDivisionError
| PlainException (msg : string)
| OtherError (msg : string).

Inductive Result (A : Type) : Type :=
| Ok (a : A)
| Raise (e : exn).
Arguments Ok {A} a.
Arguments Raise {A} e.

Definition bind {A B} (r : Result A) (k : A -> Result B) : Result B :=
  match r with
  | Ok a => k a
  | Raise e => Raise e
  end.

(** [try: body except Exception as e: handler(e)] *)
Definition try_except {A} (body : Result A) (handler : exn -> Result A) : Result A :=
  match body with
  | Ok a => Ok a
  | Raise e => handler e
  end.

(** Truth value of a string and of an optional string ([None] and the
    empty string are false). *)
Definition str_truthy (s : string) : bool :=
  match s with
  | EmptyString => false
  | String _ _ => true
  end.

Definition opt_truthy (o : option string) : bool :=
  match o with
  | Some s => str_truthy s
  | None => false
  end.

Definition list_truthy {A} (l : list A) : bool :=
  match l with
  | [] => false
  | _ :: _ => true
  end.

(** [x or d] for an optional string and an optional list. *)
Definition str_or (o : option string) (d : string) : string :=
  match o with
  | Some s => if str_truthy s then s else d
  | None => d
  end.

Definition list_or {A} (o : option (list A)) (d : list A) : list A :=
  match o with
  | Some l => if list_truthy l then l else d
  | None => d
  end.

(** [sep.join(parts)] *)
Definition join (sep : string) (parts : list string) : string :=
  String.concat sep parts.

(** [s[:n]] and [s[n:]] for [0 <= n]. *)
Fixpoint str_take (n : nat) (s : string) : string :=
  match n, s with
  | O, _ => EmptyString
  | S _, EmptyString => EmptyString
  | S n', String c s' => String c (str_take n' s')
  end.

Fixpoint str_drop (n : nat) (s : string) : string :=
  match n, s with
  | O, _ => s
  | S _, EmptyString => EmptyString
  | S n', String _ s' => str_drop n' s'
  end.

(** [s[:-n]] for [0 < n]. *)
Definition str_drop_last (n : nat) (s : string) : string :=
  str_take (String.length s - n) s.

(** [l[:stop]] on a list for any integer [stop]: a negative [stop]
    counts from the end. *)
Definition slice_to {A} (l : list A) (stop : Z) : list A :=
  if (0 <=? stop)%Z
  then firstn (Z.to_nat stop) l
  else firstn (length l - Z.to_nat (- stop)) l.

(** [s.startswith(p)], [s.endswith(p)], [p in s] *)
Fixpoint startswith (p s : string) : bool :=
  match p, s with
  | EmptyString, _ => true
  | String _ _, EmptyString => false
  | String a p', String b s' => if Ascii.eqb a b then startswith p' s' else false
  end.

Definition endswith (p s : string) : bool :=
  (String.length p <=? String.length s)%nat
  && String.eqb (str_drop (String.length s - String.length p) s) p.

Fixpoint str_contains (p s : string) : bool :=
  startswith p s
  || match s with
     | EmptyString => false
     | String _ s' => str_contains p s'
     end.

(** Whitespace as [str.strip] sees it, for code points below 256. *)
Definition is_space (c : ascii) : bool :=
  let n := nat_of_ascii c in
  ((9 <=? n) && (n <=? 13) || (28 <=? n) && (n <=? 32)
   || (n =? 133) || (n =? 160))%nat.

Fixpoint lstrip (s : string) : string :=
  match s with
  | EmptyString => EmptyString
  | String c s' => if is_space c then lstrip s' else s
  end.

Fixpoint rstrip (s : string) : string :=
  match s with
  | EmptyString => EmptyString
  | String c s' =>
      match rstrip s' with
      | EmptyString => if is_space c then EmptyString else String c EmptyString
      | r => String c r
      end
  end.

Definition strip (s : string) : string := rstrip (lstrip s).

(** [str.lower] for code points below 256. *)
Definition lower_char (c : ascii) : ascii :=
  let n := nat_of_ascii c in
  if ((65 <=? n) && (n <=? 90)
      || (192 <=? n) && (n <=? 222) && negb (n =? 215))%nat
  then ascii_of_nat (n + 32)
  else c.

Fixpoint lower (s : string) : string :=
  match s with
  | EmptyString => EmptyString
  | String c s' => String (lower_char c) (lower s')
  end.

(** [s * n] *)
Fixpoint str_mul (s : string) (n : nat) : string :=
  match n with
  | O => EmptyString
  | S n' => s +:+ str_mul s n'
  end.

(** A literal [dict] with string keys: [k in d] and [d[k]]. *)
Fixpoint dict_get {V} (d : list (string * V)) (k : string) : option V :=
  match d with
  | [] => None
  | (k', v) :: d' => if String.eqb k' k then Some v else dict_get d' k
  end.

End py.

(** ** image_generator.py *)

Module image_generator.

Definition energy_qualities : list (string * string) :=
  [ ("low", "gentle, flowing, peaceful movement");
    ("medium", "steady, rhythmic, balanced energy");
    ("high", "dynamic, powerful, intense motion") ].

Definition emotion_colors : list (string * string) :=
  [ ("graceful", "elegant gold and white tones");
    ("triumphant", "victory gold and electric blue");
    ("flowing", "fluid blues and silvers");
    ("energetic", "vibrant oranges and electric colors");
    ("calm", "soft blues and pearl whites");
    ("confident", "bold golds and deep blues");
    ("peaceful", "gentle greens and soft whites") ].

Definition genre_styles : list (string * string) :=
  [ ("electronic", "digital art, geometric patterns, futuristic elements");
    ("pop", "vibrant, contemporary, bold graphics");
    ("folk", "organic, natural textures, hand-crafted feel");
    ("ambient", "atmospheric, ethereal, abstract flows");
    ("rock", "dramatic, high contrast, powerful composition");
    ("classical", "elegant, refined, timeless beauty") ].

Definition emotion_styles : list (string * string) :=
  [ ("graceful", "fluid, elegant curves, refined composition");
    ("triumphant", "upward movement, victory poses, heroic lighting");
    ("flowing", "smooth gradients, continuous motion lines");
    ("confident", "strong composition, clear focal points");
    ("energetic", "dynamic angles, explosive patterns") ].

(** [for x in xs: if x in table: out.append(table[x]); break] *)
Fixpoint first_match (table : list (string * string)) (xs : list string)
  : list string :=
  match xs with
  | [] => []
  | x :: xs' =>
      match py.dict_get table x with
      | Some v => [v]
      | None => first_match table xs'
      end
  end.

(** [for x in xs: if x in table: out.append(table[x])] *)
Fixpoint all_matches (table : list (string * string)) (xs : list string)
  : list string :=
  match xs with
  | [] => []
  | x :: xs' =>
      match py.dict_get table x with
      | Some v => v :: all_matches table xs'
      | None => all_matches table xs'
      end
  end.

(** The text before the length check of [create_image_prompt]. *)
Definition full_prompt
    (emotional_tags genres : list string) (mood_text : option string)
    (visual_imagery : option (list string)) (movement_quality : option string)
    (color_palette : option (list string)) (energy_level : option string)
  : string :=
  let visual_imagery := py.list_or visual_imagery [] in
  let color_palette := py.list_or color_palette [] in
  let movement_quality := py.str_or movement_quality "" in
  let energy_level := py.str_or energy_level "medium" in
  let prompt_parts : list string := [] in
  (* 1. core concept *)
  let short_mood :=
    match mood_text with
    | Some m => py.str_truthy m && (String.length m <? 80)%nat
    | None => false
    end in
  let mood := default "" mood_text in
  let prompt_parts :=
    if py.list_truthy visual_imagery then
      let primary_imagery := py.join ", " (firstn 3 visual_imagery) in
      if short_mood
      then prompt_parts ++ ["Dynamic artwork showing " +:+ primary_imagery
                              +:+ ", inspired by '" +:+ mood +:+ "'"]
      else prompt_parts ++ ["Dynamic artwork featuring " +:+ primary_imagery]
    else if short_mood
    then prompt_parts ++ ["Abstract visual representation of '" +:+ mood +:+ "'"]
    else
      let emotion_str := py.join ", " (firstn 3 emotional_tags) in
      prompt_parts ++ ["Abstract artwork expressing " +:+ emotion_str +:+ " emotions"] in
  (* 2. movement and energy *)
  let prompt_parts :=
    match py.dict_get energy_qualities energy_level with
    | Some q => prompt_parts ++ [q]
    | None => prompt_parts
    end in
  let prompt_parts :=
    if py.str_truthy movement_quality
    then prompt_parts ++ ["with " +:+ movement_quality]
    else prompt_parts in
  (* 3. colour palette *)
  let prompt_parts :=
    if py.list_truthy color_palette then
      let color_str := py.join ", " (firstn 3 color_palette) in
      prompt_parts ++ ["featuring " +:+ color_str +:+ " color palette"]
    else prompt_parts ++ first_match emotion_colors (firstn 2 emotional_tags) in
  (* 4. visual style *)
  let style_elements : list string := [] in
  let style_elements := style_elements ++ all_matches genre_styles (firstn 2 genres) in
  let style_elements :=
    style_elements ++ all_matches emotion_styles (firstn 2 emotional_tags) in
  let prompt_parts :=
    if py.list_truthy style_elements
    then prompt_parts ++ [py.join ", " (firstn 2 style_elements)]
    else prompt_parts in
  (* 5. technical style and quality *)
  let prompt_parts :=
    prompt_parts ++ ["digital art, masterpiece quality, highly detailed, artistic composition, no text or words"] in
  py.join ". " prompt_parts.

Definition create_image_prompt
    (emotional_tags genres : list string) (mood_text : option string)
    (visual_imagery : option (list string)) (movement_quality : option string)
    (color_palette : option (list string)) (energy_level : option string)
  : string :=
  let full_prompt :=
    full_prompt emotional_tags genres mood_text visual_imagery
      movement_quality color_palette energy_level in
  if (900 <? String.length full_prompt)%nat
  then py.str_take 900 full_prompt +:+ "..."
  else full_prompt.

(** The request of [client.images.generate]. *)
Record ImageRequest := {
  img_model : string;
  img_prompt : string;
  img_size : string;
  img_quality : string;
  img_n : Z
}.

(** Requests that leave the process. *)
Inductive Call : Type :=
| ImagesGenerate (api_key : string) (request : ImageRequest)
| HttpGet (url : string).

(** The arguments of lines 47-53. *)
Definition image_request (prompt : string) : ImageRequest :=
  {| img_model := "dall-e-3"; img_prompt := prompt;
     img_size := "1024x1024"; img_quality := "standard"; img_n := 1 |}.

Section Services.

(** The process environment after [load_dotenv()]. *)
Variable environ : gmap string string.

(** [client.images.generate(...)]: the urls of [response.data], or an
    exception of the call. *)
Variable images_generate : string -> ImageRequest -> py.Result (list string).

(** [requests.get(url)]: status code and body, or an exception. *)
Variable requests_get : string -> py.Result (Z * string).

(** [base64.b64encode(content).decode('utf-8')] *)
Variable b64encode : string -> string.

(** The construction of the client, [openai.OpenAI(api_key=api_key)],
    stands before the [try] block; with a key at hand it does not raise
    and is left out. *)
Definition generate_mood_image
    (emotional_tags genres : list string) (mood_text : option string)
    (visual_imagery : option (list string)) (movement_quality : option string)
    (color_palette : option (list string)) (energy_level : option string)
  : py.Result (option string) * list Call :=
  let api_key := environ !! "OPENAI_API_KEY" in
  if negb (py.opt_truthy api_key) then (py.Ok None, [])
  else
    let api_key := default "" api_key in
    let prompt :=
      create_image_prompt emotional_tags genres mood_text visual_imagery
        movement_quality color_palette energy_level in
    let request := image_request prompt in
    let generate := ImagesGenerate api_key request in
    (* the body of the [try] block, with the requests it issued *)
    let '(body, calls) :=
      match images_generate api_key request with
      | py.Raise e => (py.Raise e, [generate])
      | py.Ok [] => (py.Raise py.IndexError, [generate])
      | py.Ok (image_url :: _) =>
          match requests_get image_url with
          | py.Raise e => (py.Raise e, [generate; HttpGet image_url])
          | py.Ok (status_code, content) =>
              if (status_code =? 200)%Z
              then (py.Ok (Some (b64encode content)),
                    [generate; HttpGet image_url])
              else (py.Ok None, [generate; HttpGet image_url])
          end
      end in
    (py.try_except body (fun _ => py.Ok None), calls).

End Services.

End image_generator.

(** ** video_generator.py *)

Module video_generator.

Definition energy_movements : list (string * string) :=
  [ ("low", "slow, gentle, flowing camera movements with peaceful transitions");
    ("medium", "steady, rhythmic pacing with smooth camera work");
    ("high", "dynamic, energetic movement with quick cuts and flowing motion") ].

Definition emotion_colors : list (string * string) :=
  [ ("graceful", "elegant gold and soft white tones with warm lighting");
    ("triumphant", "victory gold and electric blue with dramatic lighting");
    ("flowing", "fluid blues and silvers with ethereal lighting");
    ("energetic", "vibrant oranges and electric colors with dynamic lighting");
    ("calm", "soft blues and pearl whites with gentle, diffused lighting");
    ("confident", "bold golds and deep blues with strong, directional lighting");
    ("peaceful", "gentle greens and soft whites with natural lighting") ].

Definition genre_styles : list (string * string) :=
  [ ("electronic", "futuristic, digital aesthetic with geometric patterns and neon accents");
    ("pop", "vibrant, contemporary style with bold visual elements");
    ("folk", "organic, natural textures with earthy, hand-crafted feel");
    ("ambient", "atmospheric, ethereal with abstract flowing elements");
    ("rock", "dramatic, high contrast with powerful visual composition");
    ("classical", "elegant, refined with timeless, sophisticated visuals");
    ("jazz", "smooth, sophisticated with warm, moody atmosphere") ].

(** The text before the length check of [create_video_prompt]. *)
Definition full_prompt
    (emotional_tags genres : list string) (mood_text : option string)
    (visual_imagery : option (list string)) (movement_quality : option string)
    (color_palette : option (list string)) (energy_level : option string)
  : string :=
  let visual_imagery := py.list_or visual_imagery [] in
  let color_palette := py.list_or color_palette [] in
  let movement_quality := py.str_or movement_quality "" in
  let energy_level := py.str_or energy_level "medium" in
  let prompt_parts : list string := [] in
  (* 1. core visual concept *)
  let mood := default "" mood_text in
  let prompt_parts :=
    if py.list_truthy visual_imagery && py.opt_truthy mood_text then
      let primary_imagery := py.join ", " (firstn 2 visual_imagery) in
      if (String.length mood <? 60)%nat
      then prompt_parts ++ ["Cinematic video showing " +:+ primary_imagery
                              +:+ ", embodying the feeling of '" +:+ mood +:+ "'"]
      else prompt_parts ++ ["Cinematic video featuring " +:+ primary_imagery]
    else if py.opt_truthy mood_text && (String.length mood <? 60)%nat
    then prompt_parts ++ ["Abstract visual representation of '" +:+ mood +:+ "' in motion"]
    else
      let emotion_str := py.join ", " (firstn 2 emotional_tags) in
      prompt_parts ++ ["Flowing cinematic video expressing " +:+ emotion_str +:+ " emotions"] in
  (* 2. movement and pacing *)
  let prompt_parts :=
    match py.dict_get energy_movements energy_level with
    | Some q => prompt_parts ++ [q]
    | None => prompt_parts
    end in
  let prompt_parts :=
    if py.str_truthy movement_quality
    then prompt_parts ++ ["featuring " +:+ movement_quality +:+ " throughout the sequence"]
    else prompt_parts in
  (* 3. colour and lighting *)
  let prompt_parts :=
    if py.list_truthy color_palette then
      let color_str := py.join ", " (firstn 3 color_palette) in
      prompt_parts ++ ["with " +:+ color_str +:+ " color scheme and complementary lighting"]
    else
      prompt_parts
        ++ image_generator.first_match emotion_colors (firstn 2 emotional_tags) in
  (* 4. style from the genres *)
  let prompt_parts :=
    prompt_parts ++ image_generator.first_match genre_styles (firstn 2 genres) in
  (* 5. technical specification *)
  let prompt_parts :=
    prompt_parts ++ ["high quality cinematic video, 8 seconds duration, smooth motion, professional cinematography"] in
  let prompt_parts :=
    prompt_parts ++ ["no text overlays, pure visual storytelling"] in
  py.join ". " prompt_parts.

Definition create_video_prompt
    (emotional_tags genres : list string) (mood_text : option string)
    (visual_imagery : option (list string)) (movement_quality : option string)
    (color_palette : option (list string)) (energy_level : option string)
  : string :=
  let full_prompt :=
    full_prompt emotional_tags genres mood_text visual_imagery
      movement_quality color_palette energy_level in
  if (800 <? String.length full_prompt)%nat
  then py.str_take 800 full_prompt +:+ "..."
  else full_prompt.

(** The placeholder dictionary of lines 83-99 and its ['metadata']. *)
Record VideoMetadata := {
  md_emotional_tags : list string;
  md_genres : list string;
  md_mood_text : option string;
  md_visual_imagery : option (list string);
  md_color_palette : option (list string);
  md_energy_level : option string;
  md_duration : Z;
  md_timestamp : string;
  md_status : string
}.

Record VideoResult := {
  video_url : option string;
  video_data : option string;
  prompt : string;
  error : string;
  metadata : VideoMetadata
}.

(** Calls into the Google client library and requests that leave the
    process. *)
Inductive Call : Type :=
| GenaiConfigure (api_key : string)
| GenaiListModels
| HttpGet (url : string) (timeout : Z).

Section Services.

(** The process environment after [load_dotenv()]. *)
Variable environ : gmap string string.

(** [genai.configure(api_key=...)]; it raises when neither client
    library could be imported ([genai] is then [None]). *)
Variable genai_configure : string -> py.Result unit.

(** [genai.list_models()]: the [name] of each model, or an exception of
    the call or of the iteration. *)
Variable genai_list_models : py.Result (list string).

(** [datetime.now().isoformat()] *)
Variable now_isoformat : string.

(** [requests.get(url, timeout=...)]: status code and body, or an
    exception. *)
Variable requests_get : string -> Z -> py.Result (Z * string).

(** [base64.b64encode(content).decode('utf-8')] *)
Variable b64encode : string -> string.

(** [generate_mood_video] *)
Definition generate_mood_video
    (emotional_tags genres : list string) (mood_text : option string)
    (visual_imagery : option (list string)) (movement_quality : option string)
    (color_palette : option (list string)) (energy_level : option string)
    (duration : Z)
  : py.Result (option VideoResult) * list Call :=
  let api_key := environ !! "GOOGLE_AI_API_KEY" in
  if negb (py.opt_truthy api_key) then (py.Ok None, [])
  else
    let api_key := default "" api_key in
    let video_prompt :=
      create_video_prompt emotional_tags genres mood_text visual_imagery
        movement_quality color_palette energy_level in
    (* the body of the [try] block *)
    let body :=
      py.bind (genai_configure api_key) (fun _ =>
        py.Ok (Some
          {| video_url := None;
             video_data := None;
             prompt := video_prompt;
             error := "Video generation requires updated Google AI SDK";
             metadata :=
               {| md_emotional_tags := emotional_tags;
                  md_genres := genres;
                  md_mood_text := mood_text;
                  md_visual_imagery := visual_imagery;
                  md_color_palette := color_palette;
                  md_energy_level := energy_level;
                  md_duration := duration;
                  md_timestamp := now_isoformat;
                  md_status := "awaiting_sdk_update" |} |})) in
    (py.try_except body (fun _ => py.Ok None), [GenaiConfigure api_key]).

(** [download_video_data] *)
Definition download_video_data (video_url : string)
  : py.Result (option string) * list Call :=
  let body :=
    py.bind (requests_get video_url 30) (fun '(status_code, content) =>
      if (status_code =? 200)%Z
      then py.Ok (Some (b64encode content))
      else py.Ok None) in
  (py.try_except body (fun _ => py.Ok None), [HttpGet video_url 30]).

(** The loop of lines 356-360: the names that contain "veo" once
    lower-cased are collected. *)
Definition veo_models_step (veo_models : list string) (model_name : string)
  : list string :=
  if py.str_contains "veo" (py.lower model_name)
  then veo_models ++ [model_name]
  else veo_models.

(** [validate_video_generation] *)
Definition validate_video_generation : py.Result bool * list Call :=
  let api_key := environ !! "GOOGLE_AI_API_KEY" in
  if negb (py.opt_truthy api_key)
     || String.eqb (default "" api_key) "your-google-ai-api-key"
  then (py.Ok false, [])
  else
    let api_key := default "" api_key in
    match genai_configure api_key with
    | py.Raise _ => (py.Ok false, [GenaiConfigure api_key])
    | py.Ok _ =>
        let body :=
          py.bind genai_list_models (fun models =>
            let veo_models := fold_left veo_models_step models [] in
            if py.list_truthy veo_models then py.Ok true else py.Ok false) in
        (py.try_except body (fun _ => py.Ok false),
         [GenaiConfigure api_key; GenaiListModels])
    end.

End Services.

End video_generator.

(** ** Python floats *)

Module arithmetic.

(** The operations [search_tracks] performs on floats.  [literal] reads a
    decimal literal, [of_int] is the conversion of an [int] operand,
    [value] is the exact value of a finite number. *)
Class Arithmetic := {
  number : Type;
  literal : Q -> number;
  of_int : Z -> py.Result number;
  div : number -> number -> py.Result number;
  mul : number -> number -> number;
  sum : list number -> number;
  value : number -> option Q
}.

(** The integer part of a rational, towards zero. *)
Definition int_of_Q (x : Q) : Z := Z.quot (Qnum x) (Zpos (Qden x)).

(** [int(x)]; it raises on an infinity or a NaN. *)
Definition int_of `{Arithmetic} (x : number) : py.Result Z :=
  match value x with
  | Some q => py.Ok (int_of_Q q)
  | None => py.Raise py.OverflowError
  end.

(** Exact arithmetic on rationals: the decimal literals at face value. *)
Definition exact : Arithmetic :=
  {| number := Q;
     literal := fun q => q;
     of_int := fun z => py.Ok (inject_Z z);
     div := fun a b =>
              if Qeq_bool b 0 then py.Raise py.ZeroDivisionError
              else py.Ok (a / b)%Q;
     mul := Qmult;
     sum := fun l => fold_left Qplus l 0%Q;
     value := fun q => Some q |}.

(** IEEE 754 binary64, the arithmetic of CPython's [float]. *)
Definition f64_of_Z (z : Z) : float :=
  SF2Prim (binary_normalize prec emax z 0 false).

Definition f64_value (x : float) : option Q :=
  match Prim2SF x with
  | S754_zero _ => Some 0%Q
  | S754_finite negative m e =>
      let magnitude :=
        if (0 <=? e)%Z then inject_Z (Z.pos m * 2 ^ e)
        else Qmake (Z.pos m) (Z.to_pos (2 ^ (- e))) in
      Some (if negative then Qopp magnitude else magnitude)
  | S754_infinity _ => None
  | S754_nan => None
  end.

(** [sum] adds from the left, starting at the integer 0 (CPython before
    3.12; later versions compensate the rounding errors). *)
Definition binary64 : Arithmetic :=
  {| number := float;
     literal := fun q => PrimFloat.div (f64_of_Z (Qnum q)) (f64_of_Z (Zpos (Qden q)));
     of_int := fun z =>
                 let x := f64_of_Z z in
                 if PrimFloat.is_infinity x then py.Raise py.OverflowError
                 else py.Ok x;
     div := fun a b =>
              if PrimFloat.is_zero b then py.Raise py.ZeroDivisionError
              else py.Ok (PrimFloat.div a b);
     mul := PrimFloat.mul;
     sum := fun l => fold_left PrimFloat.add l (f64_of_Z 0);
     value := f64_value |}.

End arithmetic.

(** ** spotify_client.py *)

Module spotify_client.

Import arithmetic.

(** A track record as the catalog returns it ([results['tracks']['items']]):
    [artists] holds the names of the artists, [external_urls] is a dict. *)
Record CatalogTrack := {
  t_name : string;
  t_artists : list string;
  t_uri : string;
  t_preview_url : option string;
  t_external_urls : list (string * string)
}.

Record Playlist := {
  pl_id : string;
  pl_external_urls : list (string * string)
}.

(** Requests sent to the catalog service. *)
Inductive Call : Type :=
| CurrentUser
| Search (q type : string) (limit : Z) (market : string)
| UserPlaylistCreate (user name : string) (public : bool) (description : string)
| PlaylistAddItems (playlist_id : string) (tracks : list string).

(** The session object [spotipy.Spotify]: what the service answers to a
    request, given the requests issued before it. [Raise] stands for any
    exception of the call or of reading the response envelope.
    [current_user] gives the value of [user_info['id']]: a string, or
    [None] when the answer holds [null] there. *)
Record Spotify := {
  current_user : list Call -> py.Result (option string);
  search : list Call -> string -> Z -> py.Result (list CatalogTrack);
  user_playlist_create :
    list Call -> string -> string -> bool -> string -> py.Result Playlist;
  playlist_add_items : list Call -> string -> list string -> py.Result unit
}.

Record SpotifyClient := {
  client_id : string;
  client_secret : string;
  redirect_uri : string;
  scope : string;
  sp : option Spotify;
  user_id : option string
}.

(** [__init__] *)
Definition init (client_id client_secret redirect_uri : string) : SpotifyClient :=
  {| client_id := client_id;
     client_secret := client_secret;
     redirect_uri := redirect_uri;
     scope := "playlist-modify-public playlist-modify-private";
     sp := None;
     user_id := None |}.

(** [authenticate]; [session] is the object [spotipy.Spotify(...)] builds. *)
Definition authenticate (c : SpotifyClient) (session : Spotify)
  : bool * SpotifyClient * list Call :=
  let c := {| client_id := client_id c; client_secret := client_secret c;
              redirect_uri := redirect_uri c; scope := scope c;
              sp := Some session; user_id := user_id c |} in
  match current_user session [] with
  | py.Ok uid =>
      (true,
       {| client_id := client_id c; client_secret := client_secret c;
          redirect_uri := redirect_uri c; scope := scope c;
          sp := sp c; user_id := uid |},
       [CurrentUser])
  | py.Raise _ => (false, c, [CurrentUser])
  end.

Definition not_authenticated : py.exn :=
  py.PlainException "Not authenticated. Call authenticate() first.".

(** [track_info] *)
Record Track := {
  name : string;
  artist : string;
  uri : string;
  preview_url : option string;
  external_url : string;
  search_source : string
}.

(** The dict literal of lines 107-114; a missing artist or a missing
    ['spotify'] link raises. *)
Definition track_info (source : string) (t : CatalogTrack) : py.Result Track :=
  match t_artists t with
  | [] => py.Raise py.IndexError
  | a :: _ =>
      match py.dict_get (t_external_urls t) "spotify" with
      | None => py.Raise py.KeyError
      | Some url =>
          py.Ok {| name := t_name t; artist := a; uri := t_uri t;
                   preview_url := t_preview_url t; external_url := url;
                   search_source := source |}
      end
  end.

(** The inner [for track in ...] loop: tracks are appended until a record
    raises, which ends this query's contribution. *)
Fixpoint append_items (source : string) (items : list CatalogTrack)
    (all_tracks : list Track) : list Track :=
  match items with
  | [] => all_tracks
  | t :: items' =>
      match track_info source t with
      | py.Ok ti => append_items source items' (all_tracks ++ [ti])
      | py.Raise _ => all_tracks
      end
  end.

(** Lines 121-127: removal of duplicates with the set [seen_uris]. *)
Definition dedup_step (st : gset string * list Track) (track : Track)
  : gset string * list Track :=
  let '(seen_uris, unique_tracks) := st in
  if decide (uri track ∈ seen_uris)
  then (seen_uris, unique_tracks)
  else ({[ uri track ]} ∪ seen_uris, unique_tracks ++ [track]).

Definition remove_duplicates (all_tracks : list Track) : list Track :=
  snd (fold_left dedup_step all_tracks (∅, [])).

Definition energy_terms : list (string * list string) :=
  [ ("low", ["chill"; "ambient"; "calm"; "peaceful"]);
    ("medium", ["groovy"; "steady"; "flowing"]);
    ("high", ["energetic"; "powerful"; "intense"; "upbeat"]) ].

Definition tempo_terms : list (string * list string) :=
  [ ("slow", ["slow"; "downtempo"; "ballad"]);
    ("moderate", ["mid-tempo"; "groove"]);
    ("fast", ["upbeat"; "fast"; "energetic"]);
    ("explosive", ["intense"; "powerful"; "explosive"; "high-energy"]) ].

(** [genres[0] if genres else ''] *)
Definition primary_genre_or_empty (genres : list string) : string :=
  match genres with
  | g :: _ => g
  | [] => ""
  end.

Section WithArithmetic.

Context {A : Arithmetic}.

(** One entry of [search_queries]. *)
Record Query := { query : string; weight : number }.

(** Lines 47-90: the query batch, built by appending in three loops. *)
Definition build_search_queries
    (genres search_keywords : list string) (energy_level : option string)
  : list Query :=
  let search_queries : list Query := [] in
  (* 1. genre-based searches *)
  let search_queries :=
    fold_left
      (fun qs genre =>
         qs ++ [ {| query := "genre:" +:+ genre; weight := literal 0.4 |} ])
      genres search_queries in
  (* 2. keyword-enhanced searches *)
  let search_queries :=
    fold_left
      (fun qs keyword =>
         let qs :=
           match genres with
           | g0 :: _ =>
               qs ++ [ {| query := keyword +:+ " genre:" +:+ g0;
                          weight := literal 0.3 |} ]
           | [] => qs
           end in
         qs ++ [ {| query := keyword; weight := literal 0.2 |} ])
      (firstn 3 search_keywords) search_queries in
  (* 3. energy-based searches *)
  let search_queries :=
    match energy_level with
    | Some level =>
        if py.str_truthy level then
          match py.dict_get energy_terms level with
          | Some terms =>
              fold_left
                (fun qs term =>
                   qs ++ [ {| query := term +:+ " " +:+ primary_genre_or_empty genres;
                              weight := literal 0.1 |} ])
                (firstn 2 terms) search_queries
          | None => search_queries
          end
        else search_queries
    | None => search_queries
    end in
  search_queries.

(** [sum(q['weight'] for q in search_queries)] *)
Definition total_weight (search_queries : list Query) : number :=
  sum (map weight search_queries).

(** [max(1, int((query_info['weight'] / total_weight) * limit))]; the
    division, the conversion of [limit] and [int] can raise. *)
Definition tracks_needed (weight total_weight : number) (limit : Z)
  : py.Result Z :=
  py.bind (div weight total_weight) (fun share =>
  py.bind (of_int limit) (fun limit' =>
  py.bind (int_of (mul share limit')) (fun n =>
  py.Ok (Z.max 1 n)))).

(** One turn of the [for query_info in search_queries] loop, with its
    [try]/[except Exception: continue]. *)
Definition run_query (s : Spotify) (total_weight : number) (limit : Z)
    (st : list Track * list Call) (query_info : Query) : list Track * list Call :=
  let '(all_tracks, calls) := st in
  match tracks_needed (weight query_info) total_weight limit with
  | py.Raise _ => (all_tracks, calls)
  | py.Ok tracks_needed =>
      let call := Search (query query_info) "track" tracks_needed "US" in
      match search s calls (query query_info) tracks_needed with
      | py.Ok items =>
          (append_items (query query_info) items all_tracks, calls ++ [call])
      | py.Raise _ => (all_tracks, calls ++ [call])
      end
  end.

(** [random.shuffle], as the permutation it applies on this call. *)
Variable shuffle : list Track -> list Track.

Definition search_tracks (self : SpotifyClient) (genres : list string) (limit : Z)
    (search_keywords : option (list string))
    (energy_level tempo_feeling : option string)
  : py.Result (list Track) * list Call :=
  match sp self with
  | None => (py.Raise not_authenticated, [])
  | Some s =>
      let all_tracks : list Track := [] in
      let search_keywords := py.list_or search_keywords [] in
      let search_queries :=
        build_search_queries genres search_keywords energy_level in
      let total_weight := total_weight search_queries in
      let '(all_tracks, calls) :=
        fold_left (run_query s total_weight limit) search_queries
          (all_tracks, []) in
      let unique_tracks := remove_duplicates all_tracks in
      let unique_tracks := shuffle unique_tracks in
      (py.Ok (py.slice_to unique_tracks limit), calls)
  end.

End WithArithmetic.

Record PlaylistResult := {
  url : string;
  id : string;
  embed_url : string
}.

Definition dquote : string := String (ascii_of_nat 34) EmptyString.

(** Lines 151-163.  The first part is the literal of line 152 as the
    source file holds it, in its UTF-8 encoding: "Generated by MoodCanvas "
    and the three characters U+011F, U+0178, U+00A8 (six bytes). *)
Definition playlist_description (mood_prompt : option string)
    (emotional_tags genres : option (list string)) : string :=
  let description_parts := ["Generated by MoodCanvas ğŸ¨"] in
  let description_parts :=
    if py.opt_truthy mood_prompt
    then description_parts
           ++ ["Mood: " +:+ dquote +:+ default "" mood_prompt +:+ dquote]
    else description_parts in
  let description_parts :=
    if py.list_truthy (py.list_or emotional_tags [])
    then description_parts
           ++ ["Emotions: " +:+ py.join ", " (py.list_or emotional_tags [])]
    else description_parts in
  let description_parts :=
    if py.list_truthy (py.list_or genres [])
    then description_parts ++ ["Genres: " +:+ py.join ", " (py.list_or genres [])]
    else description_parts in
  py.join " | " description_parts.

Definition create_playlist (self : SpotifyClient) (name : string)
    (tracks : list string) (mood_prompt : option string)
    (emotional_tags genres : option (list string))
  : py.Result (option PlaylistResult) * list Call :=
  match sp self, py.opt_truthy (user_id self) with
  | Some s, true =>
      let uid := default "" (user_id self) in
      let description := playlist_description mood_prompt emotional_tags genres in
      let create := UserPlaylistCreate uid name true description in
      match user_playlist_create s [] uid name true description with
      | py.Raise _ => (py.Ok None, [create])
      | py.Ok playlist =>
          let playlist_id := pl_id playlist in
          let add := PlaylistAddItems playlist_id tracks in
          let '(added, calls) :=
            if py.list_truthy tracks
            then (playlist_add_items s [create] playlist_id tracks, [create; add])
            else (py.Ok tt, [create]) in
          match added with
          | py.Raise _ => (py.Ok None, calls)
          | py.Ok _ =>
              match py.dict_get (pl_external_urls playlist) "spotify" with
              | None => (py.Ok None, calls)
              | Some u =>
                  (py.Ok (Some {| url := u; id := playlist_id;
                                  embed_url := "https://open.spotify.com/embed/playlist/"
                                                 +:+ playlist_id |}),
                   calls)
              end
          end
      end
  | _, _ => (py.Raise not_authenticated, [])
  end.

End spotify_client.

(** ** mood_to_music.py *)

Module mood_to_music.

(** A value as [json.loads] returns it. *)
#[warnings="-register-all"]
Inductive json : Type :=
| JNull
| JBool (b : bool)
| JNum (x : Q)
| JStr (s : string)
| JArr (items : list json)
| JObj (fields : gmap string json).

Definition jstrings (l : list string) : json := JArr (JStr <$> l).

(** [create_fallback_mood_analysis] *)
Definition any_in (words : list string) (text : string) : bool :=
  existsb (fun word => py.str_contains word text) words.

Definition mood_triple (emotional_tags genres : list string) (playlist_name : string)
  : gmap string json :=
  {[ "emotional_tags" := jstrings emotional_tags;
     "genres" := jstrings genres;
     "playlist_name" := JStr playlist_name ]}.

Definition create_fallback_mood_analysis (mood_text : string) : gmap string json :=
  let mood_lower := py.lower mood_text in
  if any_in ["calm"; "peaceful"; "relaxed"; "serene"] mood_lower then
    mood_triple ["calm"; "peaceful"] ["ambient"; "folk"] "Peaceful Moments"
  else if any_in ["happy"; "excited"; "energetic"; "pumped"] mood_lower then
    mood_triple ["happy"; "energetic"] ["pop"; "electronic"] "Energy Boost"
  else if any_in ["sad"; "melancholy"; "down"; "blue"] mood_lower then
    mood_triple ["melancholic"; "reflective"] ["folk"; "indie"] "Reflection Time"
  else
    mood_triple ["contemplative"; "mixed"] ["indie"; "alternative"] "Mixed Feelings".

(** Lines 105-111: removal of a Markdown code fence. *)
Definition clean_response (mood_response : string) : string :=
  let cleaned_response := py.strip mood_response in
  let cleaned_response :=
    if py.startswith "```json" cleaned_response
    then py.str_drop 7 cleaned_response else cleaned_response in
  let cleaned_response :=
    if py.endswith "```" cleaned_response
    then py.str_drop_last 3 cleaned_response else cleaned_response in
  py.strip cleaned_response.

(** [field in mood_data], for whatever [json.loads] returned. *)
Definition contains_field (mood_data : json) (field : string) : py.Result bool :=
  match mood_data with
  | JObj fields => py.Ok (bool_decide (is_Some (fields !! field)))
  | JArr items =>
      py.Ok (existsb (fun v => match v with
                               | JStr s => String.eqb s field
                               | _ => false
                               end) items)
  | JStr s => py.Ok (py.str_contains field s)
  | _ => py.Raise py.TypeError
  end.

(** [for field in required_fields: if field not in mood_data: raise ...] *)
Fixpoint check_required (mood_data : json) (required_fields : list string)
  : py.Result unit :=
  match required_fields with
  | [] => py.Ok tt
  | field :: rest =>
      py.bind (contains_field mood_data field) (fun present =>
        if present then check_required mood_data rest
        else py.Raise (py.ValueError ("Missing required field: " +:+ field)))
  end.

(** [[x.strip().lower() for x in values]] *)
Fixpoint strip_lower_all (values : list json) : py.Result (list json) :=
  match values with
  | [] => py.Ok []
  | JStr s :: rest =>
      py.bind (strip_lower_all rest) (fun rest' =>
        py.Ok (JStr (py.lower (py.strip s)) :: rest'))
  | _ :: _ => py.Raise py.AttributeError
  end.

(** [mood_data.get(key, default).lower()] *)
Definition get_lower (fields : gmap string json) (key default : string)
  : py.Result json :=
  match fields !! key with
  | None => py.Ok (JStr (py.lower default))
  | Some (JStr s) => py.Ok (JStr (py.lower s))
  | Some _ => py.Raise py.AttributeError
  end.

(** [mood_data.get(key, [])[:n]]: lists and strings can be sliced. *)
Definition get_slice (fields : gmap string json) (key : string) (n : nat)
  : py.Result json :=
  match fields !! key with
  | None => py.Ok (JArr [])
  | Some (JArr items) => py.Ok (JArr (firstn n items))
  | Some (JStr s) => py.Ok (JStr (py.str_take n s))
  | Some _ => py.Raise py.TypeError
  end.

(** [mood_data.get(key, '').strip()[:n]] *)
Definition get_strip_slice (fields : gmap string json) (key : string) (n : nat)
  : py.Result json :=
  match fields !! key with
  | None => py.Ok (JStr "")
  | Some (JStr s) => py.Ok (JStr (py.str_take n (py.strip s)))
  | Some _ => py.Raise py.AttributeError
  end.

(** Lines 116-145, on the parsed value. *)
Definition validate_and_clean (mood_data : json) : py.Result (gmap string json) :=
  py.bind (check_required mood_data ["emotional_tags"; "genres"; "playlist_name"])
    (fun _ =>
  match mood_data with
  | JObj fields =>
      match fields !! "emotional_tags", fields !! "genres", fields !! "playlist_name" with
      | Some tags, Some genres, Some name =>
          match tags with
          | JArr ((_ :: _) as tags) =>
          match genres with
          | JArr ((_ :: _) as genres) =>
          match name with
          | JStr name =>
              if negb (py.str_truthy (py.strip name)) then
                py.Raise (py.ValueError "playlist_name must be a non-empty string")
              else
                (* clean and limit core data *)
                py.bind (strip_lower_all (firstn 3 tags)) (fun tags' =>
                let fields := <["emotional_tags" := JArr tags']> fields in
                py.bind (strip_lower_all (firstn 3 genres)) (fun genres' =>
                let fields := <["genres" := JArr genres']> fields in
                let fields :=
                  <["playlist_name" := JStr (py.str_take 50 (py.strip name))]> fields in
                (* optional enhanced fields *)
                py.bind (get_lower fields "energy_level" "medium") (fun v =>
                let fields := <["energy_level" := v]> fields in
                py.bind (get_lower fields "tempo_feeling" "moderate") (fun v =>
                let fields := <["tempo_feeling" := v]> fields in
                py.bind (get_slice fields "visual_imagery" 5) (fun v =>
                let fields := <["visual_imagery" := v]> fields in
                py.bind (get_strip_slice fields "movement_quality" 100) (fun v =>
                let fields := <["movement_quality" := v]> fields in
                py.bind (get_slice fields "color_palette" 3) (fun v =>
                let fields := <["color_palette" := v]> fields in
                py.bind (get_slice fields "search_keywords" 5) (fun v =>
                let fields := <["search_keywords" := v]> fields in
                py.Ok fields))))))))
          | _ => py.Raise (py.ValueError "playlist_name must be a non-empty string")
          end
          | _ => py.Raise (py.ValueError "genres must be a non-empty list")
          end
          | _ => py.Raise (py.ValueError "emotional_tags must be a non-empty list")
          end
      | _, _, _ => py.Raise py.KeyError
      end
  | _ => py.Raise py.TypeError
  end).

(** The request of [client.chat.completions.create]. *)
Record ChatRequest := {
  chat_model : string;
  chat_messages : list (string * string);
  chat_max_tokens : Z;
  chat_temperature : Q
}.

Inductive Call : Type :=
| ChatCompletionsCreate (api_key : string) (request : ChatRequest).

(** The arguments of lines 32-46. *)
Definition chat_request (prompt : string) : ChatRequest :=
  {| chat_model := "gpt-4o";
     chat_messages :=
       [ ("system", "You are a mood-to-music assistant. Always respond with valid JSON only, no other text.");
         ("user", prompt) ];
     chat_max_tokens := 200;
     chat_temperature := 0.7 |}.

Definition invalid_input_error : py.exn :=
  py.ValueError "Mood text cannot be empty".

Definition configuration_error : py.exn :=
  py.ValueError "OpenAI API key not found in environment variables".

Section Services.

(** The process environment after [load_dotenv()]. *)
Variable environ : gmap string string.

(** [json.loads]; [None] is a [JSONDecodeError]. *)
Variable json_loads : string -> option json.

(** [client.chat.completions.create(...)]: the [message.content] of each
    of [response.choices], or an exception of the call. *)
Variable chat_completions_create :
  string -> ChatRequest -> py.Result (list (option string)).

(** The instruction template of lines 59-99, which embeds the mood
    text. *)
Variable create_mood_analysis_prompt : string -> string.

Definition extract_mood_components (mood_response : string)
  : py.Result (gmap string json) :=
  let cleaned_response := clean_response mood_response in
  match json_loads cleaned_response with
  | None => py.Raise (py.ValueError "Invalid JSON response from OpenAI")
  | Some mood_data =>
      py.try_except (validate_and_clean mood_data) (fun e => py.Raise e)
  end.

(** The body of the [try] block of [analyze_mood]. *)
Definition remote_analysis (api_key mood_text : string)
  : py.Result (gmap string json) * list Call :=
  let prompt := create_mood_analysis_prompt mood_text in
  let request := chat_request prompt in
  (py.bind (chat_completions_create api_key request) (fun choices =>
     match choices with
     | [] => py.Raise py.IndexError
     | None :: _ => py.Raise py.AttributeError
     | Some content :: _ => extract_mood_components (py.strip content)
     end),
   [ChatCompletionsCreate api_key request]).

Definition analyze_mood (mood_text : string)
  : py.Result (gmap string json) * list Call :=
  if negb (py.str_truthy mood_text) || negb (py.str_truthy (py.strip mood_text))
  then (py.Raise invalid_input_error, [])
  else
    let api_key := environ !! "OPENAI_API_KEY" in
    if negb (py.opt_truthy api_key) then (py.Raise configuration_error, [])
    else
      let api_key := default "" api_key in
      let '(body, calls) := remote_analysis api_key mood_text in
      (py.try_except body
         (fun _ => py.Ok (create_fallback_mood_analysis mood_text)),
       calls).

End Services.

End mood_to_music.

(** ** app.py *)

Module app.

Import mood_to_music.

Section Services.

Variable environ : gmap string string.
Variable json_loads : string -> option json.
Variable chat_completions_create :
  string -> ChatRequest -> py.Result (list (option string)).
Variable create_mood_analysis_prompt : string -> string.

(** Lines 94-103 of [create_mood_canvas], the analysis of the mood text:
    [try: mood_data = analyze_mood(mood_text)] with the handler
    [mood_data = create_fallback_mood_analysis(mood_text)].  The calls of
    the user interface ([st.spinner], [st.success], [st.warning]) are
    left out. *)
Definition mood_analysis (mood_text : string)
  : py.Result (gmap string json) * list Call :=
  let '(mood_data, calls) :=
    analyze_mood environ json_loads chat_completions_create
      create_mood_analysis_prompt mood_text in
  (py.try_except mood_data
     (fun _ => py.Ok (create_fallback_mood_analysis mood_text)),
   calls).

End Services.

End app.

(** ** The shape of a mood profile

    What the statements of lines 131-143 of mood_to_music.py leave in
    each field, as decidable checks on a profile. *)

Module mood_profile.

Import mood_to_music.

(** A string as [s.strip().lower()] leaves it. *)
Definition is_clean (s : string) : bool :=
  String.eqb (py.strip s) s && String.eqb (py.lower s) s.

(** A list of 1 to [n] trimmed lower-case strings. *)
Definition clean_entries (n : nat) (v : option json) : bool :=
  match v with
  | Some (JArr items) =>
      (1 <=? length items)%nat && (length items <=? n)%nat
      && forallb (fun item => match item with
                              | JStr s => is_clean s
                              | _ => false
                              end) items
  | _ => false
  end.

(** A string of [lo] to [hi] characters. *)
Definition string_within (lo hi : nat) (v : option json) : bool :=
  match v with
  | Some (JStr s) => (lo <=? String.length s)%nat && (String.length s <=? hi)%nat
  | _ => false
  end.

Definition lowercase_string (v : option json) : bool :=
  match v with
  | Some (JStr s) => String.eqb (py.lower s) s
  | _ => false
  end.

(** What a slice [[:n]] returns: a list or a string of at most [n]. *)
Definition sliced (n : nat) (v : option json) : bool :=
  match v with
  | Some (JArr items) => (length items <=? n)%nat
  | Some (JStr s) => (String.length s <=? n)%nat
  | _ => false
  end.

(** The three fields every consumer of a profile reads with
    [mood_data[...]]. *)
Definition core_fields (profile : gmap string json) : bool :=
  clean_entries 3 (profile !! "emotional_tags")
  && clean_entries 3 (profile !! "genres")
  && string_within 1 50 (profile !! "playlist_name").

(** The six fields read with [mood_data.get(...)]. *)
Definition enhanced_fields (profile : gmap string json) : bool :=
  lowercase_string (profile !! "energy_level")
  && lowercase_string (profile !! "tempo_feeling")
  && sliced 5 (profile !! "visual_imagery")
  && string_within 0 100 (profile !! "movement_quality")
  && sliced 3 (profile !! "color_palette")
  && sliced 5 (profile !! "search_keywords").

End mood_profile.

(** ** The specification's wording

    Second definitions, written from the specification's sentences, to be
    compared with the ones taken from the source. *)

Module spec.

Import arithmetic spotify_client.

Section Batch.

Context {A : Arithmetic}.

(** "one query per genre: [genre:<g>], weight 0.4 each" *)
Definition genre_queries (genres : list string) : list Query :=
  map (fun g => {| query := "genre:" +:+ g; weight := literal 0.4 |}) genres.

(** "per keyword (first 3 only): one query [<keyword> genre:<primaryGenre>]
    weight 0.3, and one pure-keyword query weight 0.2 -- only emit the
    genre-combined variant when at least one genre exists" *)
Definition keyword_queries (genres keywords : list string) : list Query :=
  flat_map
    (fun k =>
       match genres with
       | primary :: _ =>
           [ {| query := k +:+ " genre:" +:+ primary; weight := literal 0.3 |};
             {| query := k; weight := literal 0.2 |} ]
       | [] => [ {| query := k; weight := literal 0.2 |} ]
       end)
    (firstn 3 keywords).

Definition recognized (energy_level : option string) : option string :=
  match energy_level with
  | Some level =>
      if bool_decide (level ∈ ["low"; "medium"; "high"]) then Some level else None
  | None => None
  end.

(** The table of terms of an energy level. *)
Definition energy_table (level : string) : list string :=
  default [] (py.dict_get energy_terms level).

(** "per energy level (if recognized; first 2 terms from a ... table per
    level) query [<term> <primaryGenre-or-empty>] weight 0.1 each" *)
Definition energy_queries (genres : list string) (energy_level : option string)
  : list Query :=
  match recognized energy_level with
  | Some level =>
      map (fun term => {| query := term +:+ " " +:+ primary_genre_or_empty genres;
                          weight := literal 0.1 |})
        (firstn 2 (energy_table level))
  | None => []
  end.

Definition query_batch (genres keywords : list string) (energy_level : option string)
  : list Query :=
  genre_queries genres ++ keyword_queries genres keywords
    ++ energy_queries genres energy_level.

(** The batch as the specification states it, with its "4-term table per
    level". *)
Definition query_batch_as_stated
    (genres keywords : list string) (energy_level : option string) : Prop :=
  build_search_queries genres keywords energy_level
    = query_batch genres keywords energy_level
  /\ forall level, recognized energy_level = Some level ->
                   length (energy_table level) = 4%nat.

(** "Per-query quota = max(1, r(weight / total x limit))", where
    [to_integer] is the conversion [r] of the product to an integer; the
    quota is undefined where the arithmetic raises. *)
Definition quota_with (to_integer : Q -> Z) (w total : number) (limit : Z)
  : py.Result Z :=
  py.bind (div w total) (fun share =>
  py.bind (of_int limit) (fun limit' =>
  match value (mul share limit') with
  | Some x => py.Ok (Z.max 1 (to_integer x))
  | None => py.Raise py.OverflowError
  end)).

(** The requests of a batch when [quota] computes each query's limit: one
    search per query with a quota, in the order of the batch. *)
Definition requests_with (quota : number -> number -> Z -> py.Result Z)
    (batch : list Query) (limit : Z) : list Call :=
  flat_map
    (fun q =>
       match quota (weight q) (total_weight batch) limit with
       | py.Ok n => [Search (query q) "track" n "US"]
       | py.Raise _ => []
       end)
    batch.

(** What each query of the batch contributes, in order: the tracks read
    from its response, nothing when the request fails or is not made.
    [calls] are the requests issued before. *)
Fixpoint per_query_results (s : Spotify) (total : number) (limit : Z)
    (queries : list Query) (calls : list Call) : list (list Track) :=
  match queries with
  | [] => []
  | q :: rest =>
      match tracks_needed (weight q) total limit with
      | py.Raise _ => [] :: per_query_results s total limit rest calls
      | py.Ok n =>
          let found :=
            match search s calls (query q) n with
            | py.Ok items => append_items (query q) items []
            | py.Raise _ => []
            end in
          found :: per_query_results s total limit rest
                     (calls ++ [Search (query q) "track" n "US"])
      end
  end.

End Batch.

(** "empty or whitespace-only" *)
Fixpoint whitespace_only (s : string) : bool :=
  match s with
  | EmptyString => true
  | String c s' => py.is_space c && whitespace_only s'
  end.

(** "trimmed and lower-cased" entries. *)
Definition normalized (entries : list string) : mood_to_music.json :=
  mood_to_music.jstrings ((fun s => py.lower (py.strip s)) <$> entries).

(** An optional text field: its default when absent, its text when it is
    a string. *)
Definition optional_string (fields : gmap string mood_to_music.json)
    (key default : string) : option string :=
  match fields !! key with
  | None => Some default
  | Some (mood_to_music.JStr s) => Some s
  | Some _ => None
  end.

(** An optional list field: empty when absent, its entries when it is a
    list. *)
Definition optional_list (fields : gmap string mood_to_music.json) (key : string)
  : option (list mood_to_music.json) :=
  match fields !! key with
  | None => Some []
  | Some (mood_to_music.JArr items) => Some items
  | Some _ => None
  end.

(** "missing, non-list/non-string, or empty" for the three required
    fields; a name of blanks only counts as empty. *)
Definition nonempty_list (v : option mood_to_music.json) : bool :=
  match v with
  | Some (mood_to_music.JArr (_ :: _)) => true
  | _ => false
  end.

Definition nonblank_string (v : option mood_to_music.json) : bool :=
  match v with
  | Some (mood_to_music.JStr s) => negb (whitespace_only s)
  | _ => false
  end.

Definition required_fields_valid (fields : gmap string mood_to_music.json) : bool :=
  nonempty_list (fields !! "emotional_tags")
  && nonempty_list (fields !! "genres")
  && nonblank_string (fields !! "playlist_name").

(** The normalized profile: clamped, trimmed and lower-cased core fields,
    defaults and caps for the optional ones. *)
Definition profile_facts (profile : gmap string mood_to_music.json)
    (tags genres : list string) (name energy tempo : string)
    (imagery : list mood_to_music.json) (movement : string)
    (palette keywords : list mood_to_music.json) : Prop :=
  profile !! "emotional_tags" = Some (normalized tags)
  /\ profile !! "genres" = Some (normalized genres)
  /\ profile !! "playlist_name"
     = Some (mood_to_music.JStr (py.str_take 50 (py.strip name)))
  /\ profile !! "energy_level" = Some (mood_to_music.JStr (py.lower energy))
  /\ profile !! "tempo_feeling" = Some (mood_to_music.JStr (py.lower tempo))
  /\ profile !! "visual_imagery" = Some (mood_to_music.JArr (firstn 5 imagery))
  /\ profile !! "movement_quality"
     = Some (mood_to_music.JStr (py.str_take 100 (py.strip movement)))
  /\ profile !! "color_palette" = Some (mood_to_music.JArr (firstn 3 palette))
  /\ profile !! "search_keywords" = Some (mood_to_music.JArr (firstn 5 keywords)).

(** The normalization as the specification states it: every JSON object
    with non-empty list fields [emotional_tags] and [genres] and a
    non-empty string [playlist_name] yields a profile. *)
Definition extraction_as_stated
    (json_loads : string -> option mood_to_music.json) (response : string) : Prop :=
  forall fields tags genres name,
    json_loads (mood_to_music.clean_response response)
    = Some (mood_to_music.JObj fields) ->
    fields !! "emotional_tags" = Some (mood_to_music.JArr tags) -> tags <> [] ->
    fields !! "genres" = Some (mood_to_music.JArr genres) -> genres <> [] ->
    fields !! "playlist_name" = Some (mood_to_music.JStr name) ->
    name <> EmptyString ->
    exists profile,
      mood_to_music.extract_mood_components json_loads response = py.Ok profile
      /\ forall tag_strings genre_strings energy tempo imagery movement
                palette keywords,
          firstn 3 tags = mood_to_music.JStr <$> tag_strings ->
          firstn 3 genres = mood_to_music.JStr <$> genre_strings ->
          optional_string fields "energy_level" "medium" = Some energy ->
          optional_string fields "tempo_feeling" "moderate" = Some tempo ->
          optional_list fields "visual_imagery" = Some imagery ->
          optional_string fields "movement_quality" "" = Some movement ->
          optional_list fields "color_palette" = Some palette ->
          optional_list fields "search_keywords" = Some keywords ->
          profile_facts profile tag_strings genre_strings name energy tempo
            imagery movement palette keywords.

(** Rounding to the nearest integer, halves upwards. *)
Definition round (x : Q) : Z := Qfloor (x + (1 # 2))%Q.

(** Cutting off the fractional part (towards zero). *)
Definition truncate (x : Q) : Z :=
  if Qle_bool 0 x then Qfloor x else Qceiling x.

(** "deduplicate preserving first occurrence by unique track identifier" *)
Fixpoint first_occurrences (tracks : list Track) : list Track :=
  match tracks with
  | [] => []
  | t :: rest => t :: filter (fun t' => uri t' ≠ uri t) (first_occurrences rest)
  end.

(** "containing the word": the word is a piece of the text. *)
Definition contains_word (word text : string) : Prop :=
  exists pre post, text = pre +:+ word +:+ post.

(** A keyword family matches a text when one of its words is a piece of
    the text, letter case of the text aside. *)
Definition family_matches (words : list string) (text : string) : Prop :=
  exists word, In word words /\ contains_word word (py.lower text).

(** "a canned emotional_tags, genres, playlist_name triple": a profile
    that holds these three fields with these values and no other field. *)
Definition canned_triple (emotional_tags genres : list string)
    (playlist_name : string) (profile : gmap string mood_to_music.json) : Prop :=
  profile !! "emotional_tags"
  = Some (mood_to_music.JArr (mood_to_music.JStr <$> emotional_tags))
  /\ profile !! "genres"
     = Some (mood_to_music.JArr (mood_to_music.JStr <$> genres))
  /\ profile !! "playlist_name" = Some (mood_to_music.JStr playlist_name)
  /\ forall key,
       profile !! key <> None ->
       key = "emotional_tags" \/ key = "genres" \/ key = "playlist_name".

(** The result of [search_tracks] as the specification states it:
    no error, no uri twice, at most [limit] tracks, the first [limit]
    entries of a permutation of the deduplicated pool, and the whole
    pool when it has fewer than [limit] tracks (or exactly [limit]). *)
Definition search_result_as_stated
    (outcome : py.Result (list Track)) (pool : list Track) (limit : Z) : Prop :=
  exists result,
    outcome = py.Ok result
    /\ NoDup (uri <$> result)
    /\ (Z.of_nat (length result) <= limit)%Z
    /\ (exists shuffled, shuffled ≡ₚ pool
                         /\ result = firstn (Z.to_nat limit) shuffled)
    /\ ((Z.of_nat (length pool) <= limit)%Z -> result ≡ₚ pool).

End spec.

(** ** Sample sessions and clients, used to instantiate the theorems *)

Module demo.

Import spotify_client.

(** A catalog that answers every search with one track, named after the
    query, and accepts every playlist request. *)
Definition track_for (q : string) : CatalogTrack :=
  {| t_name := "Song"; t_artists := ["Artist"];
     t_uri := "spotify:track:" +:+ q; t_preview_url := None;
     t_external_urls := [("spotify", "https://open.spotify.com/track/" +:+ q)] |}.

Definition session : Spotify :=
  {| current_user := fun _ => py.Ok (Some "listener");
     search := fun _ q _ => py.Ok [track_for q];
     user_playlist_create :=
       fun _ _ _ _ _ =>
         py.Ok {| pl_id := "p1";
                  pl_external_urls :=
                    [("spotify", "https://open.spotify.com/playlist/p1")] |};
     playlist_add_items := fun _ _ _ => py.Ok tt |}.

Definition fresh_client : SpotifyClient := init "id" "secret" "http://localhost".

Definition client : SpotifyClient := snd (fst (authenticate fresh_client session)).

(** An environment with a credential, and one without. *)
Definition environ : gmap string string := {[ "OPENAI_API_KEY" := "sk-demo" ]}.
Definition no_environ : gmap string string := ∅.

(** A language model that answers with text that is not JSON, and a
    [json.loads] that rejects every text. *)
Definition chat_prose (api_key : string) (request : mood_to_music.ChatRequest)
  : py.Result (list (option string)) :=
  py.Ok [Some "I think you feel calm."].

Definition loads_nothing (text : string) : option mood_to_music.json := None.

(** A language model whose service is unreachable. *)
Definition chat_down (api_key : string) (request : mood_to_music.ChatRequest)
  : py.Result (list (option string)) :=
  py.Raise (py.OtherError "connection refused").

Definition prompt_of (mood_text : string) : string := "Mood: " +:+ mood_text.

(** A text inside a Markdown code fence. *)
Definition newline : string := String (ascii_of_nat 10) EmptyString.

Definition fenced (text : string) : string :=
  "```json" +:+ newline +:+ text +:+ newline +:+ "```".

(** An image service that returns one url, one that is down, and
    downloads that succeed or are refused. *)
Definition images_ok (api_key : string) (request : image_generator.ImageRequest)
  : py.Result (list string) :=
  py.Ok ["https://images.example/1.png"].

Definition images_down (api_key : string) (request : image_generator.ImageRequest)
  : py.Result (list string) :=
  py.Raise (py.OtherError "connection refused").

Definition download_ok (url : string) : py.Result (Z * string) :=
  py.Ok (200%Z, "PNG").

Definition download_forbidden (url : string) : py.Result (Z * string) :=
  py.Ok (403%Z, "").

Definition b64_stub (content : string) : string := "UE5H".

(** A [json.loads] that knows one text. *)
Definition loads_only (text : string) (value : mood_to_music.json) (s : string)
  : option mood_to_music.json :=
  if String.eqb s text then Some value else None.

Definition quoted (s : string) : string :=
  spotify_client.dquote +:+ s +:+ spotify_client.dquote.

(** A complete answer of the language model. *)
Definition answer_text : string :=
  "{" +:+ quoted "emotional_tags" +:+ ": [" +:+ quoted " Ethereal "
    +:+ ", " +:+ quoted "peaceful" +:+ "], "
    +:+ quoted "genres" +:+ ": [" +:+ quoted "Ambient" +:+ "], "
    +:+ quoted "playlist_name" +:+ ": " +:+ quoted "Dawn Mist Floating" +:+ ", "
    +:+ quoted "energy_level" +:+ ": " +:+ quoted "Low" +:+ "}".

Definition answer : gmap string mood_to_music.json :=
  {[ "emotional_tags" := mood_to_music.jstrings [" Ethereal "; "peaceful"];
     "genres" := mood_to_music.jstrings ["Ambient"];
     "playlist_name" := mood_to_music.JStr "Dawn Mist Floating";
     "energy_level" := mood_to_music.JStr "Low" ]}.

(** An answer whose [energy_level] is [null]. *)
Definition null_energy_text : string :=
  "{" +:+ quoted "emotional_tags" +:+ ": [" +:+ quoted "calm" +:+ "], "
    +:+ quoted "genres" +:+ ": [" +:+ quoted "ambient" +:+ "], "
    +:+ quoted "playlist_name" +:+ ": " +:+ quoted "Dawn" +:+ ", "
    +:+ quoted "energy_level" +:+ ": null}".

Definition null_energy : gmap string mood_to_music.json :=
  {[ "emotional_tags" := mood_to_music.jstrings ["calm"];
     "genres" := mood_to_music.jstrings ["ambient"];
     "playlist_name" := mood_to_music.JStr "Dawn";
     "energy_level" := mood_to_music.JNull ]}.

(** An answer without genres. *)
Definition no_genres_text : string :=
  "{" +:+ quoted "emotional_tags" +:+ ": [" +:+ quoted "calm" +:+ "], "
    +:+ quoted "genres" +:+ ": [], "
    +:+ quoted "playlist_name" +:+ ": " +:+ quoted "Dawn" +:+ "}".

Definition no_genres : gmap string mood_to_music.json :=
  {[ "emotional_tags" := mood_to_music.jstrings ["calm"];
     "genres" := mood_to_music.JArr [];
     "playlist_name" := mood_to_music.JStr "Dawn" ]}.

(** A catalog whose search is down, one that refuses to create playlists
    and one that creates them but refuses the tracks. *)
Definition session_search_down : Spotify :=
  {| current_user := current_user session;
     search := fun _ _ _ => py.Raise (py.OtherError "503");
     user_playlist_create := user_playlist_create session;
     playlist_add_items := playlist_add_items session |}.

Definition session_create_refused : Spotify :=
  {| current_user := current_user session;
     search := search session;
     user_playlist_create := fun _ _ _ _ _ => py.Raise (py.OtherError "403");
     playlist_add_items := playlist_add_items session |}.

Definition session_add_refused : Spotify :=
  {| current_user := current_user session;
     search := search session;
     user_playlist_create := user_playlist_create session;
     playlist_add_items := fun _ _ _ => py.Raise (py.OtherError "403") |}.

(** A service that rejects the credentials. *)
Definition session_login_fails : Spotify :=
  {| current_user := fun _ => py.Raise (py.OtherError "401");
     search := search session;
     user_playlist_create := user_playlist_create session;
     playlist_add_items := playlist_add_items session |}.

Definition client_of (s : Spotify) : SpotifyClient :=
  snd (fst (authenticate fresh_client s)).

(** A language model that answers with the complete answer in a code
    fence. *)
Definition chat_answer (api_key : string) (request : mood_to_music.ChatRequest)
  : py.Result (list (option string)) :=
  py.Ok [Some (fenced answer_text)].

(** An environment with the video credential, and a client library that
    accepts it. *)
Definition google_environ : gmap string string :=
  {[ "GOOGLE_AI_API_KEY" := "g-demo" ]}.

Definition configure_ok (api_key : string) : py.Result unit := py.Ok tt.

Definition download_video_ok (url : string) (timeout : Z)
  : py.Result (Z * string) :=
  py.Ok (200%Z, "bytes").

End demo.

(* ================================================================== *)
(** * Properties *)

(** ** Facts about the string operations *)

Lemma str_take_length (n : nat) (s : string) :
  (String.length (py.str_take n s) <= n)%nat.
Proof.
  revert s. induction n as [|n IH]; intros [|c s]; simpl; try lia.
  specialize (IH s). lia.
Qed.

Lemma string_app_length (s t : string) :
  String.length (s +:+ t) = (String.length s + String.length t)%nat.
Proof. induction s as [|c s IH]; simpl; [reflexivity | now rewrite IH]. Qed.

Lemma truncate_bound (n : nat) (s : string) :
  (String.length (if (n <? String.length s)%nat
                  then py.str_take n s +:+ "..." else s) <= n + 3)%nat.
Proof.
  destruct (n <? String.length s)%nat eqn:E.
  - rewrite string_app_length. pose proof (str_take_length n s). simpl. lia.
  - apply Nat.ltb_ge in E. lia.
Qed.

(** ** Prompt composer: length budget *)

(** C1: the budget of 900 characters for the image prompt and of 800 for
    the video prompt is exceeded: with one 1000-character entry in
    [visual_imagery] the composed text is cut to 900 (resp. 800) characters
    and the marker is appended after the cut, which gives 903 (resp. 803)
    characters. *)
Theorem prompt_length_exceeds_budget :
  String.length
    (image_generator.create_image_prompt [] [] None
       (Some [py.str_mul "x" 1000]) None None None) = 903%nat
  /\ String.length
       (video_generator.create_video_prompt [] [] (Some "calm")
          (Some [py.str_mul "x" 1000]) None None None) = 803%nat.
Proof. split; vm_compute; reflexivity. Qed.

(** The excess is never more than the three characters of the marker. *)
Lemma prompt_length_bound
    (emotional_tags genres : list string) (mood_text : option string)
    (visual_imagery : option (list string)) (movement_quality : option string)
    (color_palette : option (list string)) (energy_level : option string) :
  (String.length
     (image_generator.create_image_prompt emotional_tags genres mood_text
        visual_imagery movement_quality color_palette energy_level) <= 903)%nat
  /\ (String.length
        (video_generator.create_video_prompt emotional_tags genres mood_text
           visual_imagery movement_quality color_palette energy_level) <= 803)%nat.
Proof.
  split.
  - unfold image_generator.create_image_prompt. cbv zeta.
    apply (truncate_bound 900).
  - unfold video_generator.create_video_prompt. cbv zeta.
    apply (truncate_bound 800).
Qed.

(** A text of up to 900 (resp. 800) characters is returned as composed,
    and then the budget holds. *)
Lemma prompt_within_budget
    (emotional_tags genres : list string) (mood_text : option string)
    (visual_imagery : option (list string)) (movement_quality : option string)
    (color_palette : option (list string)) (energy_level : option string) :
  let composed :=
    image_generator.full_prompt emotional_tags genres mood_text visual_imagery
      movement_quality color_palette energy_level in
  (String.length composed <= 900)%nat ->
  image_generator.create_image_prompt emotional_tags genres mood_text
    visual_imagery movement_quality color_palette energy_level = composed.
Proof.
  intros composed Hshort. unfold image_generator.create_image_prompt.
  fold composed. cbv zeta.
  destruct (Nat.ltb_spec 900 (String.length composed)) as [Hlong|_];
    [lia | reflexivity].
Qed.

(** A prompt within the budget is returned as composed. *)
Example prompt_uncut :
  image_generator.create_image_prompt ["calm"; "dreamy"] ["ambient"; "folk"]
    (Some "floating through morning mist") None None None None
  = "Abstract visual representation of 'floating through morning mist'. steady, rhythmic, balanced energy. soft blues and pearl whites. atmospheric, ethereal, abstract flows, organic, natural textures, hand-crafted feel. digital art, masterpiece quality, highly detailed, artistic composition, no text or words".
Proof. vm_compute. reflexivity. Qed.

(** ** Catalog search: the query batch *)

Lemma fold_left_snoc {A B} (f : B -> list A) (l : list B) (init : list A) :
  fold_left (fun acc x => acc ++ f x) l init = init ++ flat_map f l.
Proof.
  revert init. induction l as [|x l IH]; intros init; simpl.
  - now rewrite app_nil_r.
  - rewrite IH. now rewrite <- app_assoc.
Qed.

Lemma fold_left_pointwise {A B} (f g : A -> B -> A) (l : list B) (init : A) :
  (forall a b, f a b = g a b) -> fold_left f l init = fold_left g l init.
Proof.
  intros Hfg. revert init. induction l as [|x l IH]; intros init; simpl.
  - reflexivity.
  - now rewrite Hfg, IH.
Qed.

Lemma flat_map_singleton {A B} (f : B -> A) (l : list B) :
  flat_map (fun x => [f x]) l = map f l.
Proof. induction l as [|x l IH]; simpl; [reflexivity | now rewrite IH]. Qed.

Section QueryBatch.

Context {A : arithmetic.Arithmetic}.

Lemma recognized_table (level : string) :
  py.str_truthy level = true ->
  forall terms, py.dict_get spotify_client.energy_terms level = Some terms ->
  spec.recognized (Some level) = Some level.
Proof.
  intros _ terms H. unfold spotify_client.energy_terms in H. cbn [py.dict_get] in H.
  unfold spec.recognized.
  destruct (String.eqb_spec "low" level) as [<-|]; [reflexivity|].
  destruct (String.eqb_spec "medium" level) as [<-|]; [reflexivity|].
  destruct (String.eqb_spec "high" level) as [<-|]; [reflexivity|].
  discriminate.
Qed.

Lemma unrecognized_table (level : string) :
  py.dict_get spotify_client.energy_terms level = None ->
  spec.recognized (Some level) = None.
Proof.
  unfold spotify_client.energy_terms. cbn [py.dict_get].
  destruct (String.eqb_spec "low" level) as [El|Hl]; [discriminate|].
  destruct (String.eqb_spec "medium" level) as [Em|Hm]; [discriminate|].
  destruct (String.eqb_spec "high" level) as [Eh|Hh]; [discriminate|].
  intros _. unfold spec.recognized.
  rewrite bool_decide_eq_false_2; [reflexivity|].
  rewrite !elem_of_cons, elem_of_nil. intros [->|[->|[->|[]]]]; congruence.
Qed.

(** The loops of [search_tracks] build the batch the specification lists. *)
Lemma build_search_queries_batch
    (genres keywords : list string) (energy_level : option string) :
  spotify_client.build_search_queries genres keywords energy_level
  = spec.query_batch genres keywords energy_level.
Proof.
  unfold spotify_client.build_search_queries, spec.query_batch. cbv zeta.
  set (gq := fold_left _ genres []).
  assert (Hg : gq = spec.genre_queries genres).
  { unfold gq. rewrite (fold_left_snoc (fun g => [_])). simpl.
    apply flat_map_singleton. }
  set (kq := fold_left _ (firstn 3 keywords) gq).
  assert (Hk : kq = spec.genre_queries genres ++ spec.keyword_queries genres keywords).
  { unfold kq, spec.keyword_queries. rewrite Hg. destruct genres as [|g0 gs].
    - rewrite (fold_left_snoc (fun k => [_])). reflexivity.
    - rewrite <- (fold_left_snoc (fun k => [_; _])).
      apply fold_left_pointwise. intros acc k. now rewrite <- app_assoc. }
  unfold spec.energy_queries.
  destruct energy_level as [level|]; [|simpl; now rewrite Hk, app_nil_r].
  destruct (py.str_truthy level) eqn:Ht.
  - destruct (py.dict_get spotify_client.energy_terms level) as [terms|] eqn:Hd.
    + rewrite (recognized_table level Ht terms Hd).
      unfold spec.energy_table. rewrite Hd. simpl default.
      rewrite (fold_left_snoc (fun t => [_])), flat_map_singleton.
      now rewrite Hk, <- app_assoc.
    + rewrite (unrecognized_table level Hd). now rewrite Hk, app_nil_r.
  - destruct level; [|discriminate]. simpl. now rewrite Hk, app_nil_r.
Qed.

(** C4 (as amended): the batch is, in this order, one [genre:<g>] query of
    weight 0.4 per genre; for each of the first 3 keywords a
    [<keyword> genre:<primaryGenre>] query of weight 0.3 (only when a genre
    exists) followed by the plain keyword with weight 0.2; and for a
    recognized energy level one [<term> <primaryGenre-or-empty>] query of
    weight 0.1 for each of the first 2 terms of the level's table, which
    has 4 terms for low and high and 3 terms for medium. *)
Theorem search_queries_batch
    (genres keywords : list string) (energy_level : option string) :
  spotify_client.build_search_queries genres keywords energy_level
  = spec.genre_queries genres
      ++ spec.keyword_queries genres keywords
      ++ spec.energy_queries genres energy_level
  /\ length (spec.energy_table "low") = 4%nat
  /\ length (spec.energy_table "medium") = 3%nat
  /\ length (spec.energy_table "high") = 4%nat.
Proof.
  split; [apply build_search_queries_batch|].
  repeat split.
Qed.

End QueryBatch.

(** C4, refuted as stated: the table of the medium level has three terms,
    not four. *)
Lemma search_queries_batch_counterexample :
  ~ spec.query_batch_as_stated (A := arithmetic.binary64)
      ["ambient"] [] (Some "medium").
Proof.
  intros [_ H]. specialize (H "medium" eq_refl). vm_compute in H. discriminate.
Qed.

(** C10: [tempo_feeling] does not influence [search_tracks]: two calls
    that differ only in it issue the same requests and return the same
    tracks. *)
Theorem search_tracks_ignores_tempo {A : arithmetic.Arithmetic}
    (shuffle : list spotify_client.Track -> list spotify_client.Track)
    (self : spotify_client.SpotifyClient) (genres : list string) (limit : Z)
    (search_keywords : option (list string))
    (energy_level tempo_feeling tempo_feeling' : option string) :
  spotify_client.search_tracks shuffle self genres limit search_keywords
    energy_level tempo_feeling
  = spotify_client.search_tracks shuffle self genres limit search_keywords
      energy_level tempo_feeling'.
Proof.
  unfold spotify_client.search_tracks.
  destruct (spotify_client.sp self) as [s|]; reflexivity.
Qed.

(** ** Catalog search: quotas *)

Lemma int_of_Q_truncate (x : Q) : arithmetic.int_of_Q x = spec.truncate x.
Proof.
  destruct x as [n d]. unfold arithmetic.int_of_Q, spec.truncate,
    Qle_bool, Qfloor, Qceiling, Qopp. cbn [Qnum Qden].
  rewrite Z.mul_0_l, Z.mul_1_r.
  destruct (Z.leb_spec 0 n) as [Hn|Hn].
  - apply Z.quot_div_nonneg; lia.
  - replace n with (- (- n))%Z at 1 by lia.
    rewrite Z.quot_opp_l by lia. f_equal. apply Z.quot_div_nonneg; lia.
Qed.

Lemma append_items_app (source : string) (items : list spotify_client.CatalogTrack)
    (acc : list spotify_client.Track) :
  spotify_client.append_items source items acc
  = acc ++ spotify_client.append_items source items [].
Proof.
  revert acc. induction items as [|t items IH]; intros acc; simpl.
  - now rewrite app_nil_r.
  - destruct (spotify_client.track_info source t) as [ti|e].
    + rewrite IH, (IH [ti]). now rewrite <- app_assoc.
    + now rewrite app_nil_r.
Qed.

Section Quota.

Context {A : arithmetic.Arithmetic}.

(** [int] cuts the fraction off: the quota of the code is the quota of the
    specification with truncation in the place of rounding. *)
Lemma tracks_needed_truncated (w total : arithmetic.number) (limit : Z) :
  spotify_client.tracks_needed w total limit
  = spec.quota_with spec.truncate w total limit.
Proof.
  unfold spotify_client.tracks_needed, spec.quota_with, arithmetic.int_of.
  destruct (arithmetic.div w total) as [share|e]; [|reflexivity].
  destruct (arithmetic.of_int limit) as [limit'|e]; [|reflexivity].
  cbn [py.bind]. destruct (arithmetic.value _) as [x|]; [|reflexivity].
  cbn [py.bind]. now rewrite int_of_Q_truncate.
Qed.

(** The loop over the batch: every query whose quota can be computed is
    sent once, in order, with the quota as its limit, whether or not
    earlier requests failed; the tracks collected are the per-query
    results, concatenated. *)
Lemma run_queries_loop (s : spotify_client.Spotify) (total : arithmetic.number)
    (limit : Z) (queries : list spotify_client.Query)
    (acc : list spotify_client.Track) (calls : list spotify_client.Call) :
  fold_left (spotify_client.run_query s total limit) queries (acc, calls)
  = (acc ++ concat (spec.per_query_results s total limit queries calls),
     calls ++ flat_map
                (fun q =>
                   match spotify_client.tracks_needed (spotify_client.weight q)
                           total limit with
                   | py.Ok n =>
                       [spotify_client.Search (spotify_client.query q) "track" n "US"]
                   | py.Raise _ => []
                   end)
                queries).
Proof.
  revert acc calls. induction queries as [|q queries IH]; intros acc calls.
  - simpl. now rewrite !app_nil_r.
  - cbn [fold_left spec.per_query_results flat_map].
    unfold spotify_client.run_query at 2.
    destruct (spotify_client.tracks_needed (spotify_client.weight q) total limit)
      as [n|e].
    + destruct (spotify_client.search s calls (spotify_client.query q) n)
        as [items|e]; rewrite IH; cbn [concat].
      * rewrite append_items_app. now rewrite <- !app_assoc.
      * now rewrite <- !app_assoc.
    + rewrite IH. reflexivity.
Qed.

Lemma search_tracks_unfold
    (shuffle : list spotify_client.Track -> list spotify_client.Track)
    (self : spotify_client.SpotifyClient) (s : spotify_client.Spotify)
    (genres : list string) (limit : Z) (search_keywords : option (list string))
    (energy_level tempo_feeling : option string) :
  spotify_client.sp self = Some s ->
  let batch := spotify_client.build_search_queries genres
                 (py.list_or search_keywords []) energy_level in
  let total := spotify_client.total_weight batch in
  spotify_client.search_tracks shuffle self genres limit search_keywords
    energy_level tempo_feeling
  = (py.Ok (py.slice_to
              (shuffle (spotify_client.remove_duplicates
                          (concat (spec.per_query_results s total limit batch []))))
              limit),
     spec.requests_with spotify_client.tracks_needed batch limit).
Proof.
  intros Hsp batch total. unfold spotify_client.search_tracks. rewrite Hsp.
  cbv zeta. fold batch. fold total. now rewrite run_queries_loop.
Qed.

End Quota.

(** C2 (as amended): for every query of the batch for which the quota
    expression evaluates, one search is requested, and its limit is
    [max(1, t)] where [t] is the value of [weight / total_weight * limit]
    in the arithmetic of the code with its fractional part cut off
    (truncation towards zero, not rounding to nearest). *)
Theorem search_tracks_quota {A : arithmetic.Arithmetic}
    (shuffle : list spotify_client.Track -> list spotify_client.Track)
    (self : spotify_client.SpotifyClient) (s : spotify_client.Spotify)
    (genres : list string) (limit : Z) (search_keywords : option (list string))
    (energy_level tempo_feeling : option string) :
  spotify_client.sp self = Some s ->
  snd (spotify_client.search_tracks shuffle self genres limit search_keywords
         energy_level tempo_feeling)
  = spec.requests_with (spec.quota_with spec.truncate)
      (spec.query_batch genres (py.list_or search_keywords []) energy_level) limit.
Proof.
  intros Hsp. rewrite (search_tracks_unfold _ _ s) by exact Hsp. cbn [snd].
  rewrite build_search_queries_batch. unfold spec.requests_with.
  apply flat_map_ext. intros q. now rewrite tracks_needed_truncated.
Qed.

Lemma search_tracks_quota_witness :
  snd (spotify_client.search_tracks (A := arithmetic.binary64) (@rev _)
         demo.client ["ambient"; "folk"] 15
         (Some ["dawn"]) (Some "low") (Some "slow"))
  = spec.requests_with (A := arithmetic.binary64) (spec.quota_with spec.truncate)
      (spec.query_batch ["ambient"; "folk"] (py.list_or (Some ["dawn"]) [])
         (Some "low")) 15.
Proof.
  apply (search_tracks_quota (A := arithmetic.binary64) (@rev _)
           demo.client demo.session).
  reflexivity.
Defined.

(** C2, refuted as stated: three genres and a limit of 20 give each query
    the share 1/3, that is 6.67 tracks; 6 are requested, and rounding to
    nearest would request 7.  This holds in binary64 and in exact
    arithmetic alike. *)
Lemma search_tracks_quota_counterexample :
  snd (spotify_client.search_tracks (A := arithmetic.binary64) (fun l => l)
         demo.client ["ambient"; "folk"; "indie"] 20 None None None)
  <> spec.requests_with (A := arithmetic.binary64) (spec.quota_with spec.round)
       (spec.query_batch ["ambient"; "folk"; "indie"] [] None) 20.
Proof. vm_compute. discriminate. Qed.

(** The requests of that call, in both arithmetics. *)
Example quota_three_genres_binary64 :
  snd (spotify_client.search_tracks (A := arithmetic.binary64) (fun l => l)
         demo.client ["ambient"; "folk"; "indie"] 20 None None None)
  = [ spotify_client.Search "genre:ambient" "track" 6 "US";
      spotify_client.Search "genre:folk" "track" 6 "US";
      spotify_client.Search "genre:indie" "track" 6 "US" ].
Proof. vm_compute. reflexivity. Qed.

Example quota_three_genres_exact :
  snd (spotify_client.search_tracks (A := arithmetic.exact) (fun l => l)
         demo.client ["ambient"; "folk"; "indie"] 20 None None None)
  = [ spotify_client.Search "genre:ambient" "track" 6 "US";
      spotify_client.Search "genre:folk" "track" 6 "US";
      spotify_client.Search "genre:indie" "track" 6 "US" ]
  /\ spec.requests_with (A := arithmetic.exact) (spec.quota_with spec.round)
       (spec.query_batch ["ambient"; "folk"; "indie"] [] None) 20
     = [ spotify_client.Search "genre:ambient" "track" 7 "US";
         spotify_client.Search "genre:folk" "track" 7 "US";
         spotify_client.Search "genre:indie" "track" 7 "US" ].
Proof. split; vm_compute; reflexivity. Qed.

(** In exact arithmetic the quota expression always evaluates: the total
    weight of a batch that has a query is positive. *)
Lemma exact_weights_positive (genres keywords : list string)
    (energy_level : option string) :
  Forall (fun q => (0 < spotify_client.weight (A := arithmetic.exact) q)%Q)
    (spec.query_batch genres keywords energy_level).
Proof.
  unfold spec.query_batch, spec.genre_queries, spec.keyword_queries,
    spec.energy_queries.
  rewrite !Forall_app. repeat split; apply List.Forall_forall; intros q Hq.
  - apply in_map_iff in Hq as (g & <- & _). reflexivity.
  - apply in_flat_map in Hq as (k & _ & Hq).
    destruct genres as [|primary rest]; cbn in Hq.
    + destruct Hq as [<-|[]]. reflexivity.
    + destruct Hq as [<-|[<-|[]]]; reflexivity.
  - destruct (spec.recognized energy_level) as [level|]; [|contradiction].
    apply in_map_iff in Hq as (term & <- & _). reflexivity.
Qed.

Lemma exact_sum_positive (weights : list Q) (start : Q) :
  Forall (fun w => (0 < w)%Q) weights -> (0 <= start)%Q ->
  weights <> [] \/ (0 < start)%Q ->
  (0 < fold_left Qplus weights start)%Q.
Proof.
  intros Hpos. revert start. induction Hpos as [|w weights Hw _ IH];
    intros start Hstart Hne; cbn [fold_left].
  - destruct Hne as [Hne|Hne]; [congruence|exact Hne].
  - assert (0 < start + w)%Q.
    { apply Qlt_le_trans with (y := (0 + w)%Q).
      - now rewrite Qplus_0_l.
      - apply Qplus_le_l. exact Hstart. }
    apply IH; [now apply Qlt_le_weak | now right].
Qed.

Lemma exact_quota (genres keywords : list string) (energy_level : option string)
    (limit : Z) (q : spotify_client.Query (A := arithmetic.exact)) :
  let batch := spec.query_batch (A := arithmetic.exact) genres keywords
                 energy_level in
  let total := spotify_client.total_weight batch in
  In q batch ->
  spotify_client.tracks_needed (A := arithmetic.exact)
    (spotify_client.weight q) total limit
  = py.Ok (Z.max 1 (spec.truncate
                      ((spotify_client.weight q / total) * inject_Z limit)%Q)).
Proof.
  intros batch total Hq.
  assert (Htotal : (0 < total)%Q).
  { unfold total, spotify_client.total_weight. cbn [arithmetic.sum arithmetic.exact].
    apply exact_sum_positive.
    - apply List.Forall_forall. intros w Hw.
      apply in_map_iff in Hw as (q' & <- & Hq').
      pose proof (exact_weights_positive genres keywords energy_level) as Hall.
      rewrite List.Forall_forall in Hall. now apply Hall.
    - apply Qle_refl.
    - left. destruct batch; [contradiction|discriminate]. }
  rewrite tracks_needed_truncated. unfold spec.quota_with.
  cbn [arithmetic.div arithmetic.of_int arithmetic.mul arithmetic.value
         arithmetic.exact py.bind].
  destruct (Qeq_bool total 0) eqn:Hz; [|reflexivity].
  apply Qeq_bool_iff in Hz. rewrite Hz in Htotal.
  now apply Qlt_irrefl in Htotal.
Qed.

(** Binary64 and exact arithmetic can disagree where the exact product is
    an integer: with two genres, one keyword, a recognized energy level
    and a limit of 15 the keyword-and-genre query has the exact share
    0.3 / 1.5 * 15 = 3, but the product of the floats lies just below 3. *)
Example quota_binary64_below_exact :
  spotify_client.tracks_needed (A := arithmetic.binary64)
    (arithmetic.literal 0.3)
    (spotify_client.total_weight
       (spotify_client.build_search_queries ["ambient"; "folk"] ["dawn"]
          (Some "low")))
    15
  = py.Ok 2%Z
  /\ spotify_client.tracks_needed (A := arithmetic.exact)
       (arithmetic.literal 0.3)
       (spotify_client.total_weight
          (spotify_client.build_search_queries ["ambient"; "folk"] ["dawn"]
             (Some "low")))
       15
     = py.Ok 3%Z.
Proof. split; vm_compute; reflexivity. Qed.

(** ** Catalog search: deduplication, shuffle and truncation *)

Section Dedup.

Import spotify_client.

Lemma dedup_loop (tracks : list Track) (seen : gset string) (unique : list Track) :
  snd (fold_left dedup_step tracks (seen, unique))
  = unique ++ filter (fun t => uri t ∉ seen) (spec.first_occurrences tracks).
Proof.
  revert seen unique. induction tracks as [|t tracks IH]; intros seen unique.
  - simpl. now rewrite app_nil_r.
  - cbn [fold_left spec.first_occurrences]. unfold dedup_step at 2.
    destruct (decide (uri t ∈ seen)) as [Hin|Hnin].
    + rewrite IH. f_equal. rewrite filter_cons_False by auto.
      rewrite list_filter_filter. apply list_filter_iff.
      intros t'. split; [|tauto]. intros Hn. split; [exact Hn|].
      intros Heq. apply Hn. now rewrite Heq.
    + rewrite IH, <- app_assoc. f_equal. rewrite filter_cons_True by exact Hnin.
      cbn [app]. f_equal. rewrite list_filter_filter. apply list_filter_iff.
      intros t'. rewrite not_elem_of_union, not_elem_of_singleton. tauto.
Qed.

(** The loop with [seen_uris] keeps the first track of every uri. *)
Lemma remove_duplicates_first_occurrences (tracks : list Track) :
  remove_duplicates tracks = spec.first_occurrences tracks.
Proof.
  unfold remove_duplicates. rewrite dedup_loop. cbn [app].
  induction (spec.first_occurrences tracks) as [|t l IH]; [reflexivity|].
  rewrite filter_cons_True by apply not_elem_of_empty. now rewrite IH.
Qed.

Lemma first_occurrences_NoDup (tracks : list Track) :
  NoDup (uri <$> spec.first_occurrences tracks).
Proof.
  induction tracks as [|t tracks IH]; cbn [spec.first_occurrences fmap list_fmap].
  - constructor.
  - constructor.
    + rewrite list_elem_of_fmap. intros (t' & Heq & Hin).
      apply list_elem_of_filter in Hin as [Hne _]. congruence.
    + eapply sublist_NoDup; [exact IH|].
      apply fmap_sublist, sublist_filter.
Qed.

(** Every uri of the collected tracks is still there after the removal. *)
Lemma first_occurrences_uris (tracks : list Track) (u : string) :
  u ∈ uri <$> spec.first_occurrences tracks <-> u ∈ uri <$> tracks.
Proof.
  induction tracks as [|t tracks IH]; cbn [spec.first_occurrences]; [reflexivity|].
  rewrite !fmap_cons, !elem_of_cons, <- IH, !list_elem_of_fmap.
  split.
  - intros [->|(t' & -> & Hin)]; [now left|].
    apply list_elem_of_filter in Hin as [_ Hin]. right. eauto.
  - intros [->|(t' & -> & Hin)]; [now left|].
    destruct (decide (uri t' = uri t)) as [Heq|Hne]; [now left|].
    right. exists t'. split; [reflexivity|].
    apply list_elem_of_filter. auto.
Qed.

End Dedup.

(** C3: for an authenticated client and a requested number [L] of tracks
    (a count, so [0 <= L]), [search_tracks] returns without error a list
    with no uri twice and at most [L] tracks, namely the first [L] entries
    of a permutation of the pool (the concatenated per-query results with
    only the first track of each uri kept); when the pool has fewer than
    [L] tracks, or exactly [L], all of it is returned. *)
Theorem search_tracks_result {A : arithmetic.Arithmetic}
    (shuffle : list spotify_client.Track -> list spotify_client.Track)
    (self : spotify_client.SpotifyClient) (s : spotify_client.Spotify)
    (genres : list string) (limit : Z) (search_keywords : option (list string))
    (energy_level tempo_feeling : option string) :
  (forall l, shuffle l ≡ₚ l) ->
  spotify_client.sp self = Some s ->
  (0 <= limit)%Z ->
  let batch := spotify_client.build_search_queries genres
                 (py.list_or search_keywords []) energy_level in
  let pool :=
    spec.first_occurrences
      (concat (spec.per_query_results s (spotify_client.total_weight batch)
                 limit batch [])) in
  spec.search_result_as_stated
    (fst (spotify_client.search_tracks shuffle self genres limit search_keywords
            energy_level tempo_feeling))
    pool limit.
Proof.
  intros Hperm Hsp Hlimit batch pool.
  rewrite (search_tracks_unfold _ _ s) by exact Hsp. cbn [fst].
  rewrite remove_duplicates_first_occurrences. fold batch. fold pool.
  unfold py.slice_to. destruct (Z.leb_spec 0 limit) as [_|]; [|lia].
  exists (firstn (Z.to_nat limit) (shuffle pool)). split; [reflexivity|].
  split; [|split; [|split]].
  - eapply sublist_NoDup; [|apply fmap_sublist, sublist_take].
    rewrite (Hperm pool). apply first_occurrences_NoDup.
  - rewrite length_take. lia.
  - exists (shuffle pool). split; [apply Hperm | reflexivity].
  - intros Hsmall. rewrite take_ge; [apply Hperm|].
    rewrite (Hperm pool). lia.
Qed.

Lemma search_tracks_result_witness :
  let batch := spotify_client.build_search_queries (A := arithmetic.binary64)
                 ["ambient"; "folk"]
                 (py.list_or (Some ["dawn"; "mist"]) []) (Some "low") in
  spec.search_result_as_stated
    (fst (spotify_client.search_tracks (A := arithmetic.binary64) (@rev _)
            demo.client ["ambient"; "folk"] 3
            (Some ["dawn"; "mist"]) (Some "low") None))
    (spec.first_occurrences
       (concat (spec.per_query_results demo.session
                  (spotify_client.total_weight batch) 3 batch [])))
    3.
Proof.
  apply (search_tracks_result (A := arithmetic.binary64) (@rev _)
           demo.client demo.session).
  - intros l. symmetry. apply Permutation_rev.
  - reflexivity.
  - lia.
Defined.

(** Outside the counts: with a negative limit the slice counts from the
    end, and of a pool of two tracks the limit -1 returns the first. *)
Example search_tracks_negative_limit :
  exists t,
    fst (spotify_client.search_tracks (A := arithmetic.binary64) (fun l => l)
           demo.client ["rock"; "jazz"] (-1) None None None)
    = py.Ok [t]
    /\ spotify_client.uri t = "spotify:track:genre:rock".
Proof. eexists. split; vm_compute; reflexivity. Qed.

(** ** Catalog operations before authentication *)

(** On a client that holds no session object, [search_tracks] and
    [create_playlist] raise the not-authenticated error and send nothing
    to the catalog. *)
Lemma calls_without_session_fail {A : arithmetic.Arithmetic}
    (shuffle : list spotify_client.Track -> list spotify_client.Track)
    (self : spotify_client.SpotifyClient)
    (genres : list string) (limit : Z) (search_keywords : option (list string))
    (energy_level tempo_feeling : option string)
    (name : string) (tracks : list string) (mood_prompt : option string)
    (emotional_tags playlist_genres : option (list string)) :
  spotify_client.sp self = None ->
  spotify_client.search_tracks shuffle self genres limit search_keywords
    energy_level tempo_feeling
  = (py.Raise spotify_client.not_authenticated, [])
  /\ spotify_client.create_playlist self name tracks mood_prompt emotional_tags
       playlist_genres
     = (py.Raise spotify_client.not_authenticated, []).
Proof.
  intros Hsp. unfold spotify_client.search_tracks, spotify_client.create_playlist.
  rewrite Hsp. split; reflexivity.
Qed.

(** A client has no session from construction until [authenticate] is
    called; [create_playlist] also refuses a client without a user id. *)
Lemma init_no_session (client_id client_secret redirect_uri : string) :
  spotify_client.sp (spotify_client.init client_id client_secret redirect_uri) = None.
Proof. reflexivity. Qed.

Lemma create_playlist_needs_user
    (self : spotify_client.SpotifyClient) (name : string) (tracks : list string)
    (mood_prompt : option string) (emotional_tags genres : option (list string)) :
  py.opt_truthy (spotify_client.user_id self) = false ->
  spotify_client.create_playlist self name tracks mood_prompt emotional_tags genres
  = (py.Raise spotify_client.not_authenticated, []).
Proof.
  intros Hu. unfold spotify_client.create_playlist. rewrite Hu.
  now destruct (spotify_client.sp self).
Qed.

(** [authenticate] stores the session before it asks for the user, so a
    failed attempt leaves the session in place and the user id unset:
    [create_playlist] still refuses such a client. *)
Lemma authenticate_failure (self : spotify_client.SpotifyClient)
    (session : spotify_client.Spotify) (e : py.exn) :
  spotify_client.current_user session [] = py.Raise e ->
  spotify_client.user_id self = None ->
  let '(ok, self', _) := spotify_client.authenticate self session in
  ok = false
  /\ spotify_client.sp self' = Some session
  /\ spotify_client.user_id self' = None.
Proof.
  intros He Hu. unfold spotify_client.authenticate. rewrite He. cbn. auto.
Qed.

(** C8, which the code does not meet: [authenticate] stores the session
    before it asks for the user, and the guard of [search_tracks] looks at
    the session only.  On a client whose authentication has failed
    ([authenticate] returned [False] and no user is known), [search_tracks]
    does not raise the not-authenticated error: it sends its search to the
    catalog and returns what comes back.  [create_playlist], whose guard
    also looks at the user id, refuses the same client without a
    request. *)
Theorem unauthenticated_search_is_sent
    (shuffle : list spotify_client.Track -> list spotify_client.Track)
    (client_id client_secret redirect_uri : string)
    (session : spotify_client.Spotify) (e : py.exn) :
  spotify_client.current_user session [] = py.Raise e ->
  let '(ok, self', _) :=
    spotify_client.authenticate
      (spotify_client.init client_id client_secret redirect_uri) session in
  ok = false
  /\ spotify_client.user_id self' = None
  /\ (exists found,
        fst (spotify_client.search_tracks (A := arithmetic.binary64) shuffle self'
               ["ambient"] 15 None None None) = py.Ok found)
  /\ snd (spotify_client.search_tracks (A := arithmetic.binary64) shuffle self'
            ["ambient"] 15 None None None)
     = [spotify_client.Search "genre:ambient" "track" 15 "US"]
  /\ spotify_client.create_playlist self' "Dawn" ["spotify:track:1"] None None
       None
     = (py.Raise spotify_client.not_authenticated, []).
Proof.
  intros He. unfold spotify_client.authenticate. rewrite He.
  split; [reflexivity|]. split; [reflexivity|].
  rewrite (search_tracks_unfold (A := arithmetic.binary64) _ _ session)
    by reflexivity.
  cbn [fst snd]. split; [eauto|]. split; [vm_compute; reflexivity|].
  now apply create_playlist_needs_user.
Qed.

Lemma unauthenticated_search_is_sent_witness :
  let '(ok, self', _) :=
    spotify_client.authenticate
      (spotify_client.init "id" "secret" "http://localhost")
      demo.session_login_fails in
  ok = false
  /\ spotify_client.user_id self' = None
  /\ (exists found,
        fst (spotify_client.search_tracks (A := arithmetic.binary64) (@rev _) self'
               ["ambient"] 15 None None None) = py.Ok found)
  /\ snd (spotify_client.search_tracks (A := arithmetic.binary64) (@rev _) self'
            ["ambient"] 15 None None None)
     = [spotify_client.Search "genre:ambient" "track" 15 "US"]
  /\ spotify_client.create_playlist self' "Dawn" ["spotify:track:1"] None None
       None
     = (py.Raise spotify_client.not_authenticated, []).
Proof.
  apply (unauthenticated_search_is_sent (@rev _) "id" "secret" "http://localhost"
           demo.session_login_fails (py.OtherError "401")).
  reflexivity.
Defined.

(** ** Facts about [strip], [lower] and [in] *)

Lemma lstrip_empty (s : string) :
  py.lstrip s = EmptyString <-> spec.whitespace_only s = true.
Proof.
  induction s as [|c s IH]; simpl; [tauto|].
  destruct (py.is_space c); simpl; [exact IH|].
  split; discriminate.
Qed.

Lemma lstrip_head (s : string) (c : ascii) (r : string) :
  py.lstrip s = String c r -> py.is_space c = false.
Proof.
  induction s as [|a s IH]; simpl; [discriminate|].
  destruct (py.is_space a) eqn:Ha; [exact IH|].
  intros [= <- _]. exact Ha.
Qed.

Lemma rstrip_head (c : ascii) (r : string) :
  py.is_space c = false -> py.rstrip (String c r) <> EmptyString.
Proof.
  intros Hc. simpl. rewrite Hc. now destruct (py.rstrip r).
Qed.

(** [s.strip()] is empty exactly when [s] is empty or whitespace-only. *)
Lemma strip_truthy (s : string) :
  py.str_truthy (py.strip s) = negb (spec.whitespace_only s).
Proof.
  unfold py.strip. destruct (py.lstrip s) as [|c r] eqn:Hl.
  - apply lstrip_empty in Hl. now rewrite Hl.
  - pose proof (lstrip_head _ _ _ Hl) as Hc.
    pose proof (rstrip_head c r Hc) as Hr.
    destruct (spec.whitespace_only s) eqn:Hw.
    + apply lstrip_empty in Hw. congruence.
    + now destruct (py.rstrip (String c r)).
Qed.

Lemma whitespace_only_falsy (s : string) :
  py.str_truthy s = false -> spec.whitespace_only s = true.
Proof. now destruct s. Qed.

Lemma startswith_lower (p s : string) :
  py.startswith p s = true -> py.startswith (py.lower p) (py.lower s) = true.
Proof.
  revert s. induction p as [|a p IH]; intros [|b s]; simpl; try easy.
  destruct (Ascii.eqb_spec a b) as [->|]; [|discriminate].
  rewrite Ascii.eqb_refl. apply IH.
Qed.

(** Lower-casing the text keeps the occurrences of a word. *)
Lemma str_contains_lower (p s : string) :
  py.str_contains p s = true -> py.str_contains (py.lower p) (py.lower s) = true.
Proof.
  induction s as [|c s IH]; simpl.
  - rewrite !orb_false_r. apply (startswith_lower p EmptyString).
  - intros H. apply orb_true_iff in H as [H|H].
    + apply (startswith_lower p (String c s)) in H. simpl in H.
      now rewrite H.
    + rewrite (IH H). apply orb_true_r.
Qed.

Lemma startswith_app (p s : string) : py.startswith p (p +:+ s) = true.
Proof.
  induction p as [|a p IH]; simpl; [reflexivity|].
  now rewrite Ascii.eqb_refl.
Qed.

Lemma startswith_split (p s : string) :
  py.startswith p s = true -> exists post, s = p +:+ post.
Proof.
  revert s. induction p as [|a p IH]; intros s; simpl.
  - intros _. now exists s.
  - destruct s as [|b s]; [discriminate|].
    destruct (Ascii.eqb_spec a b) as [->|]; [|discriminate].
    intros H. destruct (IH _ H) as [post ->]. now exists post.
Qed.

(** [p in s] holds exactly when [s] is some text, then [p], then some text. *)
Lemma str_contains_spec (p s : string) :
  py.str_contains p s = true <-> exists pre post, s = pre +:+ p +:+ post.
Proof.
  split.
  - induction s as [|c s IH]; simpl; intros H; apply orb_true_iff in H as [H|H].
    + destruct (startswith_split _ _ H) as [post ->]. now exists EmptyString, post.
    + discriminate.
    + destruct (startswith_split _ _ H) as [post Hs]. now exists EmptyString, post.
    + destruct (IH H) as (pre & post & ->). now exists (String c pre), post.
  - intros (pre & post & ->). induction pre as [|c pre IH].
    + simpl append. destruct (p +:+ post) eqn:E; simpl.
      * destruct p; [reflexivity|discriminate].
      * rewrite <- E, startswith_app. reflexivity.
    + simpl. rewrite IH. apply orb_true_r.
Qed.

(** ** Mood analysis: rejected inputs *)

(** C7: an empty or whitespace-only mood text is rejected with the
    invalid-input error before any request is made; any other mood text is
    rejected with the configuration error, again without a request, when
    the environment holds no API key. *)
Theorem analyze_mood_rejects
    (environ : gmap string string)
    (json_loads : string -> option mood_to_music.json)
    (chat_completions_create :
       string -> mood_to_music.ChatRequest -> py.Result (list (option string)))
    (create_mood_analysis_prompt : string -> string)
    (mood_text : string) :
  (spec.whitespace_only mood_text = true ->
   mood_to_music.analyze_mood environ json_loads chat_completions_create
     create_mood_analysis_prompt mood_text
   = (py.Raise mood_to_music.invalid_input_error, []))
  /\ (spec.whitespace_only mood_text = false ->
      py.opt_truthy (environ !! "OPENAI_API_KEY") = false ->
      mood_to_music.analyze_mood environ json_loads chat_completions_create
        create_mood_analysis_prompt mood_text
      = (py.Raise mood_to_music.configuration_error, [])).
Proof.
  unfold mood_to_music.analyze_mood. rewrite strip_truthy. split.
  - intros ->. now rewrite orb_true_r.
  - intros Hw Hkey. rewrite Hw, Hkey.
    destruct (py.str_truthy mood_text) eqn:Ht; [reflexivity|].
    apply whitespace_only_falsy in Ht. congruence.
Qed.

Lemma analyze_mood_rejects_witness :
  mood_to_music.analyze_mood demo.environ demo.loads_nothing demo.chat_prose
    demo.prompt_of "   "
  = (py.Raise mood_to_music.invalid_input_error, [])
  /\ mood_to_music.analyze_mood demo.no_environ demo.loads_nothing demo.chat_prose
       demo.prompt_of "calm evening"
     = (py.Raise mood_to_music.configuration_error, []).
Proof.
  split.
  - apply (analyze_mood_rejects demo.environ demo.loads_nothing demo.chat_prose
             demo.prompt_of "   "). reflexivity.
  - apply (analyze_mood_rejects demo.no_environ demo.loads_nothing demo.chat_prose
             demo.prompt_of "calm evening"); reflexivity.
Defined.

(** ** Mood analysis: the fallback *)

Lemma any_in_lower (word : string) (words : list string) (text : string) :
  In word words -> py.lower word = word ->
  py.str_contains word text = true ->
  mood_to_music.any_in words (py.lower text) = true.
Proof.
  intros Hin Hlow Hc. unfold mood_to_music.any_in. apply existsb_exists.
  exists word. split; [exact Hin|].
  rewrite <- Hlow. now apply str_contains_lower.
Qed.

(** A request is sent to the language model only for a mood text that is
    not blank and with the API key of the environment. *)
Lemma analyze_mood_request
    (environ : gmap string string)
    (json_loads : string -> option mood_to_music.json)
    (chat_completions_create :
       string -> mood_to_music.ChatRequest -> py.Result (list (option string)))
    (create_mood_analysis_prompt : string -> string)
    (mood_text api_key : string) (request : mood_to_music.ChatRequest) :
  snd (mood_to_music.analyze_mood environ json_loads chat_completions_create
         create_mood_analysis_prompt mood_text)
  = [mood_to_music.ChatCompletionsCreate api_key request] ->
  spec.whitespace_only mood_text = false
  /\ environ !! "OPENAI_API_KEY" = Some api_key
  /\ py.str_truthy api_key = true
  /\ request = mood_to_music.chat_request (create_mood_analysis_prompt mood_text)
  /\ mood_to_music.analyze_mood environ json_loads chat_completions_create
       create_mood_analysis_prompt mood_text
     = (py.try_except
          (fst (mood_to_music.remote_analysis json_loads chat_completions_create
                  create_mood_analysis_prompt api_key mood_text))
          (fun _ => py.Ok (mood_to_music.create_fallback_mood_analysis mood_text)),
        [mood_to_music.ChatCompletionsCreate api_key request]).
Proof.
  unfold mood_to_music.analyze_mood. rewrite strip_truthy.
  destruct (spec.whitespace_only mood_text) eqn:Hw.
  { rewrite orb_true_r. discriminate. }
  destruct (py.str_truthy mood_text) eqn:Ht;
    [|apply whitespace_only_falsy in Ht; congruence].
  cbn [negb orb].
  destruct (environ !! "OPENAI_API_KEY") as [key|] eqn:Hkey;
    cbn [py.opt_truthy]; [|discriminate].
  destruct (py.str_truthy key) eqn:Hkt; cbn [negb]; [|discriminate].
  cbn [default from_option id mood_to_music.remote_analysis fst snd].
  intros [= <- <-]. auto.
Qed.

(** The canned triples, read field by field. *)
Lemma canned_mood_triple (emotional_tags genres : list string)
    (playlist_name : string) :
  spec.canned_triple emotional_tags genres playlist_name
    (mood_to_music.mood_triple emotional_tags genres playlist_name).
Proof.
  unfold spec.canned_triple, mood_to_music.mood_triple, mood_to_music.jstrings.
  split; [reflexivity|]. split; [reflexivity|]. split; [reflexivity|].
  intros key Hkey.
  destruct (decide (key = "emotional_tags")) as [|H1]; [now left|].
  destruct (decide (key = "genres")) as [|H2]; [now right; left|].
  destruct (decide (key = "playlist_name")) as [|H3]; [now right; right|].
  exfalso. apply Hkey.
  do 2 (rewrite lookup_insert_ne by congruence).
  now rewrite lookup_singleton_ne by congruence.
Qed.

(** A family matches exactly when the [any(...)] of the source is true. *)
Lemma family_matches_any_in (words : list string) (text : string) :
  spec.family_matches words text
  <-> mood_to_music.any_in words (py.lower text) = true.
Proof.
  unfold spec.family_matches, spec.contains_word, mood_to_music.any_in.
  rewrite existsb_exists. split.
  - intros (word & Hin & Hword). exists word. split; [exact Hin|].
    now apply str_contains_spec.
  - intros (word & Hin & Hword). exists word. split; [exact Hin|].
    now apply str_contains_spec.
Qed.

Lemma family_matches_none (words : list string) (text : string) :
  ~ spec.family_matches words text ->
  mood_to_music.any_in words (py.lower text) = false.
Proof.
  intros Hno. destruct (mood_to_music.any_in words (py.lower text)) eqn:E;
    [|reflexivity].
  elim Hno. now apply family_matches_any_in.
Qed.

(** C5: whenever the language model was asked and the remote stage fails
    (the answer is malformed JSON, the call raises, the completion is
    missing or empty, or the validation of the answer raises),
    [analyze_mood] returns the fallback analysis of the mood text instead
    of raising.  For a text containing "calm" that analysis holds exactly
    the three fields [emotional_tags = ["calm", "peaceful"]],
    [genres = ["ambient", "folk"]] and
    [playlist_name = "Peaceful Moments"].  In general the first of the
    families calm, happy, sad of which a word is a piece of the
    lower-cased text selects the fields, and a text with none gets the
    contemplative ones; each of the four results holds its three fields
    and no other. *)
Theorem analyze_mood_fallback
    (environ : gmap string string)
    (json_loads : string -> option mood_to_music.json)
    (chat_completions_create :
       string -> mood_to_music.ChatRequest -> py.Result (list (option string)))
    (create_mood_analysis_prompt : string -> string)
    (mood_text api_key : string) (request : mood_to_music.ChatRequest) :
  snd (mood_to_music.analyze_mood environ json_loads chat_completions_create
         create_mood_analysis_prompt mood_text)
  = [mood_to_music.ChatCompletionsCreate api_key request] ->
  let fallback := mood_to_music.create_fallback_mood_analysis mood_text in
  let result :=
    fst (mood_to_music.analyze_mood environ json_loads chat_completions_create
           create_mood_analysis_prompt mood_text) in
  let answer := chat_completions_create api_key request in
  let calm := ["calm"; "peaceful"; "relaxed"; "serene"] in
  let happy := ["happy"; "excited"; "energetic"; "pumped"] in
  let sad := ["sad"; "melancholy"; "down"; "blue"] in
  (* the answer is not JSON *)
  (forall content others,
      answer = py.Ok (Some content :: others) ->
      json_loads (mood_to_music.clean_response (py.strip content)) = None ->
      result = py.Ok fallback)
  (* the call raises *)
  /\ (forall e, answer = py.Raise e -> result = py.Ok fallback)
  (* no completion, or a completion without content *)
  /\ (answer = py.Ok [] -> result = py.Ok fallback)
  /\ (forall others, answer = py.Ok (None :: others) -> result = py.Ok fallback)
  (* the answer does not pass the validation *)
  /\ (forall content others e,
         answer = py.Ok (Some content :: others) ->
         mood_to_music.extract_mood_components json_loads (py.strip content)
         = py.Raise e ->
         result = py.Ok fallback)
  (* the keyword buckets, by the fields of the analysis *)
  /\ (spec.contains_word "calm" mood_text ->
      spec.canned_triple ["calm"; "peaceful"] ["ambient"; "folk"]
        "Peaceful Moments" fallback)
  /\ (spec.family_matches calm mood_text ->
      spec.canned_triple ["calm"; "peaceful"] ["ambient"; "folk"]
        "Peaceful Moments" fallback)
  /\ (~ spec.family_matches calm mood_text ->
      spec.family_matches happy mood_text ->
      spec.canned_triple ["happy"; "energetic"] ["pop"; "electronic"]
        "Energy Boost" fallback)
  /\ (~ spec.family_matches calm mood_text ->
      ~ spec.family_matches happy mood_text ->
      spec.family_matches sad mood_text ->
      spec.canned_triple ["melancholic"; "reflective"] ["folk"; "indie"]
        "Reflection Time" fallback)
  /\ (~ spec.family_matches calm mood_text ->
      ~ spec.family_matches happy mood_text ->
      ~ spec.family_matches sad mood_text ->
      spec.canned_triple ["contemplative"; "mixed"] ["indie"; "alternative"]
        "Mixed Feelings" fallback).
Proof.
  intros Hsent fallback result answer calm happy sad.
  destruct (analyze_mood_request _ _ _ _ _ _ _ Hsent)
    as (_ & _ & _ & Hrequest & Hrun).
  assert (Hraise : forall e,
             fst (mood_to_music.remote_analysis json_loads chat_completions_create
                    create_mood_analysis_prompt api_key mood_text) = py.Raise e ->
             result = py.Ok fallback).
  { intros e He. unfold result. rewrite Hrun, He. reflexivity. }
  assert (Hbody :
            fst (mood_to_music.remote_analysis json_loads chat_completions_create
                   create_mood_analysis_prompt api_key mood_text)
            = py.bind answer (fun choices =>
                match choices with
                | [] => py.Raise py.IndexError
                | None :: _ => py.Raise py.AttributeError
                | Some content :: _ =>
                    mood_to_music.extract_mood_components json_loads
                      (py.strip content)
                end)).
  { unfold answer. now rewrite Hrequest. }
  split; [|split; [|split; [|split; [|split]]]].
  - intros content others Hanswer Hjson.
    apply (Hraise (py.ValueError "Invalid JSON response from OpenAI")).
    rewrite Hbody, Hanswer. cbn [py.bind].
    unfold mood_to_music.extract_mood_components. now rewrite Hjson.
  - intros e Hanswer. apply (Hraise e). now rewrite Hbody, Hanswer.
  - intros Hanswer. apply (Hraise py.IndexError). now rewrite Hbody, Hanswer.
  - intros others Hanswer. apply (Hraise py.AttributeError).
    now rewrite Hbody, Hanswer.
  - intros content others e Hanswer Hextract. apply (Hraise e).
    rewrite Hbody, Hanswer. exact Hextract.
  - subst fallback calm happy sad.
    unfold mood_to_music.create_fallback_mood_analysis. cbv zeta.
    split; [|split; [|split; [|split]]].
    + intros (pre & post & Hcalm).
      rewrite (any_in_lower "calm" _ mood_text);
        [apply canned_mood_triple | now left | reflexivity |].
      apply str_contains_spec. eauto.
    + intros Hc. apply family_matches_any_in in Hc. rewrite Hc.
      apply canned_mood_triple.
    + intros Hc Hh. apply family_matches_none in Hc.
      apply family_matches_any_in in Hh. rewrite Hc, Hh.
      apply canned_mood_triple.
    + intros Hc Hh Hs. apply family_matches_none in Hc, Hh.
      apply family_matches_any_in in Hs. rewrite Hc, Hh, Hs.
      apply canned_mood_triple.
    + intros Hc Hh Hs. apply family_matches_none in Hc, Hh, Hs.
      rewrite Hc, Hh, Hs. apply canned_mood_triple.
Qed.

Lemma analyze_mood_fallback_witness :
  fst (mood_to_music.analyze_mood demo.environ demo.loads_nothing demo.chat_prose
         demo.prompt_of "I feel calm today")
  = py.Ok (mood_to_music.create_fallback_mood_analysis "I feel calm today")
  /\ fst (mood_to_music.analyze_mood demo.environ demo.loads_nothing demo.chat_down
            demo.prompt_of "I feel calm today")
     = py.Ok (mood_to_music.create_fallback_mood_analysis "I feel calm today")
  /\ spec.canned_triple ["calm"; "peaceful"] ["ambient"; "folk"] "Peaceful Moments"
       (mood_to_music.create_fallback_mood_analysis "I feel calm today").
Proof.
  split; [|split].
  - apply (analyze_mood_fallback demo.environ demo.loads_nothing demo.chat_prose
             demo.prompt_of "I feel calm today" "sk-demo"
             (mood_to_music.chat_request (demo.prompt_of "I feel calm today"))
             eq_refl)
      with (content := "I think you feel calm.") (others := []); reflexivity.
  - apply (analyze_mood_fallback demo.environ demo.loads_nothing demo.chat_down
             demo.prompt_of "I feel calm today" "sk-demo"
             (mood_to_music.chat_request (demo.prompt_of "I feel calm today"))
             eq_refl)
      with (e := py.OtherError "connection refused"); reflexivity.
  - destruct (analyze_mood_fallback demo.environ demo.loads_nothing
                demo.chat_prose demo.prompt_of "I feel calm today" "sk-demo"
                (mood_to_music.chat_request (demo.prompt_of "I feel calm today"))
                eq_refl)
      as (_ & _ & _ & _ & _ & Hcalm & _).
    apply Hcalm. exists "I feel ", " today". reflexivity.
Defined.

(** ** Mood analysis: normalization of the model's answer *)

Section Extraction.

Import mood_to_music.

Implicit Types fields : gmap string json.

Lemma contains_field_object fields (field : string) :
  contains_field (JObj fields) field
  = py.Ok (match fields !! field with Some _ => true | None => false end).
Proof.
  unfold contains_field. now destruct (fields !! field).
Qed.

Lemma strip_lower_all_strings (entries : list string) :
  strip_lower_all (JStr <$> entries) = py.Ok (JStr <$> ((fun s => py.lower (py.strip s)) <$> entries)).
Proof.
  induction entries as [|s entries IH]; [reflexivity|].
  cbn [fmap list_fmap strip_lower_all] in *. now rewrite IH.
Qed.

Lemma get_lower_insert fields (key key' default : string) (v : json) :
  key' <> key ->
  get_lower (<[key' := v]> fields) key default = get_lower fields key default.
Proof. intros Hne. unfold get_lower. now rewrite lookup_insert_ne. Qed.

Lemma get_slice_insert fields (key key' : string) (n : nat) (v : json) :
  key' <> key ->
  get_slice (<[key' := v]> fields) key n = get_slice fields key n.
Proof. intros Hne. unfold get_slice. now rewrite lookup_insert_ne. Qed.

Lemma get_strip_slice_insert fields (key key' : string) (n : nat) (v : json) :
  key' <> key ->
  get_strip_slice (<[key' := v]> fields) key n = get_strip_slice fields key n.
Proof. intros Hne. unfold get_strip_slice. now rewrite lookup_insert_ne. Qed.

Lemma get_lower_optional fields (key default text : string) :
  spec.optional_string fields key default = Some text ->
  get_lower fields key default = py.Ok (JStr (py.lower text)).
Proof.
  unfold spec.optional_string, get_lower.
  destruct (fields !! key) as [[]|]; congruence.
Qed.

Lemma get_strip_slice_optional fields (key text : string) (n : nat) :
  spec.optional_string fields key "" = Some text ->
  get_strip_slice fields key n = py.Ok (JStr (py.str_take n (py.strip text))).
Proof.
  unfold spec.optional_string, get_strip_slice.
  destruct (fields !! key) as [[]|]; try congruence.
  intros [= <-]. now destruct n.
Qed.

Lemma get_slice_optional fields (key : string) (items : list json) (n : nat) :
  spec.optional_list fields key = Some items ->
  get_slice fields key n = py.Ok (JArr (firstn n items)).
Proof.
  unfold spec.optional_list, get_slice.
  destruct (fields !! key) as [[]|]; try congruence.
  intros [= <-]. now destruct n.
Qed.

(** The cleaning steps on an object whose fields have the expected
    types. *)
Lemma validate_and_clean_ok fields (tags genres : list json)
    (tag_strings genre_strings : list string) (name energy tempo : string)
    (imagery : list json) (movement : string) (palette keywords : list json) :
  fields !! "emotional_tags" = Some (JArr tags) -> tags <> [] ->
  firstn 3 tags = JStr <$> tag_strings ->
  fields !! "genres" = Some (JArr genres) -> genres <> [] ->
  firstn 3 genres = JStr <$> genre_strings ->
  fields !! "playlist_name" = Some (JStr name) ->
  spec.whitespace_only name = false ->
  spec.optional_string fields "energy_level" "medium" = Some energy ->
  spec.optional_string fields "tempo_feeling" "moderate" = Some tempo ->
  spec.optional_list fields "visual_imagery" = Some imagery ->
  spec.optional_string fields "movement_quality" "" = Some movement ->
  spec.optional_list fields "color_palette" = Some palette ->
  spec.optional_list fields "search_keywords" = Some keywords ->
  exists profile,
    validate_and_clean (JObj fields) = py.Ok profile
    /\ spec.profile_facts profile tag_strings genre_strings name energy tempo
         imagery movement palette keywords
    /\ forall key,
        key ∉ ["emotional_tags"; "genres"; "playlist_name"; "energy_level";
               "tempo_feeling"; "visual_imagery"; "movement_quality";
               "color_palette"; "search_keywords"] ->
        profile !! key = fields !! key.
Proof.
  intros Ht Htne Ht3 Hg Hgne Hg3 Hn Hnb He Hte Hvi Hmq Hcp Hsk.
  unfold validate_and_clean.
  cbn [check_required py.bind]. rewrite !contains_field_object, Ht, Hg, Hn.
  cbn [py.bind].
  destruct tags as [|t0 tags']; [congruence|].
  destruct genres as [|g0 genres']; [congruence|].
  rewrite strip_truthy, Hnb. cbn [negb].
  rewrite Ht3, Hg3, !strip_lower_all_strings. cbn [py.bind].
  rewrite !get_lower_insert, (get_lower_optional _ _ _ _ He) by discriminate.
  cbn [py.bind].
  rewrite !get_lower_insert, (get_lower_optional _ _ _ _ Hte) by discriminate.
  cbn [py.bind].
  rewrite !get_slice_insert, (get_slice_optional _ _ _ _ Hvi) by discriminate.
  cbn [py.bind].
  rewrite !get_strip_slice_insert, (get_strip_slice_optional _ _ _ _ Hmq)
    by discriminate.
  cbn [py.bind].
  rewrite !get_slice_insert, (get_slice_optional _ _ _ _ Hcp) by discriminate.
  cbn [py.bind].
  rewrite !get_slice_insert, (get_slice_optional _ _ _ _ Hsk) by discriminate.
  cbn [py.bind].
  eexists. split; [reflexivity|]. split.
  - unfold spec.profile_facts, spec.normalized, jstrings.
    repeat split; now simplify_map_eq.
  - intros key Hkey. rewrite !not_elem_of_cons in Hkey.
    destruct Hkey as (? & ? & ? & ? & ? & ? & ? & ? & ? & _).
    now rewrite !lookup_insert_ne by congruence.
Qed.

(** The validation rejects an object whose required fields are not all
    there, of the right type and non-empty. *)
Lemma validate_and_clean_invalid fields :
  spec.required_fields_valid fields = false ->
  exists msg, validate_and_clean (JObj fields) = py.Raise (py.ValueError msg).
Proof.
  unfold spec.required_fields_valid, spec.nonempty_list, spec.nonblank_string,
    validate_and_clean.
  cbn [check_required py.bind]. rewrite !contains_field_object.
  destruct (fields !! "emotional_tags") as [tags|]; [|cbn; eauto].
  destruct (fields !! "genres") as [genres|]; [|cbn; eauto].
  destruct (fields !! "playlist_name") as [name|]; [|cbn; eauto].
  cbn [py.bind].
  destruct tags as [| | | |[|t0 tags]|]; try (cbn; eauto; fail).
  destruct genres as [| | | |[|g0 genres]|]; try (cbn; eauto; fail).
  destruct name as [| | |name| |]; try (cbn; eauto; fail).
  rewrite strip_truthy. cbn [andb]. intros ->. cbn. eauto.
Qed.

End Extraction.

(** C6 (as amended): when the answer parses as a JSON object whose
    [emotional_tags] and [genres] are non-empty lists with strings as their
    first three entries, whose [playlist_name] is a string that is not
    blank, and whose optional fields, where present, are strings
    ([energy_level], [tempo_feeling], [movement_quality]) or lists
    ([visual_imagery], [color_palette], [search_keywords]),
    [extract_mood_components] returns the object with: the first 3 tags
    and genres trimmed and lower-cased; the name trimmed and cut to 50
    characters; [energy_level] (default medium) and [tempo_feeling]
    (default moderate) lower-cased; [visual_imagery] cut to 5 entries,
    [movement_quality] trimmed and cut to 100 characters, [color_palette]
    cut to 3 and [search_keywords] to 5 entries.  When a required field of
    the object is missing, of the wrong type or empty, it raises the
    validation error. *)
Theorem extract_mood_components_normalizes
    (json_loads : string -> option mood_to_music.json) (response : string)
    (fields : gmap string mood_to_music.json) :
  json_loads (mood_to_music.clean_response response)
  = Some (mood_to_music.JObj fields) ->
  (forall tags genres tag_strings genre_strings name energy tempo imagery
          movement palette keywords,
      fields !! "emotional_tags" = Some (mood_to_music.JArr tags) -> tags <> [] ->
      firstn 3 tags = mood_to_music.JStr <$> tag_strings ->
      fields !! "genres" = Some (mood_to_music.JArr genres) -> genres <> [] ->
      firstn 3 genres = mood_to_music.JStr <$> genre_strings ->
      fields !! "playlist_name" = Some (mood_to_music.JStr name) ->
      spec.whitespace_only name = false ->
      spec.optional_string fields "energy_level" "medium" = Some energy ->
      spec.optional_string fields "tempo_feeling" "moderate" = Some tempo ->
      spec.optional_list fields "visual_imagery" = Some imagery ->
      spec.optional_string fields "movement_quality" "" = Some movement ->
      spec.optional_list fields "color_palette" = Some palette ->
      spec.optional_list fields "search_keywords" = Some keywords ->
      exists profile,
        mood_to_music.extract_mood_components json_loads response = py.Ok profile
        /\ spec.profile_facts profile tag_strings genre_strings name energy tempo
             imagery movement palette keywords)
  /\ (spec.required_fields_valid fields = false ->
      exists msg,
        mood_to_music.extract_mood_components json_loads response
        = py.Raise (py.ValueError msg)).
Proof.
  intros Hjson. unfold mood_to_music.extract_mood_components. rewrite Hjson. split.
  - intros tags genres tag_strings genre_strings name energy tempo imagery
      movement palette keywords Ht Htne Ht3 Hg Hgne Hg3 Hn Hnb He Hte Hvi Hmq Hcp Hsk.
    destruct (validate_and_clean_ok fields tags genres tag_strings genre_strings
                name energy tempo imagery movement palette keywords)
      as (profile & Hok & Hfacts & _); auto.
    exists profile. now rewrite Hok.
  - intros Hbad. destruct (validate_and_clean_invalid fields Hbad) as [msg Hmsg].
    exists msg. now rewrite Hmsg.
Qed.

Lemma extract_mood_components_normalizes_witness :
  (exists profile,
      mood_to_music.extract_mood_components
        (demo.loads_only demo.answer_text (mood_to_music.JObj demo.answer))
        (demo.fenced demo.answer_text) = py.Ok profile
      /\ spec.profile_facts profile [" Ethereal "; "peaceful"] ["Ambient"]
           "Dawn Mist Floating" "Low" "moderate" [] "" [] [])
  /\ (exists msg,
         mood_to_music.extract_mood_components
           (demo.loads_only demo.no_genres_text (mood_to_music.JObj demo.no_genres))
           demo.no_genres_text = py.Raise (py.ValueError msg)).
Proof.
  split.
  - apply (extract_mood_components_normalizes
             (demo.loads_only demo.answer_text (mood_to_music.JObj demo.answer))
             (demo.fenced demo.answer_text) demo.answer eq_refl)
      with (tags := [mood_to_music.JStr " Ethereal "; mood_to_music.JStr "peaceful"])
           (genres := [mood_to_music.JStr "Ambient"]);
      try reflexivity; discriminate.
  - apply (extract_mood_components_normalizes
             (demo.loads_only demo.no_genres_text (mood_to_music.JObj demo.no_genres))
             demo.no_genres_text demo.no_genres eq_refl).
    reflexivity.
Defined.

(** C6, refuted as stated: an object with the three required fields in
    order and [energy_level] set to [null] makes [extract_mood_components]
    raise an [AttributeError] instead of returning a profile. *)
Lemma extract_mood_components_counterexample :
  ~ spec.extraction_as_stated
      (demo.loads_only demo.null_energy_text (mood_to_music.JObj demo.null_energy))
      demo.null_energy_text.
Proof.
  intros H.
  assert (Hraise :
            mood_to_music.extract_mood_components
              (demo.loads_only demo.null_energy_text
                 (mood_to_music.JObj demo.null_energy))
              demo.null_energy_text
            = py.Raise py.AttributeError) by (vm_compute; reflexivity).
  destruct (H demo.null_energy [mood_to_music.JStr "calm"]
              [mood_to_music.JStr "ambient"] "Dawn" eq_refl eq_refl)
    as (profile & Hok & _);
    [discriminate | reflexivity | discriminate | reflexivity | discriminate |].
  rewrite Hraise in Hok. discriminate.
Qed.

(** Further answers the normalization does not accept: a tag that is not
    a string, and a name of blanks only. *)
Example extract_number_tag :
  mood_to_music.validate_and_clean
    (mood_to_music.JObj
       {[ "emotional_tags" := mood_to_music.JArr [mood_to_music.JNum 1];
          "genres" := mood_to_music.jstrings ["ambient"];
          "playlist_name" := mood_to_music.JStr "Dawn" ]})
  = py.Raise py.AttributeError.
Proof. vm_compute. reflexivity. Qed.

Example extract_blank_name :
  mood_to_music.validate_and_clean
    (mood_to_music.JObj
       {[ "emotional_tags" := mood_to_music.jstrings ["calm"];
          "genres" := mood_to_music.jstrings ["ambient"];
          "playlist_name" := mood_to_music.JStr "  " ]})
  = py.Raise (py.ValueError "playlist_name must be a non-empty string").
Proof. vm_compute. reflexivity. Qed.

(** ** Image generation: soft failure *)

(** C9: [generate_mood_image] never raises: it always returns a value, and
    that value is [None] (the failed result) when the API key is missing,
    when the generation request raises or returns no image, when the
    download raises, and when the download answers with a status other
    than 200. *)
Theorem generate_mood_image_never_raises
    (environ : gmap string string)
    (images_generate :
       string -> image_generator.ImageRequest -> py.Result (list string))
    (requests_get : string -> py.Result (Z * string))
    (b64encode : string -> string)
    (emotional_tags genres : list string) (mood_text : option string)
    (visual_imagery : option (list string)) (movement_quality : option string)
    (color_palette : option (list string)) (energy_level : option string) :
  let outcome :=
    image_generator.generate_mood_image environ images_generate requests_get
      b64encode emotional_tags genres mood_text visual_imagery movement_quality
      color_palette energy_level in
  let request :=
    image_generator.image_request
      (image_generator.create_image_prompt emotional_tags genres mood_text
         visual_imagery movement_quality color_palette energy_level) in
  (exists image, fst outcome = py.Ok image)
  /\ (py.opt_truthy (environ !! "OPENAI_API_KEY") = false ->
      outcome = (py.Ok None, []))
  /\ (forall api_key,
         environ !! "OPENAI_API_KEY" = Some api_key ->
         py.str_truthy api_key = true ->
         (forall e, images_generate api_key request = py.Raise e ->
                    fst outcome = py.Ok None)
         /\ (images_generate api_key request = py.Ok [] -> fst outcome = py.Ok None)
         /\ (forall image_url others,
                images_generate api_key request = py.Ok (image_url :: others) ->
                (forall e, requests_get image_url = py.Raise e ->
                           fst outcome = py.Ok None)
                /\ (forall status_code content,
                       requests_get image_url = py.Ok (status_code, content) ->
                       status_code <> 200%Z ->
                       fst outcome = py.Ok None))).
Proof.
  intros outcome request. unfold outcome, image_generator.generate_mood_image.
  fold request.
  destruct (environ !! "OPENAI_API_KEY") as [key|] eqn:Hkey; cbn [py.opt_truthy].
  2: { cbn. split; [eauto|]. split; [reflexivity|]. intros ? [=]. }
  destruct (py.str_truthy key) eqn:Ht; cbn [negb default from_option id].
  2: { split; [cbn; eauto|]. split; [reflexivity|]. intros api_key [= <-]. congruence. }
  split; [|split; [discriminate|]].
  - destruct (images_generate key request) as [[|image_url others]|e]; cbn; eauto.
    destruct (requests_get image_url) as [[status_code content]|e]; cbn; eauto.
    destruct (status_code =? 200)%Z; cbn; eauto.
  - intros api_key [= <-] _. split; [|split].
    + intros e ->. reflexivity.
    + intros ->. reflexivity.
    + intros image_url others ->. split.
      * intros e ->. reflexivity.
      * intros status_code content -> Hs.
        destruct (Z.eqb_spec status_code 200) as [|_]; [contradiction|reflexivity].
Qed.

Lemma generate_mood_image_never_raises_witness :
  image_generator.generate_mood_image demo.no_environ demo.images_ok
    demo.download_ok demo.b64_stub ["calm"] ["ambient"] (Some "fog at dawn")
    None None None None
  = (py.Ok None, [])
  /\ fst (image_generator.generate_mood_image demo.environ demo.images_down
            demo.download_ok demo.b64_stub ["calm"] ["ambient"]
            (Some "fog at dawn") None None None None)
     = py.Ok None
  /\ fst (image_generator.generate_mood_image demo.environ demo.images_ok
            demo.download_forbidden demo.b64_stub ["calm"] ["ambient"]
            (Some "fog at dawn") None None None None)
     = py.Ok None.
Proof.
  split; [|split].
  - apply (generate_mood_image_never_raises demo.no_environ demo.images_ok
             demo.download_ok demo.b64_stub). reflexivity.
  - destruct (generate_mood_image_never_raises demo.environ demo.images_down
                demo.download_ok demo.b64_stub ["calm"] ["ambient"]
                (Some "fog at dawn") None None None None)
      as (_ & _ & H).
    destruct (H "sk-demo" eq_refl eq_refl) as (Hraise & _).
    apply (Hraise (py.OtherError "connection refused")). reflexivity.
  - destruct (generate_mood_image_never_raises demo.environ demo.images_ok
                demo.download_forbidden demo.b64_stub ["calm"] ["ambient"]
                (Some "fog at dawn") None None None None)
      as (_ & _ & H).
    destruct (H "sk-demo" eq_refl eq_refl) as (_ & _ & Hurl).
    destruct (Hurl "https://images.example/1.png" [] eq_refl) as (_ & Hstatus).
    apply (Hstatus 403%Z ""); [reflexivity|discriminate].
Defined.

(* ================================================================== *)
(** * Further properties of the prompt composers *)

Lemma list_truthy_take {A} (n : nat) (l : list A) :
  py.list_truthy (firstn (S n) l) = py.list_truthy l.
Proof. now destruct l. Qed.

Lemma list_or_take (n : nat) (o : option (list string)) :
  py.list_or (firstn (S n) <$> o) [] = firstn (S n) (py.list_or o []).
Proof.
  destruct o as [l|]; [|reflexivity]. cbn [fmap option_fmap option_map py.list_or].
  rewrite list_truthy_take. now destruct (py.list_truthy l).
Qed.

Lemma take_take_le {A} (n m : nat) (l : list A) :
  (n <= m)%nat -> firstn n (firstn m l) = firstn n l.
Proof. intros H. rewrite take_take. f_equal. lia. Qed.

(** X1: a mood text of 80 characters or more never enters the image
    prompt (the prompt is the one composed without mood text), and a mood
    text of 60 characters or more enters the video prompt only through its
    presence: two such texts give the same video prompt. *)
Theorem long_mood_text_not_quoted
    (emotional_tags genres : list string) (mood_text mood_text' : string)
    (visual_imagery : option (list string)) (movement_quality : option string)
    (color_palette : option (list string)) (energy_level : option string) :
  (80 <= String.length mood_text)%nat ->
  (60 <= String.length mood_text')%nat ->
  image_generator.create_image_prompt emotional_tags genres (Some mood_text)
    visual_imagery movement_quality color_palette energy_level
  = image_generator.create_image_prompt emotional_tags genres None
      visual_imagery movement_quality color_palette energy_level
  /\ video_generator.create_video_prompt emotional_tags genres (Some mood_text)
       visual_imagery movement_quality color_palette energy_level
     = video_generator.create_video_prompt emotional_tags genres (Some mood_text')
         visual_imagery movement_quality color_palette energy_level.
Proof.
  intros H80 H60. split.
  - assert (Hi : image_generator.full_prompt emotional_tags genres (Some mood_text)
                   visual_imagery movement_quality color_palette energy_level
                 = image_generator.full_prompt emotional_tags genres None
                     visual_imagery movement_quality color_palette energy_level).
    { unfold image_generator.full_prompt. cbv zeta.
      rewrite (proj2 (Nat.ltb_ge _ _) H80), andb_false_r. reflexivity. }
    unfold image_generator.create_image_prompt. now rewrite Hi.
  - assert (Hv : video_generator.full_prompt emotional_tags genres (Some mood_text)
                   visual_imagery movement_quality color_palette energy_level
                 = video_generator.full_prompt emotional_tags genres
                     (Some mood_text') visual_imagery movement_quality
                     color_palette energy_level).
    { unfold video_generator.full_prompt. cbv zeta. cbn [default from_option id].
      assert (H60a : (60 <= String.length mood_text)%nat) by lia.
      rewrite (proj2 (Nat.ltb_ge _ _) H60a), (proj2 (Nat.ltb_ge _ _) H60).
      destruct mood_text as [|c m]; [simpl in H80; lia|].
      destruct mood_text' as [|c' m']; [simpl in H60; lia|].
      reflexivity. }
    unfold video_generator.create_video_prompt. now rewrite Hv.
Qed.

Lemma long_mood_text_not_quoted_witness :
  image_generator.create_image_prompt ["calm"] ["ambient"]
    (Some (py.str_mul "so tired " 10)) (Some ["mist"]) None None None
  = image_generator.create_image_prompt ["calm"] ["ambient"] None
      (Some ["mist"]) None None None
  /\ video_generator.create_video_prompt ["calm"] ["ambient"]
       (Some (py.str_mul "so tired " 10)) (Some ["mist"]) None None None
     = video_generator.create_video_prompt ["calm"] ["ambient"]
         (Some (py.str_mul "wide awake " 6)) (Some ["mist"]) None None None.
Proof.
  apply (long_mood_text_not_quoted ["calm"] ["ambient"]
           (py.str_mul "so tired " 10) (py.str_mul "wide awake " 6));
    vm_compute; lia.
Defined.

(** X2: only the first 3 emotional tags, the first 2 genres, the first 3
    imagery items and the first 3 colours can influence the image prompt. *)
Theorem image_prompt_leading_items
    (emotional_tags genres : list string) (mood_text : option string)
    (visual_imagery : option (list string)) (movement_quality : option string)
    (color_palette : option (list string)) (energy_level : option string) :
  image_generator.create_image_prompt emotional_tags genres mood_text
    visual_imagery movement_quality color_palette energy_level
  = image_generator.create_image_prompt (firstn 3 emotional_tags) (firstn 2 genres)
      mood_text (firstn 3 <$> visual_imagery) movement_quality
      (firstn 3 <$> color_palette) energy_level.
Proof.
  assert (H : image_generator.full_prompt emotional_tags genres mood_text
                visual_imagery movement_quality color_palette energy_level
              = image_generator.full_prompt (firstn 3 emotional_tags)
                  (firstn 2 genres) mood_text (firstn 3 <$> visual_imagery)
                  movement_quality (firstn 3 <$> color_palette) energy_level).
  { unfold image_generator.full_prompt. cbv zeta.
    rewrite !list_or_take, !list_truthy_take.
    rewrite !take_take_le by lia. reflexivity. }
  unfold image_generator.create_image_prompt. now rewrite H.
Qed.

(** X3: only the first 2 emotional tags, the first 2 genres, the first 2
    imagery items and the first 3 colours can influence the video prompt. *)
Theorem video_prompt_leading_items
    (emotional_tags genres : list string) (mood_text : option string)
    (visual_imagery : option (list string)) (movement_quality : option string)
    (color_palette : option (list string)) (energy_level : option string) :
  video_generator.create_video_prompt emotional_tags genres mood_text
    visual_imagery movement_quality color_palette energy_level
  = video_generator.create_video_prompt (firstn 2 emotional_tags) (firstn 2 genres)
      mood_text (firstn 2 <$> visual_imagery) movement_quality
      (firstn 3 <$> color_palette) energy_level.
Proof.
  assert (H : video_generator.full_prompt emotional_tags genres mood_text
                visual_imagery movement_quality color_palette energy_level
              = video_generator.full_prompt (firstn 2 emotional_tags)
                  (firstn 2 genres) mood_text (firstn 2 <$> visual_imagery)
                  movement_quality (firstn 3 <$> color_palette) energy_level).
  { unfold video_generator.full_prompt. cbv zeta.
    rewrite !list_or_take, !list_truthy_take.
    rewrite !take_take_le by lia. reflexivity. }
  unfold video_generator.create_video_prompt. now rewrite H.
Qed.

(** X4: without a mood text ([None] or the empty string) the video prompt
    does not use [visual_imagery] at all: it opens with the emotions, as
    if no imagery had been given.  (The image prompt does use it.) *)
Theorem video_prompt_imagery_needs_mood_text
    (emotional_tags genres : list string) (mood_text : option string)
    (visual_imagery : option (list string)) (movement_quality : option string)
    (color_palette : option (list string)) (energy_level : option string) :
  py.opt_truthy mood_text = false ->
  video_generator.create_video_prompt emotional_tags genres mood_text
    visual_imagery movement_quality color_palette energy_level
  = video_generator.create_video_prompt emotional_tags genres mood_text
      None movement_quality color_palette energy_level.
Proof.
  intros Hm.
  assert (H : video_generator.full_prompt emotional_tags genres mood_text
                visual_imagery movement_quality color_palette energy_level
              = video_generator.full_prompt emotional_tags genres mood_text
                  None movement_quality color_palette energy_level).
  { unfold video_generator.full_prompt. cbv zeta.
    rewrite Hm, !andb_false_r. reflexivity. }
  unfold video_generator.create_video_prompt. now rewrite H.
Qed.

Lemma video_prompt_imagery_needs_mood_text_witness :
  video_generator.create_video_prompt ["calm"] ["ambient"] None
    (Some ["mist"; "dawn light"]) None None None
  = video_generator.create_video_prompt ["calm"] ["ambient"] None
      None None None None.
Proof.
  apply (video_prompt_imagery_needs_mood_text ["calm"] ["ambient"] None).
  reflexivity.
Defined.

Lemma string_app_cons (x : ascii) (a b : string) :
  String x a +:+ b = String x (a +:+ b).
Proof. reflexivity. Qed.

Lemma string_app_assoc (a b c : string) : (a +:+ b) +:+ c = a +:+ (b +:+ c).
Proof.
  induction a as [|x a IH]; [reflexivity|].
  rewrite !string_app_cons. now rewrite IH.
Qed.

Lemma string_app_nil_r (a : string) : a +:+ EmptyString = a.
Proof.
  induction a as [|x a IH]; [reflexivity|].
  rewrite string_app_cons. now rewrite IH.
Qed.

Lemma str_drop_app (s p : string) : py.str_drop (String.length s) (s +:+ p) = p.
Proof.
  induction s as [|c s IH]; [now destruct p|].
  rewrite string_app_cons. exact IH.
Qed.

Lemma str_take_app (s p : string) : py.str_take (String.length s) (s +:+ p) = s.
Proof.
  induction s as [|c s IH]; [now destruct p|].
  rewrite string_app_cons. cbn [String.length py.str_take]. now rewrite IH.
Qed.

Lemma str_take_drop (n : nat) (s : string) :
  py.str_take n s +:+ py.str_drop n s = s.
Proof.
  revert s. induction n as [|n IH]; intros [|c s]; try reflexivity.
  cbn [py.str_take py.str_drop]. rewrite string_app_cons. now rewrite IH.
Qed.

Lemma endswith_app (p pre : string) : py.endswith p (pre +:+ p) = true.
Proof.
  unfold py.endswith. rewrite string_app_length.
  replace (String.length pre + String.length p - String.length p)%nat
    with (String.length pre) by lia.
  rewrite str_drop_app, String.eqb_refl, andb_true_r.
  apply Nat.leb_le. lia.
Qed.

Lemma endswith_split (p s : string) :
  py.endswith p s = true -> exists pre, s = pre +:+ p.
Proof.
  unfold py.endswith. intros H. apply andb_true_iff in H as [_ H].
  apply String.eqb_eq in H.
  exists (py.str_take (String.length s - String.length p) s).
  rewrite <- H at 2. symmetry. apply str_take_drop.
Qed.

Lemma string_app_last_inj (s1 s2 : string) (a b : ascii) :
  s1 +:+ String a EmptyString = s2 +:+ String b EmptyString -> a = b.
Proof.
  revert s2. induction s1 as [|x s1 IH]; intros [|y s2];
    rewrite ?string_app_cons; intros H.
  - now injection H.
  - injection H as _ H. now destruct s2.
  - injection H as _ H. now destruct s1.
  - injection H as _ H. eauto.
Qed.

(** Joining clauses that end with [last] gives a text that ends with
    [last]. *)
Lemma join_snoc (sep last : string) (clauses : list string) :
  exists pre, py.join sep (clauses ++ [last]) = pre +:+ last.
Proof.
  unfold py.join. induction clauses as [|c clauses [pre IH]].
  - now exists EmptyString.
  - cbn [app String.concat]. destruct (clauses ++ [last]) eqn:E.
    + now destruct clauses.
    + rewrite IH. exists (c +:+ sep +:+ pre).
      now rewrite !string_app_assoc.
Qed.

(** A text cut at [n] characters and marked with the dots does not end
    with a clause whose last character is not a dot. *)
Lemma cut_not_endswith (n : nat) (s clause : string) (c : ascii) :
  c <> "."%char ->
  py.endswith (clause +:+ String c EmptyString) (py.str_take n s +:+ "...") = false.
Proof.
  intros Hc. destruct (py.endswith _ _) eqn:E; [|reflexivity].
  apply endswith_split in E as [pre E].
  change "..." with (".." +:+ String "."%char EmptyString) in E.
  rewrite <- !string_app_assoc in E.
  apply string_app_last_inj in E. congruence.
Qed.

(** X5: the closing instruction of the prompt ("... no text or words"
    for images, "no text overlays, pure visual storytelling" for videos)
    is the end of the returned prompt exactly when the composed text was
    within the budget; a prompt that was cut has lost it. *)
Theorem prompt_closing_instruction
    (emotional_tags genres : list string) (mood_text : option string)
    (visual_imagery : option (list string)) (movement_quality : option string)
    (color_palette : option (list string)) (energy_level : option string) :
  py.endswith
    "digital art, masterpiece quality, highly detailed, artistic composition, no text or words"
    (image_generator.create_image_prompt emotional_tags genres mood_text
       visual_imagery movement_quality color_palette energy_level)
  = (String.length
       (image_generator.full_prompt emotional_tags genres mood_text
          visual_imagery movement_quality color_palette energy_level) <=? 900)%nat
  /\ py.endswith "no text overlays, pure visual storytelling"
       (video_generator.create_video_prompt emotional_tags genres mood_text
          visual_imagery movement_quality color_palette energy_level)
     = (String.length
          (video_generator.full_prompt emotional_tags genres mood_text
             visual_imagery movement_quality color_palette energy_level) <=? 800)%nat.
Proof.
  split.
  - unfold image_generator.create_image_prompt. cbv zeta.
    set (full := image_generator.full_prompt _ _ _ _ _ _ _).
    destruct (Nat.ltb_spec 900 (String.length full)) as [Hlong|Hshort].
    + rewrite (proj2 (Nat.leb_gt _ _) Hlong).
      apply (cut_not_endswith 900 full
               "digital art, masterpiece quality, highly detailed, artistic composition, no text or word"
               "s"%char).
      discriminate.
    + rewrite (proj2 (Nat.leb_le _ _) Hshort).
      unfold full, image_generator.full_prompt. cbv zeta.
      match goal with
      | |- py.endswith ?p (py.join ?sep (?l ++ [?p])) = true =>
          destruct (join_snoc sep p l) as [pre ->]
      end.
      apply endswith_app.
  - unfold video_generator.create_video_prompt. cbv zeta.
    set (full := video_generator.full_prompt _ _ _ _ _ _ _).
    destruct (Nat.ltb_spec 800 (String.length full)) as [Hlong|Hshort].
    + rewrite (proj2 (Nat.leb_gt _ _) Hlong).
      apply (cut_not_endswith 800 full
               "no text overlays, pure visual storytellin" "g"%char).
      discriminate.
    + rewrite (proj2 (Nat.leb_le _ _) Hshort).
      unfold full, video_generator.full_prompt. cbv zeta.
      match goal with
      | |- py.endswith ?p (py.join ?sep (?l ++ [?p])) = true =>
          destruct (join_snoc sep p l) as [pre ->]
      end.
      apply endswith_app.
Qed.

(* ================================================================== *)
(** * Further properties of the catalog client *)

Section SearchRequests.

Context {A : arithmetic.Arithmetic}.

Lemma tracks_needed_at_least_one (w total : arithmetic.number) (limit n : Z) :
  spotify_client.tracks_needed w total limit = py.Ok n -> (1 <= n)%Z.
Proof.
  unfold spotify_client.tracks_needed.
  destruct (arithmetic.div w total) as [share|]; [|discriminate].
  destruct (arithmetic.of_int limit) as [limit'|]; [|discriminate].
  cbn [py.bind].
  destruct (arithmetic.int_of (arithmetic.mul share limit')) as [k|];
    [|discriminate].
  cbn [py.bind]. intros [= <-]. lia.
Qed.

Lemma requests_with_length (quota : arithmetic.number -> arithmetic.number -> Z -> py.Result Z)
    (batch : list spotify_client.Query) (limit : Z) :
  (length (spec.requests_with quota batch limit) <= length batch)%nat.
Proof.
  unfold spec.requests_with.
  generalize (spotify_client.total_weight batch) as total. intros total.
  induction batch as [|q batch IH]; cbn [flat_map length]; [lia|].
  rewrite length_app.
  destruct (quota (spotify_client.weight q) total limit); cbn [length]; lia.
Qed.

Lemma query_batch_length (genres keywords : list string)
    (energy_level : option string) :
  (length (spec.query_batch genres keywords energy_level)
   <= length genres + 8)%nat.
Proof.
  unfold spec.query_batch, spec.genre_queries, spec.keyword_queries,
    spec.energy_queries.
  rewrite !length_app, length_map.
  assert (Hk : forall ks : list string,
             (length (flat_map
                (fun k => match genres with
                          | primary :: _ =>
                              [ {| spotify_client.query := k +:+ " genre:" +:+ primary;
                                   spotify_client.weight := arithmetic.literal 0.3 |};
                                {| spotify_client.query := k;
                                   spotify_client.weight := arithmetic.literal 0.2 |} ]
                          | [] => [ {| spotify_client.query := k;
                                       spotify_client.weight := arithmetic.literal 0.2 |} ]
                          end) ks) <= 2 * length ks)%nat).
  { induction ks as [|k ks IH]; cbn [flat_map length]; [lia|].
    rewrite length_app. destruct genres; cbn [length]; lia. }
  specialize (Hk (firstn 3 keywords)). rewrite length_take in Hk.
  destruct (spec.recognized energy_level) as [level|]; cbn [length].
  - rewrite length_map, length_take. lia.
  - lia.
Qed.

End SearchRequests.

(** X6: whatever the limit (zero and negative included), every request
    that [search_tracks] sends is a track search in the US market for one
    of the queries of the batch, and it asks for at least one track. *)
Theorem search_tracks_requests_wellformed {A : arithmetic.Arithmetic}
    (shuffle : list spotify_client.Track -> list spotify_client.Track)
    (self : spotify_client.SpotifyClient) (s : spotify_client.Spotify)
    (genres : list string) (limit : Z) (search_keywords : option (list string))
    (energy_level tempo_feeling : option string) :
  spotify_client.sp self = Some s ->
  Forall
    (fun call =>
       exists q n,
         call = spotify_client.Search (spotify_client.query q) "track" n "US"
         /\ In q (spotify_client.build_search_queries genres
                    (py.list_or search_keywords []) energy_level)
         /\ (1 <= n)%Z)
    (snd (spotify_client.search_tracks shuffle self genres limit search_keywords
            energy_level tempo_feeling)).
Proof.
  intros Hsp. rewrite (search_tracks_unfold _ _ s) by exact Hsp. cbn [snd].
  unfold spec.requests_with. apply List.Forall_forall. intros call Hcall.
  apply in_flat_map in Hcall as (q & Hq & Hcall).
  destruct (spotify_client.tracks_needed _ _ _) as [n|] eqn:Hn; [|contradiction].
  destruct Hcall as [<-|[]]. exists q, n.
  split; [reflexivity|]. split; [exact Hq|].
  exact (tracks_needed_at_least_one _ _ _ _ Hn).
Qed.

Lemma search_tracks_requests_wellformed_witness :
  Forall
    (fun call =>
       exists q n,
         call = spotify_client.Search (spotify_client.query q) "track" n "US"
         /\ In q (spotify_client.build_search_queries (A := arithmetic.binary64)
                    ["ambient"; "folk"] (py.list_or (Some ["dawn"]) []) (Some "low"))
         /\ (1 <= n)%Z)
    (snd (spotify_client.search_tracks (A := arithmetic.binary64) (@rev _)
            demo.client ["ambient"; "folk"] 0 (Some ["dawn"]) (Some "low") None)).
Proof.
  apply (search_tracks_requests_wellformed (A := arithmetic.binary64) (@rev _)
           demo.client demo.session).
  reflexivity.
Defined.

(** X7: one call of [search_tracks] sends at most [len(genres) + 8]
    requests to the catalog: one per genre, at most two for each of three
    keywords and two for the energy level. *)
Theorem search_tracks_request_count {A : arithmetic.Arithmetic}
    (shuffle : list spotify_client.Track -> list spotify_client.Track)
    (self : spotify_client.SpotifyClient)
    (genres : list string) (limit : Z) (search_keywords : option (list string))
    (energy_level tempo_feeling : option string) :
  (length (snd (spotify_client.search_tracks shuffle self genres limit
                  search_keywords energy_level tempo_feeling))
   <= length genres + 8)%nat.
Proof.
  destruct (spotify_client.sp self) as [s|] eqn:Hsp.
  - rewrite (search_tracks_unfold _ _ s) by exact Hsp. cbn [snd].
    etransitivity; [apply requests_with_length|].
    rewrite build_search_queries_batch. apply query_batch_length.
  - unfold spotify_client.search_tracks. rewrite Hsp. cbn. lia.
Qed.

Section Provenance.

Context {A : arithmetic.Arithmetic}.

Lemma append_items_source (source : string)
    (items : list spotify_client.CatalogTrack) :
  Forall (fun t => spotify_client.search_source t = source)
    (spotify_client.append_items source items []).
Proof.
  induction items as [|item items IH]; cbn [spotify_client.append_items].
  - constructor.
  - destruct (spotify_client.track_info source item) as [t|] eqn:Ht;
      [|constructor].
    rewrite append_items_app. constructor; [|exact IH].
    unfold spotify_client.track_info in Ht.
    destruct (spotify_client.t_artists item); [discriminate|].
    destruct (py.dict_get _ _); [|discriminate].
    now injection Ht as <-.
Qed.

Lemma per_query_results_source (s : spotify_client.Spotify)
    (total : arithmetic.number) (limit : Z) (queries : list spotify_client.Query)
    (calls : list spotify_client.Call) :
  Forall
    (fun t => exists q, In q queries
                        /\ spotify_client.search_source t = spotify_client.query q)
    (concat (spec.per_query_results s total limit queries calls)).
Proof.
  revert calls. induction queries as [|q queries IH]; intros calls;
    cbn [spec.per_query_results concat]; [constructor|].
  assert (Hrest : forall calls',
             Forall
               (fun t => exists q', In q' (q :: queries)
                   /\ spotify_client.search_source t = spotify_client.query q')
               (concat (spec.per_query_results s total limit queries calls'))).
  { intros calls'. eapply Forall_impl; [apply IH|].
    intros t (q' & Hq' & Ht). exists q'. split; [now right | exact Ht]. }
  destruct (spotify_client.tracks_needed _ _ _) as [n|]; cbn [concat app].
  - apply Forall_app. split; [|apply Hrest].
    destruct (spotify_client.search s calls (spotify_client.query q) n)
      as [items|]; [|constructor].
    eapply Forall_impl; [apply append_items_source|].
    intros t Ht. exists q. split; [now left | exact Ht].
  - apply Hrest.
Qed.

End Provenance.

Lemma first_occurrences_sublist (tracks : list spotify_client.Track) :
  spec.first_occurrences tracks `sublist_of` tracks.
Proof.
  induction tracks as [|t tracks IH]; cbn [spec.first_occurrences].
  - constructor.
  - apply sublist_skip. etransitivity; [apply sublist_filter | exact IH].
Qed.

Lemma slice_to_sublist {T} (l : list T) (stop : Z) : py.slice_to l stop `sublist_of` l.
Proof. unfold py.slice_to. destruct (0 <=? stop)%Z; apply sublist_take. Qed.

(** X8: the [search_source] of every returned track is the text of one of
    the queries of the batch: the field names a query that was really
    sent for this call. *)
Theorem search_tracks_source_is_a_query {A : arithmetic.Arithmetic}
    (shuffle : list spotify_client.Track -> list spotify_client.Track)
    (self : spotify_client.SpotifyClient) (s : spotify_client.Spotify)
    (genres : list string) (limit : Z) (search_keywords : option (list string))
    (energy_level tempo_feeling : option string) :
  (forall l, shuffle l ≡ₚ l) ->
  spotify_client.sp self = Some s ->
  exists result,
    fst (spotify_client.search_tracks shuffle self genres limit search_keywords
           energy_level tempo_feeling) = py.Ok result
    /\ Forall
         (fun t =>
            exists q,
              In q (spotify_client.build_search_queries genres
                      (py.list_or search_keywords []) energy_level)
              /\ spotify_client.search_source t = spotify_client.query q)
         result.
Proof.
  intros Hperm Hsp. rewrite (search_tracks_unfold _ _ s) by exact Hsp. cbn [fst].
  eexists. split; [reflexivity|].
  rewrite remove_duplicates_first_occurrences.
  set (batch := spotify_client.build_search_queries _ _ _).
  set (collected := concat _).
  assert (Hall : Forall
            (fun t => exists q, In q batch
                 /\ spotify_client.search_source t = spotify_client.query q)
            collected) by apply per_query_results_source.
  rewrite Forall_forall in Hall |- *. intros t Ht. apply Hall.
  assert (Ht1 := elem_of_sublist _ _ _ Ht (slice_to_sublist _ _)).
  rewrite (Hperm _) in Ht1.
  exact (elem_of_sublist _ _ _ Ht1 (first_occurrences_sublist _)).
Qed.

Lemma search_tracks_source_is_a_query_witness :
  exists result,
    fst (spotify_client.search_tracks (A := arithmetic.binary64) (@rev _)
           demo.client ["ambient"; "folk"] 15 (Some ["dawn"]) (Some "low") None)
    = py.Ok result
    /\ Forall
         (fun t =>
            exists q,
              In q (spotify_client.build_search_queries (A := arithmetic.binary64)
                      ["ambient"; "folk"] (py.list_or (Some ["dawn"]) [])
                      (Some "low"))
              /\ spotify_client.search_source t = spotify_client.query q)
         result.
Proof.
  apply (search_tracks_source_is_a_query (A := arithmetic.binary64) (@rev _)
           demo.client demo.session).
  - intros l. symmetry. apply Permutation_rev.
  - reflexivity.
Defined.

Section Outage.

Context {A : arithmetic.Arithmetic}.

Lemma per_query_results_outage (s : spotify_client.Spotify)
    (total : arithmetic.number) (limit : Z) (queries : list spotify_client.Query)
    (calls : list spotify_client.Call) :
  (forall calls' q n, exists e, spotify_client.search s calls' q n = py.Raise e) ->
  concat (spec.per_query_results s total limit queries calls) = [].
Proof.
  intros Hdown. revert calls.
  induction queries as [|q queries IH]; intros calls;
    cbn [spec.per_query_results concat]; [reflexivity|].
  destruct (spotify_client.tracks_needed _ _ _) as [n|]; cbn [concat app].
  - destruct (Hdown calls (spotify_client.query q) n) as [e ->]. apply IH.
  - apply IH.
Qed.

End Outage.

(** X9: when every search request fails, [search_tracks] does not raise:
    it returns the empty list, exactly as if the catalog had no matching
    track. *)
Theorem search_tracks_catalog_outage {A : arithmetic.Arithmetic}
    (shuffle : list spotify_client.Track -> list spotify_client.Track)
    (self : spotify_client.SpotifyClient) (s : spotify_client.Spotify)
    (genres : list string) (limit : Z) (search_keywords : option (list string))
    (energy_level tempo_feeling : option string) :
  (forall l, shuffle l ≡ₚ l) ->
  spotify_client.sp self = Some s ->
  (forall calls q n, exists e, spotify_client.search s calls q n = py.Raise e) ->
  fst (spotify_client.search_tracks shuffle self genres limit search_keywords
         energy_level tempo_feeling) = py.Ok [].
Proof.
  intros Hperm Hsp Hdown. rewrite (search_tracks_unfold _ _ s) by exact Hsp.
  cbn [fst]. rewrite per_query_results_outage by exact Hdown.
  change (spotify_client.remove_duplicates []) with (@nil spotify_client.Track).
  rewrite (proj1 (Permutation_nil_r _) (Hperm [])).
  f_equal. unfold py.slice_to. destruct (0 <=? limit)%Z; apply firstn_nil.
Qed.

Lemma search_tracks_catalog_outage_witness :
  fst (spotify_client.search_tracks (A := arithmetic.binary64) (@rev _)
         (demo.client_of demo.session_search_down) ["ambient"; "folk"] 15
         (Some ["dawn"]) (Some "low") None)
  = py.Ok [].
Proof.
  apply (search_tracks_catalog_outage (A := arithmetic.binary64) (@rev _)
           (demo.client_of demo.session_search_down) demo.session_search_down).
  - intros l. symmetry. apply Permutation_rev.
  - reflexivity.
  - intros calls q n. eexists. reflexivity.
Defined.

Lemma find_filter {T} (p : T -> bool) (Q : T -> Prop) `{forall x, Decision (Q x)}
    (l : list T) :
  (forall x, p x = true -> Q x) ->
  find p (filter Q l) = find p l.
Proof.
  intros Hpq. induction l as [|x l IH]; [reflexivity|].
  rewrite filter_cons. cbn [find].
  destruct (decide (Q x)) as [Hq|Hq].
  - cbn [find]. now rewrite IH.
  - destruct (p x) eqn:Hp; [|exact IH]. now apply Hpq in Hp.
Qed.

Lemma filter_all {T} (Q : T -> Prop) `{forall x, Decision (Q x)} (l : list T) :
  Forall Q l -> filter Q l = l.
Proof.
  induction 1 as [|x l Hx _ IH]; [reflexivity|].
  now rewrite filter_cons_True, IH.
Qed.

Lemma first_occurrences_fixed (tracks : list spotify_client.Track) :
  NoDup (spotify_client.uri <$> tracks) -> spec.first_occurrences tracks = tracks.
Proof.
  induction tracks as [|t tracks IH]; [reflexivity|].
  rewrite fmap_cons, NoDup_cons. intros [Hnin Hnd].
  cbn [spec.first_occurrences]. rewrite (IH Hnd). f_equal.
  apply filter_all, Forall_forall. intros t' Hin Heq.
  apply Hnin. rewrite <- Heq. apply list_elem_of_fmap. eauto.
Qed.

(** X10: the removal of duplicates keeps, for every uri, the first track
    collected with it (and so the query credited in [search_source]);
    it keeps the order of the tracks, leaves a list without duplicates
    as it is, and a second pass changes nothing. *)
Theorem remove_duplicates_keeps_first (tracks : list spotify_client.Track) :
  (forall u,
      find (fun t => String.eqb (spotify_client.uri t) u)
        (spotify_client.remove_duplicates tracks)
      = find (fun t => String.eqb (spotify_client.uri t) u) tracks)
  /\ spotify_client.remove_duplicates tracks `sublist_of` tracks
  /\ (NoDup (spotify_client.uri <$> tracks) ->
      spotify_client.remove_duplicates tracks = tracks)
  /\ spotify_client.remove_duplicates (spotify_client.remove_duplicates tracks)
     = spotify_client.remove_duplicates tracks.
Proof.
  rewrite !remove_duplicates_first_occurrences. repeat split.
  - intros u. induction tracks as [|t tracks IH]; [reflexivity|].
    cbn [spec.first_occurrences find].
    destruct (String.eqb (spotify_client.uri t) u) eqn:E; [reflexivity|].
    rewrite find_filter; [exact IH|].
    intros t' Ht' Heq. apply String.eqb_eq in Ht'.
    rewrite <- Heq, Ht', String.eqb_refl in E. discriminate.
  - apply first_occurrences_sublist.
  - apply first_occurrences_fixed.
  - apply first_occurrences_fixed, first_occurrences_NoDup.
Qed.

(** ** Playlists *)

Section Playlists.

Import spotify_client.

Variables (self : SpotifyClient) (s : Spotify) (uid : string).
Variables (name : string) (tracks : list string) (mood_prompt : option string).
Variables (emotional_tags genres : option (list string)).

Hypothesis Hsp : sp self = Some s.
Hypothesis Huser : user_id self = Some uid.
Hypothesis Huid : py.str_truthy uid = true.

Let description := playlist_description mood_prompt emotional_tags genres.
Let create := UserPlaylistCreate uid name true description.

Lemma create_playlist_unfold :
  create_playlist self name tracks mood_prompt emotional_tags genres
  = match user_playlist_create s [] uid name true description with
    | py.Raise _ => (py.Ok None, [create])
    | py.Ok playlist =>
        let add := PlaylistAddItems (pl_id playlist) tracks in
        let '(added, calls) :=
          if py.list_truthy tracks
          then (playlist_add_items s [create] (pl_id playlist) tracks,
                [create; add])
          else (py.Ok tt, [create]) in
        match added with
        | py.Raise _ => (py.Ok None, calls)
        | py.Ok _ =>
            match py.dict_get (pl_external_urls playlist) "spotify" with
            | None => (py.Ok None, calls)
            | Some u =>
                (py.Ok (Some {| url := u; id := pl_id playlist;
                                embed_url := "https://open.spotify.com/embed/playlist/"
                                               +:+ pl_id playlist |}),
                 calls)
            end
        end
    end.
Proof.
  unfold create_playlist. rewrite Hsp, Huser. cbn [py.opt_truthy].
  rewrite Huid. reflexivity.
Qed.

End Playlists.

(** X11: with a session and a user id, [create_playlist] never raises,
    whatever the service answers.  It sends one request to create a
    public playlist for the stored user, with the given name, and at
    most one more, which adds all the tracks in their order to the
    playlist just created; with no tracks nothing is added. *)
Theorem create_playlist_requests
    (self : spotify_client.SpotifyClient) (s : spotify_client.Spotify)
    (uid name : string) (tracks : list string) (mood_prompt : option string)
    (emotional_tags genres : option (list string)) :
  spotify_client.sp self = Some s ->
  spotify_client.user_id self = Some uid ->
  py.str_truthy uid = true ->
  let outcome :=
    spotify_client.create_playlist self name tracks mood_prompt emotional_tags
      genres in
  let create :=
    spotify_client.UserPlaylistCreate uid name true
      (spotify_client.playlist_description mood_prompt emotional_tags genres) in
  (exists result, fst outcome = py.Ok result)
  /\ (snd outcome = [create]
      \/ exists playlist,
           spotify_client.user_playlist_create s [] uid name true
             (spotify_client.playlist_description mood_prompt emotional_tags genres)
           = py.Ok playlist
           /\ tracks <> []
           /\ snd outcome
              = [create;
                 spotify_client.PlaylistAddItems (spotify_client.pl_id playlist)
                   tracks]).
Proof.
  intros Hsp Huser Huid outcome create. subst outcome.
  rewrite (create_playlist_unfold self s uid) by assumption.
  destruct (spotify_client.user_playlist_create s [] uid name true _)
    as [playlist|e] eqn:Hcreate; [|cbn; eauto].
  destruct tracks as [|t tracks']; cbn [py.list_truthy].
  - destruct (py.dict_get _ _); cbn; eauto.
  - assert (Hright :
      exists playlist0, py.Ok playlist = py.Ok playlist0
        /\ t :: tracks' <> []
        /\ [create; spotify_client.PlaylistAddItems (spotify_client.pl_id playlist)
                      (t :: tracks')]
           = [create; spotify_client.PlaylistAddItems
                        (spotify_client.pl_id playlist0) (t :: tracks')])
      by (exists playlist; repeat split; congruence).
    destruct (spotify_client.playlist_add_items s _ _ _) as [[]|e];
      [destruct (py.dict_get _ _)|]; cbn [fst snd]; eauto.
Qed.

Lemma create_playlist_requests_witness :
  let outcome :=
    spotify_client.create_playlist demo.client "Dawn" ["spotify:track:1"]
      (Some "calm") None None in
  let create :=
    spotify_client.UserPlaylistCreate "listener" "Dawn" true
      (spotify_client.playlist_description (Some "calm") None None) in
  (exists result, fst outcome = py.Ok result)
  /\ (snd outcome = [create]
      \/ exists playlist,
           spotify_client.user_playlist_create demo.session [] "listener" "Dawn"
             true (spotify_client.playlist_description (Some "calm") None None)
           = py.Ok playlist
           /\ ["spotify:track:1"] <> []
           /\ snd outcome
              = [create;
                 spotify_client.PlaylistAddItems (spotify_client.pl_id playlist)
                   ["spotify:track:1"]]).
Proof.
  apply (create_playlist_requests demo.client demo.session "listener" "Dawn"
           ["spotify:track:1"] (Some "calm") None None);
    reflexivity.
Defined.

(** X12: a result of [create_playlist] means that every request
    succeeded: the playlist was created, the tracks (when there are any)
    were added to it, and the returned [id], [url] and [embed_url] are
    those of the created playlist, the embed address being
    "https://open.spotify.com/embed/playlist/" followed by the id. *)
Theorem create_playlist_result
    (self : spotify_client.SpotifyClient) (s : spotify_client.Spotify)
    (uid name : string) (tracks : list string) (mood_prompt : option string)
    (emotional_tags genres : option (list string))
    (result : spotify_client.PlaylistResult) :
  spotify_client.sp self = Some s ->
  spotify_client.user_id self = Some uid ->
  fst (spotify_client.create_playlist self name tracks mood_prompt emotional_tags
         genres) = py.Ok (Some result) ->
  let description :=
    spotify_client.playlist_description mood_prompt emotional_tags genres in
  exists playlist,
    spotify_client.user_playlist_create s [] uid name true description
    = py.Ok playlist
    /\ spotify_client.id result = spotify_client.pl_id playlist
    /\ py.dict_get (spotify_client.pl_external_urls playlist) "spotify"
       = Some (spotify_client.url result)
    /\ spotify_client.embed_url result
       = "https://open.spotify.com/embed/playlist/" +:+ spotify_client.id result
    /\ (tracks <> [] ->
        spotify_client.playlist_add_items s
          [spotify_client.UserPlaylistCreate uid name true description]
          (spotify_client.pl_id playlist) tracks = py.Ok tt).
Proof.
  intros Hsp Huser Hres description.
  destruct (py.str_truthy uid) eqn:Huid.
  2:{ rewrite create_playlist_needs_user in Hres; [discriminate|].
      rewrite Huser. exact Huid. }
  rewrite (create_playlist_unfold self s uid) in Hres by assumption.
  fold description in Hres.
  destruct (spotify_client.user_playlist_create s [] uid name true description)
    as [playlist|e]; [|discriminate].
  exists playlist. split; [reflexivity|].
  destruct tracks as [|t tracks']; cbn [py.list_truthy] in Hres.
  - destruct (py.dict_get _ _) as [u|]; [|discriminate].
    cbn in Hres. injection Hres as <-. cbn. repeat split; congruence.
  - destruct (spotify_client.playlist_add_items s _ _ _) as [[]|e];
      [|discriminate].
    destruct (py.dict_get _ _) as [u|]; [|discriminate].
    cbn in Hres. injection Hres as <-. cbn. repeat split; congruence.
Qed.

Lemma create_playlist_result_witness :
  exists playlist,
    spotify_client.user_playlist_create demo.session [] "listener" "Dawn" true
      (spotify_client.playlist_description (Some "calm") (Some ["calm"]) None)
    = py.Ok playlist
    /\ "p1" = spotify_client.pl_id playlist
    /\ py.dict_get (spotify_client.pl_external_urls playlist) "spotify"
       = Some "https://open.spotify.com/playlist/p1"
    /\ "https://open.spotify.com/embed/playlist/p1"
       = "https://open.spotify.com/embed/playlist/" +:+ "p1"
    /\ (["spotify:track:1"] <> [] ->
        spotify_client.playlist_add_items demo.session
          [spotify_client.UserPlaylistCreate "listener" "Dawn" true
             (spotify_client.playlist_description (Some "calm") (Some ["calm"])
                None)]
          (spotify_client.pl_id playlist) ["spotify:track:1"] = py.Ok tt).
Proof.
  apply (create_playlist_result demo.client demo.session "listener" "Dawn"
           ["spotify:track:1"] (Some "calm") (Some ["calm"]) None
           {| spotify_client.url := "https://open.spotify.com/playlist/p1";
              spotify_client.id := "p1";
              spotify_client.embed_url :=
                "https://open.spotify.com/embed/playlist/p1" |});
    reflexivity.
Defined.

(** X13: when the playlist was created but adding the tracks fails,
    [create_playlist] answers [None], as it does when nothing was
    created: both requests were sent, the empty playlist stays in the
    account, and no request removes it. *)
Theorem create_playlist_keeps_empty_playlist
    (self : spotify_client.SpotifyClient) (s : spotify_client.Spotify)
    (uid name : string) (tracks : list string) (mood_prompt : option string)
    (emotional_tags genres : option (list string))
    (playlist : spotify_client.Playlist) (e : py.exn) :
  spotify_client.sp self = Some s ->
  spotify_client.user_id self = Some uid ->
  py.str_truthy uid = true ->
  tracks <> [] ->
  let description :=
    spotify_client.playlist_description mood_prompt emotional_tags genres in
  let create := spotify_client.UserPlaylistCreate uid name true description in
  spotify_client.user_playlist_create s [] uid name true description
  = py.Ok playlist ->
  spotify_client.playlist_add_items s [create] (spotify_client.pl_id playlist)
    tracks = py.Raise e ->
  spotify_client.create_playlist self name tracks mood_prompt emotional_tags genres
  = (py.Ok None,
     [create;
      spotify_client.PlaylistAddItems (spotify_client.pl_id playlist) tracks]).
Proof.
  intros Hsp Huser Huid Htracks description create Hcreate Hadd.
  rewrite (create_playlist_unfold self s uid) by assumption.
  fold description. rewrite Hcreate. cbv zeta.
  destruct tracks as [|t tracks']; [congruence|]. cbn [py.list_truthy].
  fold create. now rewrite Hadd.
Qed.

Lemma create_playlist_keeps_empty_playlist_witness :
  spotify_client.create_playlist (demo.client_of demo.session_add_refused) "Dawn"
    ["spotify:track:1"] (Some "calm") None None
  = (py.Ok None,
     [spotify_client.UserPlaylistCreate "listener" "Dawn" true
        (spotify_client.playlist_description (Some "calm") None None);
      spotify_client.PlaylistAddItems "p1" ["spotify:track:1"]]).
Proof.
  apply (create_playlist_keeps_empty_playlist
           (demo.client_of demo.session_add_refused) demo.session_add_refused
           "listener" "Dawn" ["spotify:track:1"] (Some "calm") None None
           {| spotify_client.pl_id := "p1";
              spotify_client.pl_external_urls :=
                [("spotify", "https://open.spotify.com/playlist/p1")] |}
           (py.OtherError "403"));
    try reflexivity.
  discriminate.
Defined.

(** X14: [authenticate] stores the session before it asks for the user.
    After a failed attempt on a fresh client the two guards disagree:
    [search_tracks] no longer raises "Not authenticated" and searches
    with the rejected session, while [create_playlist] still refuses. *)
Theorem failed_authenticate_keeps_session {A : arithmetic.Arithmetic}
    (shuffle : list spotify_client.Track -> list spotify_client.Track)
    (self : spotify_client.SpotifyClient) (session : spotify_client.Spotify)
    (e : py.exn)
    (genres : list string) (limit : Z) (search_keywords : option (list string))
    (energy_level tempo_feeling : option string)
    (name : string) (tracks : list string) (mood_prompt : option string)
    (emotional_tags : option (list string)) :
  spotify_client.current_user session [] = py.Raise e ->
  spotify_client.user_id self = None ->
  let '(ok, self', calls) := spotify_client.authenticate self session in
  ok = false
  /\ calls = [spotify_client.CurrentUser]
  /\ (exists found,
        fst (spotify_client.search_tracks shuffle self' genres limit
               search_keywords energy_level tempo_feeling) = py.Ok found)
  /\ snd (spotify_client.search_tracks shuffle self' genres limit
            search_keywords energy_level tempo_feeling)
     = spec.requests_with spotify_client.tracks_needed
         (spotify_client.build_search_queries genres
            (py.list_or search_keywords []) energy_level) limit
  /\ spotify_client.create_playlist self' name tracks mood_prompt emotional_tags
       (Some genres)
     = (py.Raise spotify_client.not_authenticated, []).
Proof.
  intros He Hu. unfold spotify_client.authenticate. rewrite He.
  split; [reflexivity|]. split; [reflexivity|].
  rewrite (search_tracks_unfold _ _ session) by reflexivity.
  cbn [fst snd]. split; [eauto|]. split; [reflexivity|].
  apply create_playlist_needs_user. cbn. now rewrite Hu.
Qed.

Lemma failed_authenticate_keeps_session_witness :
  let '(ok, self', calls) :=
    spotify_client.authenticate demo.fresh_client demo.session_login_fails in
  ok = false
  /\ calls = [spotify_client.CurrentUser]
  /\ (exists found,
        fst (spotify_client.search_tracks (A := arithmetic.binary64) (@rev _)
               self' ["ambient"] 15 None None None) = py.Ok found)
  /\ snd (spotify_client.search_tracks (A := arithmetic.binary64) (@rev _)
            self' ["ambient"] 15 None None None)
     = spec.requests_with spotify_client.tracks_needed
         (spotify_client.build_search_queries (A := arithmetic.binary64)
            ["ambient"] (py.list_or None []) None) 15
  /\ spotify_client.create_playlist self' "Dawn" [] None None (Some ["ambient"])
     = (py.Raise spotify_client.not_authenticated, []).
Proof.
  apply (failed_authenticate_keeps_session (A := arithmetic.binary64) (@rev _)
           demo.fresh_client demo.session_login_fails (py.OtherError "401")
           ["ambient"] 15 None None None "Dawn" [] None None);
    reflexivity.
Defined.

(** X15: after a successful [authenticate] the next [create_playlist]
    passes its guard, its first request asks for a public playlist owned
    by the user the service named, and [search_tracks] runs on the
    session that was authenticated. *)
Theorem authenticate_then_create_playlist
    (self : spotify_client.SpotifyClient) (session : spotify_client.Spotify)
    (uid name : string) (tracks : list string) (mood_prompt : option string)
    (emotional_tags genres : option (list string)) :
  spotify_client.current_user session [] = py.Ok (Some uid) ->
  py.str_truthy uid = true ->
  let '(ok, self', calls) := spotify_client.authenticate self session in
  ok = true
  /\ calls = [spotify_client.CurrentUser]
  /\ spotify_client.sp self' = Some session
  /\ spotify_client.user_id self' = Some uid
  /\ (exists result,
        fst (spotify_client.create_playlist self' name tracks mood_prompt
               emotional_tags genres) = py.Ok result)
  /\ head (snd (spotify_client.create_playlist self' name tracks mood_prompt
                  emotional_tags genres))
     = Some (spotify_client.UserPlaylistCreate uid name true
               (spotify_client.playlist_description mood_prompt emotional_tags
                  genres)).
Proof.
  intros Hc Huid. unfold spotify_client.authenticate. rewrite Hc.
  repeat (split; [reflexivity|]).
  set (self' := spotify_client.Build_SpotifyClient _ _ _ _ _ _).
  rewrite (create_playlist_unfold self' session uid) by (try reflexivity; assumption).
  destruct (spotify_client.user_playlist_create session [] uid name true _)
    as [playlist|e]; [|cbn; eauto].
  cbv zeta. destruct (py.list_truthy tracks).
  - destruct (spotify_client.playlist_add_items session _ _ _) as [[]|e];
      [destruct (py.dict_get _ _)|]; cbn; eauto.
  - destruct (py.dict_get _ _); cbn; eauto.
Qed.

Lemma authenticate_then_create_playlist_witness :
  let '(ok, self', calls) :=
    spotify_client.authenticate demo.fresh_client demo.session in
  ok = true
  /\ calls = [spotify_client.CurrentUser]
  /\ spotify_client.sp self' = Some demo.session
  /\ spotify_client.user_id self' = Some "listener"
  /\ (exists result,
        fst (spotify_client.create_playlist self' "Dawn" [] None None None)
        = py.Ok result)
  /\ head (snd (spotify_client.create_playlist self' "Dawn" [] None None None))
     = Some (spotify_client.UserPlaylistCreate "listener" "Dawn" true
               (spotify_client.playlist_description None None None)).
Proof.
  apply (authenticate_then_create_playlist demo.fresh_client demo.session
           "listener" "Dawn" [] None None None);
    reflexivity.
Defined.

(** * Further properties of the mood analysis *)

(** ** [strip] and [lower] *)

Lemma lower_char_idempotent (c : ascii) :
  py.lower_char (py.lower_char c) = py.lower_char c.
Proof. destruct c as [[] [] [] [] [] [] [] []]; reflexivity. Qed.

Lemma is_space_lower_char (c : ascii) :
  py.is_space (py.lower_char c) = py.is_space c.
Proof. destruct c as [[] [] [] [] [] [] [] []]; reflexivity. Qed.

Lemma lower_idempotent (s : string) : py.lower (py.lower s) = py.lower s.
Proof.
  induction s as [|c s IH]; [reflexivity|].
  cbn [py.lower]. now rewrite lower_char_idempotent, IH.
Qed.

Lemma lower_length (s : string) : String.length (py.lower s) = String.length s.
Proof. induction s as [|c s IH]; [reflexivity|]. cbn. now rewrite IH. Qed.

Lemma lstrip_lower (s : string) : py.lstrip (py.lower s) = py.lower (py.lstrip s).
Proof.
  induction s as [|c s IH]; [reflexivity|].
  cbn [py.lower py.lstrip]. rewrite is_space_lower_char.
  now destruct (py.is_space c).
Qed.

Lemma rstrip_lower (s : string) : py.rstrip (py.lower s) = py.lower (py.rstrip s).
Proof.
  induction s as [|c s IH]; [reflexivity|].
  cbn [py.lower py.rstrip]. rewrite IH, is_space_lower_char.
  destruct (py.rstrip s); cbn [py.lower]; [|reflexivity].
  now destruct (py.is_space c).
Qed.

Lemma strip_lower (s : string) : py.strip (py.lower s) = py.lower (py.strip s).
Proof. unfold py.strip. now rewrite lstrip_lower, rstrip_lower. Qed.

Lemma rstrip_idempotent (s : string) : py.rstrip (py.rstrip s) = py.rstrip s.
Proof.
  induction s as [|c s IH]; [reflexivity|].
  cbn [py.rstrip]. destruct (py.rstrip s) as [|d r] eqn:Hr.
  - destruct (py.is_space c) eqn:Hc; [reflexivity|].
    cbn [py.rstrip]. now rewrite Hc.
  - cbn [py.rstrip]. cbn [py.rstrip] in IH. now rewrite IH.
Qed.

(** A text that does not begin with whitespace still does not after
    [rstrip]. *)
Lemma lstrip_rstrip (s : string) :
  py.lstrip s = s -> py.lstrip (py.rstrip s) = py.rstrip s.
Proof.
  destruct s as [|c s]; [reflexivity|]. intros Hl.
  assert (Hc : py.is_space c = false) by exact (lstrip_head _ _ _ Hl).
  cbn [py.rstrip]. destruct (py.rstrip s); rewrite ?Hc; cbn [py.lstrip];
    now rewrite Hc.
Qed.

Lemma lstrip_idempotent (s : string) : py.lstrip (py.lstrip s) = py.lstrip s.
Proof.
  induction s as [|c s IH]; [reflexivity|].
  cbn [py.lstrip]. destruct (py.is_space c) eqn:Hc; [exact IH|].
  cbn [py.lstrip]. now rewrite Hc.
Qed.

Lemma strip_idempotent (s : string) : py.strip (py.strip s) = py.strip s.
Proof.
  unfold py.strip.
  rewrite (lstrip_rstrip (py.lstrip s)) by apply lstrip_idempotent.
  apply rstrip_idempotent.
Qed.

Lemma is_clean_strip_lower (s : string) :
  mood_profile.is_clean (py.lower (py.strip s)) = true.
Proof.
  unfold mood_profile.is_clean.
  rewrite strip_lower, strip_idempotent, lower_idempotent.
  now rewrite String.eqb_refl.
Qed.

(** ** The shape of an extracted profile *)

Section Profile.

Import mood_to_music.

Implicit Types fields : gmap string json.

Lemma strip_lower_all_clean (values cleaned : list json) :
  strip_lower_all values = py.Ok cleaned ->
  length cleaned = length values
  /\ forallb (fun item => match item with
                          | JStr s => mood_profile.is_clean s
                          | _ => false
                          end) cleaned = true.
Proof.
  revert cleaned. induction values as [|v values IH]; intros cleaned.
  - intros [= <-]. now split.
  - cbn [strip_lower_all]. destruct v; try discriminate.
    destruct (strip_lower_all values) as [rest|]; [|discriminate].
    cbn [py.bind]. intros [= <-].
    destruct (IH rest eq_refl) as [Hlen Hall].
    cbn [length forallb]. now rewrite Hlen, Hall, is_clean_strip_lower.
Qed.

Lemma clean_entries_first (values cleaned : list json) (v : json) :
  strip_lower_all (firstn 3 (v :: values)) = py.Ok cleaned ->
  mood_profile.clean_entries 3 (Some (JArr cleaned)) = true.
Proof.
  intros H. apply strip_lower_all_clean in H as [Hlen Hall].
  unfold mood_profile.clean_entries. rewrite Hall, andb_true_r.
  pose proof (firstn_le_length 3 (v :: values)) as Hle.
  assert (1 <= length (firstn 3 (v :: values)))%nat by (cbn; lia).
  apply andb_true_iff. split; apply Nat.leb_le; lia.
Qed.

Lemma get_lower_lowercase fields (key default : string) (v : json) :
  get_lower fields key default = py.Ok v ->
  mood_profile.lowercase_string (Some v) = true.
Proof.
  unfold get_lower. destruct (fields !! key) as [[]|]; try discriminate;
    intros [= <-]; cbn; now rewrite lower_idempotent, String.eqb_refl.
Qed.

Lemma get_slice_sliced fields (key : string) (n : nat) (v : json) :
  get_slice fields key n = py.Ok v -> mood_profile.sliced n (Some v) = true.
Proof.
  unfold get_slice. destruct (fields !! key) as [[]|]; try discriminate;
    intros [= <-]; cbn [mood_profile.sliced]; apply Nat.leb_le.
  - apply str_take_length.
  - apply firstn_le_length.
  - cbn. lia.
Qed.

Lemma get_strip_slice_within fields (key : string) (n : nat) (v : json) :
  get_strip_slice fields key n = py.Ok v ->
  mood_profile.string_within 0 n (Some v) = true.
Proof.
  unfold get_strip_slice. destruct (fields !! key) as [[]|]; try discriminate;
    intros [= <-]; cbn [mood_profile.string_within Nat.leb andb];
    apply Nat.leb_le; [apply str_take_length | cbn; lia].
Qed.

Lemma str_take_truthy (n : nat) (s : string) :
  py.str_truthy s = true -> (1 <= String.length (py.str_take (S n) s))%nat.
Proof. destruct s; [discriminate|]. cbn. lia. Qed.

Lemma validate_and_clean_profile (mood_data : json) (profile : gmap string json) :
  validate_and_clean mood_data = py.Ok profile ->
  mood_profile.core_fields profile = true
  /\ mood_profile.enhanced_fields profile = true.
Proof.
  unfold validate_and_clean.
  destruct (check_required mood_data _) as [[]|]; cbn [py.bind]; [|discriminate].
  destruct mood_data as [| | | | |fields]; try discriminate.
  destruct (fields !! "emotional_tags") as [tags|]; [|discriminate].
  destruct (fields !! "genres") as [genres|]; [|discriminate].
  destruct (fields !! "playlist_name") as [name|]; [|discriminate].
  destruct tags as [| | | |[|t0 tags]|]; try discriminate.
  destruct genres as [| | | |[|g0 genres]|]; try discriminate.
  destruct name as [| | |name| |]; try discriminate.
  destruct (py.str_truthy (py.strip name)) eqn:Hname; cbn [negb]; [|discriminate].
  assert (Hn : mood_profile.string_within 1 50
                 (Some (JStr (py.str_take 50 (py.strip name)))) = true).
  { cbn [mood_profile.string_within]. apply andb_true_iff.
    split; apply Nat.leb_le; [now apply str_take_truthy | apply str_take_length]. }
  revert Hn. generalize (py.str_take 50 (py.strip name)). intros cut Hn.
  destruct (strip_lower_all (firstn 3 (t0 :: tags))) as [tags'|] eqn:Htags;
    cbn [py.bind]; [|discriminate].
  destruct (strip_lower_all (firstn 3 (g0 :: genres))) as [genres'|] eqn:Hgenres;
    cbn [py.bind]; [|discriminate].
  destruct (get_lower _ "energy_level" _) as [energy|] eqn:He;
    cbn [py.bind]; [|discriminate].
  destruct (get_lower _ "tempo_feeling" _) as [tempo|] eqn:Ht;
    cbn [py.bind]; [|discriminate].
  destruct (get_slice _ "visual_imagery" _) as [imagery|] eqn:Hi;
    cbn [py.bind]; [|discriminate].
  destruct (get_strip_slice _ "movement_quality" _) as [movement|] eqn:Hm;
    cbn [py.bind]; [|discriminate].
  destruct (get_slice _ "color_palette" _) as [palette|] eqn:Hp;
    cbn [py.bind]; [|discriminate].
  destruct (get_slice _ "search_keywords" _) as [keywords|] eqn:Hk;
    cbn [py.bind]; [|discriminate].
  intros [= <-].
  apply clean_entries_first in Htags, Hgenres.
  apply get_lower_lowercase in He, Ht.
  apply get_slice_sliced in Hi, Hp, Hk.
  apply get_strip_slice_within in Hm.
  unfold mood_profile.core_fields, mood_profile.enhanced_fields.
  repeat first [rewrite lookup_insert_eq
               | rewrite lookup_insert_ne by discriminate].
  now rewrite Htags, Hgenres, Hn, He, Ht, Hi, Hm, Hp, Hk.
Qed.

End Profile.

(** X16: every profile that [extract_mood_components] returns has this
    shape, whatever the model answered: [emotional_tags] and [genres] are
    lists of 1 to 3 trimmed lower-case strings, [playlist_name] is a
    string of 1 to 50 characters, [energy_level] and [tempo_feeling] are
    lower-case strings, [movement_quality] is a string of at most 100
    characters, and [visual_imagery], [color_palette] and
    [search_keywords] hold at most 5, 3 and 5 entries. *)
Theorem extract_mood_components_profile
    (json_loads : string -> option mood_to_music.json) (mood_response : string)
    (profile : gmap string mood_to_music.json) :
  mood_to_music.extract_mood_components json_loads mood_response = py.Ok profile ->
  mood_profile.core_fields profile = true
  /\ mood_profile.enhanced_fields profile = true.
Proof.
  unfold mood_to_music.extract_mood_components.
  destruct (json_loads _) as [mood_data|]; [|discriminate].
  destruct (mood_to_music.validate_and_clean mood_data) as [cleaned|] eqn:Hv;
    [|discriminate].
  cbn [py.try_except]. intros [= <-].
  exact (validate_and_clean_profile mood_data cleaned Hv).
Qed.

Lemma extract_mood_components_profile_witness :
  exists profile,
    mood_to_music.extract_mood_components
      (demo.loads_only demo.answer_text (mood_to_music.JObj demo.answer))
      (demo.fenced demo.answer_text) = py.Ok profile
    /\ mood_profile.core_fields profile = true
    /\ mood_profile.enhanced_fields profile = true.
Proof.
  destruct (mood_to_music.extract_mood_components
              (demo.loads_only demo.answer_text (mood_to_music.JObj demo.answer))
              (demo.fenced demo.answer_text)) as [profile|e] eqn:H.
  - exists profile. split; [reflexivity|].
    exact (extract_mood_components_profile _ _ _ H).
  - exfalso. revert H. vm_compute. discriminate.
Defined.

(** ** The fallback analysis *)

Lemma fallback_core_fields (mood_text : string) :
  mood_profile.core_fields (mood_to_music.create_fallback_mood_analysis mood_text)
  = true.
Proof.
  unfold mood_to_music.create_fallback_mood_analysis. cbv zeta.
  repeat (destruct (mood_to_music.any_in _ _)); vm_compute; reflexivity.
Qed.

Lemma whitespace_only_lower (s : string) :
  spec.whitespace_only (py.lower s) = spec.whitespace_only s.
Proof.
  induction s as [|c s IH]; [reflexivity|].
  cbn [py.lower spec.whitespace_only]. now rewrite is_space_lower_char, IH.
Qed.

(** A word that begins with a visible character does not occur in a
    blank text. *)
Lemma str_contains_blank (a : ascii) (word s : string) :
  py.is_space a = false -> spec.whitespace_only s = true ->
  py.str_contains (String a word) s = false.
Proof.
  intros Ha. induction s as [|c s IH]; [reflexivity|].
  cbn [spec.whitespace_only py.str_contains py.startswith].
  intros H. apply andb_true_iff in H as [Hc Hs].
  destruct (Ascii.eqb_spec a c) as [->|_]; [congruence|].
  now rewrite (IH Hs).
Qed.

Lemma fallback_blank (mood_text : string) :
  spec.whitespace_only mood_text = true ->
  mood_to_music.create_fallback_mood_analysis mood_text
  = mood_to_music.mood_triple ["contemplative"; "mixed"] ["indie"; "alternative"]
      "Mixed Feelings".
Proof.
  intros Hw. rewrite <- whitespace_only_lower in Hw.
  unfold mood_to_music.create_fallback_mood_analysis, mood_to_music.any_in.
  cbv zeta. cbn [existsb].
  now rewrite !str_contains_blank by (reflexivity || exact Hw).
Qed.

(** The outcome of the [try] block of [analyze_mood] with its handler. *)
Lemma remote_analysis_outcome
    (json_loads : string -> option mood_to_music.json)
    (chat_completions_create :
       string -> mood_to_music.ChatRequest -> py.Result (list (option string)))
    (create_mood_analysis_prompt : string -> string)
    (api_key mood_text : string) :
  exists profile,
    py.try_except
      (fst (mood_to_music.remote_analysis json_loads chat_completions_create
              create_mood_analysis_prompt api_key mood_text))
      (fun _ => py.Ok (mood_to_music.create_fallback_mood_analysis mood_text))
    = py.Ok profile
    /\ mood_profile.core_fields profile = true
    /\ (mood_profile.enhanced_fields profile = true
        \/ profile = mood_to_music.create_fallback_mood_analysis mood_text).
Proof.
  assert (Hfallback :
    exists profile,
      py.Ok (mood_to_music.create_fallback_mood_analysis mood_text) = py.Ok profile
      /\ mood_profile.core_fields profile = true
      /\ (mood_profile.enhanced_fields profile = true
          \/ profile = mood_to_music.create_fallback_mood_analysis mood_text)).
  { eexists. split; [reflexivity|]. split; [apply fallback_core_fields | now right]. }
  unfold mood_to_music.remote_analysis. cbn [fst].
  destruct (chat_completions_create _ _) as [[|[content|] others]|e];
    cbn [py.bind py.try_except]; try exact Hfallback.
  unfold mood_to_music.extract_mood_components.
  destruct (json_loads _) as [mood_data|]; cbn [py.try_except];
    [|exact Hfallback].
  destruct (mood_to_music.validate_and_clean mood_data) as [cleaned|e] eqn:Hv;
    cbn [py.try_except]; [|exact Hfallback].
  destruct (validate_and_clean_profile mood_data cleaned Hv) as [Hcore Henh].
  exists cleaned. auto.
Qed.

(** X17: for a mood text that is not blank and with an API key,
    [analyze_mood] never raises: it sends exactly one request, with the
    prompt made from the text, and returns a profile in which
    [emotional_tags] and [genres] are lists of 1 to 3 trimmed lower-case
    strings and [playlist_name] a string of 1 to 50 characters; the
    profile has the six enhanced fields in their shape, or it is the
    fallback analysis of the text. *)
Theorem analyze_mood_profile
    (environ : gmap string string)
    (json_loads : string -> option mood_to_music.json)
    (chat_completions_create :
       string -> mood_to_music.ChatRequest -> py.Result (list (option string)))
    (create_mood_analysis_prompt : string -> string)
    (mood_text api_key : string) :
  spec.whitespace_only mood_text = false ->
  environ !! "OPENAI_API_KEY" = Some api_key ->
  py.str_truthy api_key = true ->
  exists profile,
    mood_to_music.analyze_mood environ json_loads chat_completions_create
      create_mood_analysis_prompt mood_text
    = (py.Ok profile,
       [mood_to_music.ChatCompletionsCreate api_key
          (mood_to_music.chat_request (create_mood_analysis_prompt mood_text))])
    /\ mood_profile.core_fields profile = true
    /\ (mood_profile.enhanced_fields profile = true
        \/ profile = mood_to_music.create_fallback_mood_analysis mood_text).
Proof.
  intros Hw Henv Hkey. unfold mood_to_music.analyze_mood.
  rewrite strip_truthy, Hw, Henv. cbn [py.opt_truthy]. rewrite Hkey.
  destruct mood_text as [|c text]; [discriminate|].
  cbn [py.str_truthy negb orb default from_option id].
  destruct (remote_analysis_outcome json_loads chat_completions_create
              create_mood_analysis_prompt api_key (String c text))
    as (profile & Hp & Hshape).
  exists profile. split; [|exact Hshape].
  unfold mood_to_music.remote_analysis in *. cbn [fst] in Hp. now rewrite Hp.
Qed.

Lemma analyze_mood_profile_witness :
  exists profile,
    mood_to_music.analyze_mood demo.environ
      (demo.loads_only demo.answer_text (mood_to_music.JObj demo.answer))
      demo.chat_answer demo.prompt_of "floating through fog"
    = (py.Ok profile,
       [mood_to_music.ChatCompletionsCreate "sk-demo"
          (mood_to_music.chat_request (demo.prompt_of "floating through fog"))])
    /\ mood_profile.core_fields profile = true
    /\ (mood_profile.enhanced_fields profile = true
        \/ profile
           = mood_to_music.create_fallback_mood_analysis "floating through fog").
Proof.
  apply (analyze_mood_profile demo.environ
           (demo.loads_only demo.answer_text (mood_to_music.JObj demo.answer))
           demo.chat_answer demo.prompt_of "floating through fog" "sk-demo");
    reflexivity.
Defined.

(** ** The code fence *)

Lemma lstrip_blank_app (pre s : string) :
  spec.whitespace_only pre = true -> py.lstrip (pre +:+ s) = py.lstrip s.
Proof.
  induction pre as [|c pre IH]; [reflexivity|].
  cbn [spec.whitespace_only]. intros H. apply andb_true_iff in H as [Hc Hpre].
  rewrite string_app_cons. cbn [py.lstrip]. rewrite Hc. exact (IH Hpre).
Qed.

Lemma rstrip_blank (s : string) :
  spec.whitespace_only s = true -> py.rstrip s = EmptyString.
Proof.
  induction s as [|c s IH]; [reflexivity|].
  cbn [spec.whitespace_only py.rstrip]. intros H.
  apply andb_true_iff in H as [Hc Hs]. now rewrite (IH Hs), Hc.
Qed.

Lemma rstrip_app_blank (s post : string) :
  spec.whitespace_only post = true -> py.rstrip (s +:+ post) = py.rstrip s.
Proof.
  intros Hpost. induction s as [|c s IH].
  - now apply rstrip_blank.
  - rewrite string_app_cons. cbn [py.rstrip]. now rewrite IH.
Qed.

Lemma rstrip_app_visible (s t : string) :
  py.rstrip t <> EmptyString -> py.rstrip (s +:+ t) = s +:+ py.rstrip t.
Proof.
  intros Ht. induction s as [|c s IH]; [reflexivity|].
  rewrite !string_app_cons. cbn [py.rstrip]. rewrite IH.
  destruct (s +:+ py.rstrip t) as [|d r] eqn:E; [|reflexivity].
  destruct s; [|discriminate]. now elim Ht.
Qed.

Lemma fenced_strip (pre body post : string) :
  spec.whitespace_only pre = true -> spec.whitespace_only post = true ->
  py.strip (pre +:+ "```json" +:+ body +:+ "```" +:+ post)
  = "```json" +:+ body +:+ "```".
Proof.
  intros Hpre Hpost. unfold py.strip.
  rewrite lstrip_blank_app by exact Hpre.
  rewrite string_app_cons. cbn [py.lstrip].
  change (py.is_space "`") with false. cbv iota.
  rewrite <- string_app_cons.
  rewrite <- !string_app_assoc, rstrip_app_blank by exact Hpost.
  now rewrite rstrip_app_visible by discriminate.
Qed.

(** X18: an answer wrapped in a [json] code fence, with any whitespace
    around the fence, is cleaned to its trimmed content, and is then
    read exactly as the bare content would be (when that content does
    not itself begin or end like a fence). *)
Theorem fenced_answer_cleaned
    (json_loads : string -> option mood_to_music.json)
    (pre body post : string) :
  spec.whitespace_only pre = true ->
  spec.whitespace_only post = true ->
  let fenced := pre +:+ "```json" +:+ body +:+ "```" +:+ post in
  mood_to_music.clean_response fenced = py.strip body
  /\ (py.startswith "```json" (py.strip body) = false ->
      py.endswith "```" (py.strip body) = false ->
      mood_to_music.extract_mood_components json_loads fenced
      = mood_to_music.extract_mood_components json_loads body).
Proof.
  intros Hpre Hpost fenced.
  assert (Hclean : mood_to_music.clean_response fenced = py.strip body).
  { unfold mood_to_music.clean_response, fenced. cbv zeta.
    rewrite fenced_strip by assumption.
    rewrite (startswith_app "```json").
    change 7%nat with (String.length "```json").
    rewrite str_drop_app, endswith_app.
    unfold py.str_drop_last. rewrite string_app_length.
    replace (String.length body + String.length "```" - 3)%nat
      with (String.length body) by (cbn; lia).
    now rewrite str_take_app. }
  split; [exact Hclean|]. intros Hs He.
  unfold mood_to_music.extract_mood_components. rewrite Hclean.
  unfold mood_to_music.clean_response. cbv zeta.
  now rewrite Hs, He, strip_idempotent.
Qed.

Lemma fenced_answer_cleaned_witness :
  let fenced :=
    demo.newline +:+ "```json" +:+ (demo.newline +:+ demo.answer_text +:+ " ")
      +:+ "```" +:+ " " in
  mood_to_music.clean_response fenced
  = py.strip (demo.newline +:+ demo.answer_text +:+ " ")
  /\ (py.startswith "```json"
        (py.strip (demo.newline +:+ demo.answer_text +:+ " ")) = false ->
      py.endswith "```"
        (py.strip (demo.newline +:+ demo.answer_text +:+ " ")) = false ->
      mood_to_music.extract_mood_components
        (demo.loads_only demo.answer_text (mood_to_music.JObj demo.answer)) fenced
      = mood_to_music.extract_mood_components
          (demo.loads_only demo.answer_text (mood_to_music.JObj demo.answer))
          (demo.newline +:+ demo.answer_text +:+ " ")).
Proof.
  apply (fenced_answer_cleaned
           (demo.loads_only demo.answer_text (mood_to_music.JObj demo.answer))
           demo.newline (demo.newline +:+ demo.answer_text +:+ " ") " ");
    reflexivity.
Defined.

(** ** The analysis stage of the application *)

(** X19: the analysis stage of [create_mood_canvas] always ends with a
    profile whose [emotional_tags], [genres] and [playlist_name] are
    there and in shape, after at most one request.  The handler of the
    stage is reached exactly when no request was sent; a blank mood text
    sends none and gets the "Mixed Feelings" profile, and a missing API
    key sends none and gets the fallback analysis of the text. *)
Theorem mood_analysis_always_yields_profile
    (environ : gmap string string)
    (json_loads : string -> option mood_to_music.json)
    (chat_completions_create :
       string -> mood_to_music.ChatRequest -> py.Result (list (option string)))
    (create_mood_analysis_prompt : string -> string)
    (mood_text : string) :
  let outcome :=
    app.mood_analysis environ json_loads chat_completions_create
      create_mood_analysis_prompt mood_text in
  exists profile,
    fst outcome = py.Ok profile
    /\ mood_profile.core_fields profile = true
    /\ (length (snd outcome) <= 1)%nat
    /\ (snd outcome = [] <->
        (exists e,
            fst (mood_to_music.analyze_mood environ json_loads
                   chat_completions_create create_mood_analysis_prompt mood_text)
            = py.Raise e))
    /\ (snd outcome = [] ->
        profile = mood_to_music.create_fallback_mood_analysis mood_text)
    /\ (spec.whitespace_only mood_text = true ->
        snd outcome = []
        /\ profile
           = mood_to_music.mood_triple ["contemplative"; "mixed"]
               ["indie"; "alternative"] "Mixed Feelings")
    /\ (py.opt_truthy (environ !! "OPENAI_API_KEY") = false -> snd outcome = []).
Proof.
  intros outcome. subst outcome.
  unfold app.mood_analysis, mood_to_music.analyze_mood. rewrite strip_truthy.
  destruct (spec.whitespace_only mood_text) eqn:Hw.
  { rewrite orb_true_r. cbn [py.try_except fst snd length].
    eexists. split; [reflexivity|].
    repeat split; eauto using fallback_core_fields, fallback_blank. }
  destruct mood_text as [|c text]; [discriminate|].
  cbn [py.str_truthy negb orb].
  destruct (environ !! "OPENAI_API_KEY") as [key|] eqn:Hkey;
    cbn [py.opt_truthy].
  2:{ cbn [negb py.try_except fst snd length]. eexists. split; [reflexivity|].
      repeat split; eauto using fallback_core_fields; discriminate. }
  destruct (py.str_truthy key) eqn:Hkt; cbn [negb].
  2:{ cbn [py.try_except fst snd length]. eexists. split; [reflexivity|].
      repeat split; eauto using fallback_core_fields; discriminate. }
  cbn [default from_option id].
  destruct (remote_analysis_outcome json_loads chat_completions_create
              create_mood_analysis_prompt key (String c text))
    as (profile & Hp & Hcore & _).
  unfold mood_to_music.remote_analysis in *. cbn [fst] in Hp. rewrite Hp.
  cbn [py.try_except fst snd length].
  exists profile. split; [reflexivity|]. split; [exact Hcore|].
  repeat split; try discriminate; try lia.
  intros [e He]. discriminate.
Qed.

(** * Further properties of the image and video generators *)

(** X20: an image is returned only when every step succeeded: the key
    was there, the image service returned at least one url, the download
    of the first url answered 200, and the result is the encoding of the
    downloaded body; exactly these two requests were sent. *)
Theorem generate_mood_image_result
    (environ : gmap string string)
    (images_generate :
       string -> image_generator.ImageRequest -> py.Result (list string))
    (requests_get : string -> py.Result (Z * string))
    (b64encode : string -> string)
    (emotional_tags genres : list string) (mood_text : option string)
    (visual_imagery : option (list string)) (movement_quality : option string)
    (color_palette : option (list string)) (energy_level : option string)
    (image : string) :
  let outcome :=
    image_generator.generate_mood_image environ images_generate requests_get
      b64encode emotional_tags genres mood_text visual_imagery movement_quality
      color_palette energy_level in
  let request :=
    image_generator.image_request
      (image_generator.create_image_prompt emotional_tags genres mood_text
         visual_imagery movement_quality color_palette energy_level) in
  fst outcome = py.Ok (Some image) ->
  exists api_key image_url others content,
    environ !! "OPENAI_API_KEY" = Some api_key
    /\ py.str_truthy api_key = true
    /\ images_generate api_key request = py.Ok (image_url :: others)
    /\ requests_get image_url = py.Ok (200%Z, content)
    /\ image = b64encode content
    /\ snd outcome
       = [image_generator.ImagesGenerate api_key request;
          image_generator.HttpGet image_url].
Proof.
  intros outcome request. unfold outcome, image_generator.generate_mood_image.
  fold request.
  destruct (environ !! "OPENAI_API_KEY") as [key|] eqn:Hkey; cbn [py.opt_truthy];
    [|discriminate].
  destruct (py.str_truthy key) eqn:Ht; cbn [negb default from_option id];
    [|discriminate].
  destruct (images_generate key request) as [[|image_url others]|e] eqn:Hgen;
    try discriminate.
  destruct (requests_get image_url) as [[status_code content]|e] eqn:Hget;
    [|discriminate].
  destruct (Z.eqb_spec status_code 200) as [->|Hne]; [|discriminate].
  cbn [fst snd py.try_except]. intros [= <-].
  exists key, image_url, others, content. repeat split; assumption.
Qed.

Lemma generate_mood_image_result_witness :
  exists api_key image_url others content,
    demo.environ !! "OPENAI_API_KEY" = Some api_key
    /\ py.str_truthy api_key = true
    /\ demo.images_ok api_key
         (image_generator.image_request
            (image_generator.create_image_prompt ["calm"] ["ambient"] None None
               None None None))
       = py.Ok (image_url :: others)
    /\ demo.download_ok image_url = py.Ok (200%Z, content)
    /\ demo.b64_stub "PNG" = demo.b64_stub content
    /\ snd (image_generator.generate_mood_image demo.environ demo.images_ok
              demo.download_ok demo.b64_stub ["calm"] ["ambient"] None None None
              None None)
       = [image_generator.ImagesGenerate api_key
            (image_generator.image_request
               (image_generator.create_image_prompt ["calm"] ["ambient"] None None
                  None None None));
          image_generator.HttpGet image_url].
Proof.
  apply (generate_mood_image_result demo.environ demo.images_ok demo.download_ok
           demo.b64_stub ["calm"] ["ambient"] None None None None None
           (demo.b64_stub "PNG")).
  reflexivity.
Defined.

(** X21: [generate_mood_image] sends at most two requests.  The API key
    goes only to the image service, with a request for one 1024x1024
    image whose prompt is the composed one, of at most 903 characters;
    the only address fetched is the first url the image service
    returned. *)
Theorem generate_mood_image_requests
    (environ : gmap string string)
    (images_generate :
       string -> image_generator.ImageRequest -> py.Result (list string))
    (requests_get : string -> py.Result (Z * string))
    (b64encode : string -> string)
    (emotional_tags genres : list string) (mood_text : option string)
    (visual_imagery : option (list string)) (movement_quality : option string)
    (color_palette : option (list string)) (energy_level : option string) :
  let calls :=
    snd (image_generator.generate_mood_image environ images_generate requests_get
           b64encode emotional_tags genres mood_text visual_imagery
           movement_quality color_palette energy_level) in
  let prompt :=
    image_generator.create_image_prompt emotional_tags genres mood_text
      visual_imagery movement_quality color_palette energy_level in
  (length calls <= 2)%nat
  /\ (forall api_key request,
         In (image_generator.ImagesGenerate api_key request) calls ->
         environ !! "OPENAI_API_KEY" = Some api_key
         /\ request = image_generator.image_request prompt
         /\ (String.length (image_generator.img_prompt request) <= 903)%nat
         /\ image_generator.img_n request = 1%Z
         /\ image_generator.img_size request = "1024x1024")
  /\ (forall url,
         In (image_generator.HttpGet url) calls ->
         exists api_key others,
           environ !! "OPENAI_API_KEY" = Some api_key
           /\ images_generate api_key (image_generator.image_request prompt)
              = py.Ok (url :: others)).
Proof.
  intros calls prompt. subst calls.
  unfold image_generator.generate_mood_image. fold prompt.
  pose proof (proj1 (prompt_length_bound emotional_tags genres mood_text
                       visual_imagery movement_quality color_palette
                       energy_level)) as Hlen.
  fold prompt in Hlen.
  destruct (environ !! "OPENAI_API_KEY") as [key|] eqn:Hkey; cbn [py.opt_truthy].
  2:{ cbn. split; [lia|]. split; intros; contradiction. }
  destruct (py.str_truthy key) eqn:Ht; cbn [negb default from_option id].
  2:{ cbn. split; [lia|]. split; intros; contradiction. }
  assert (Hgenerate : forall api_key request,
             image_generator.ImagesGenerate key (image_generator.image_request prompt)
             = image_generator.ImagesGenerate api_key request ->
             Some key = Some api_key
             /\ request = image_generator.image_request prompt
             /\ (String.length (image_generator.img_prompt request) <= 903)%nat
             /\ image_generator.img_n request = 1%Z
             /\ image_generator.img_size request = "1024x1024").
  { intros api_key request [= <- <-]. cbn. auto. }
  destruct (images_generate key (image_generator.image_request prompt))
    as [[|image_url others]|e] eqn:Hgen; cbn [snd length In].
  1,3: split; [lia|]; split;
       [intros api_key request [H|[]]; now apply Hgenerate
       |intros url [H|[]]; discriminate].
  assert (Hurl : forall url,
             image_generator.HttpGet image_url = image_generator.HttpGet url ->
             exists api_key others0,
               Some key = Some api_key
               /\ images_generate api_key (image_generator.image_request prompt)
                  = py.Ok (url :: others0)).
  { intros url [= <-]. exists key, others. split; [reflexivity | exact Hgen]. }
  destruct (requests_get image_url) as [[status_code content]|e];
    [destruct (status_code =? 200)%Z|]; cbn [snd length In];
    (split; [lia|]; split;
     [intros api_key request [H|[H|[]]]; [now apply Hgenerate | discriminate]
     |intros url [H|[H|[]]]; [discriminate | now apply Hurl]]).
Qed.

(** X22: [generate_mood_video] never produces a video.  Whatever the
    inputs and the environment, it returns [None] or a placeholder whose
    [video_url] and [video_data] are [None]; the placeholder (returned
    exactly when the key is set and the client library accepts it)
    carries the composed prompt, of at most 803 characters, and the
    requested duration.  Nothing is downloaded and no model is asked. *)
Theorem generate_mood_video_placeholder
    (environ : gmap string string)
    (genai_configure : string -> py.Result unit) (now_isoformat : string)
    (emotional_tags genres : list string) (mood_text : option string)
    (visual_imagery : option (list string)) (movement_quality : option string)
    (color_palette : option (list string)) (energy_level : option string)
    (duration : Z) :
  let outcome :=
    video_generator.generate_mood_video environ genai_configure now_isoformat
      emotional_tags genres mood_text visual_imagery movement_quality
      color_palette energy_level duration in
  (fst outcome = py.Ok None
   \/ exists placeholder,
        fst outcome = py.Ok (Some placeholder)
        /\ video_generator.video_url placeholder = None
        /\ video_generator.video_data placeholder = None
        /\ video_generator.prompt placeholder
           = video_generator.create_video_prompt emotional_tags genres mood_text
               visual_imagery movement_quality color_palette energy_level
        /\ (String.length (video_generator.prompt placeholder) <= 803)%nat
        /\ video_generator.md_duration (video_generator.metadata placeholder)
           = duration)
  /\ ((exists placeholder, fst outcome = py.Ok (Some placeholder)) <->
      (exists api_key,
          environ !! "GOOGLE_AI_API_KEY" = Some api_key
          /\ py.str_truthy api_key = true
          /\ genai_configure api_key = py.Ok tt))
  /\ (forall call, In call (snd outcome) ->
                   exists api_key,
                     call = video_generator.GenaiConfigure api_key
                     /\ environ !! "GOOGLE_AI_API_KEY" = Some api_key).
Proof.
  intros outcome. subst outcome. unfold video_generator.generate_mood_video.
  pose proof (proj2 (prompt_length_bound emotional_tags genres mood_text
                       visual_imagery movement_quality color_palette
                       energy_level)) as Hlen.
  destruct (environ !! "GOOGLE_AI_API_KEY") as [key|] eqn:Hkey;
    cbn [py.opt_truthy].
  2:{ cbn. split; [now left|]. split; [|intros _ []].
      split; [intros [? [=]] | intros (? & [=] & _)]. }
  destruct (py.str_truthy key) eqn:Ht; cbn [negb default from_option id].
  2:{ cbn. split; [now left|]. split; [|intros _ []].
      split; [intros [? [=]] | intros (? & [= <-] & ? & _); congruence]. }
  destruct (genai_configure key) as [[]|e] eqn:Hconf;
    cbn [py.bind py.try_except fst snd In].
  - split; [right; eexists; split; [reflexivity|]; cbn; auto|].
    split; [split; eauto|].
    intros call [<-|[]]. eauto.
  - split; [now left|]. split.
    + split; [intros [? [=]] | intros (? & [= <-] & _ & ?); congruence].
    + intros call [<-|[]]. eauto.
Qed.

(** X23: [download_video_data] never raises and sends one request, with
    a timeout of 30 seconds; it returns data exactly when the download
    answers 200, and the data are then the encoding of the body. *)
Theorem download_video_data_result
    (requests_get : string -> Z -> py.Result (Z * string))
    (b64encode : string -> string) (video_url : string) :
  let outcome :=
    video_generator.download_video_data requests_get b64encode video_url in
  (exists result, fst outcome = py.Ok result)
  /\ snd outcome = [video_generator.HttpGet video_url 30]
  /\ (forall data,
         fst outcome = py.Ok (Some data) <->
         exists content,
           requests_get video_url 30%Z = py.Ok (200%Z, content)
           /\ data = b64encode content).
Proof.
  intros outcome. subst outcome. unfold video_generator.download_video_data.
  cbn [fst snd].
  destruct (requests_get video_url 30%Z) as [[status_code content]|e];
    cbn [py.bind].
  - destruct (Z.eqb_spec status_code 200) as [->|Hne]; cbn [py.try_except].
    + split; [eauto|]. split; [reflexivity|]. intros data. split.
      * intros [= <-]. eauto.
      * intros (content' & [= <-] & ->). reflexivity.
    + split; [eauto|]. split; [reflexivity|]. intros data. split.
      * discriminate.
      * intros (content' & [= -> _] & _). congruence.
  - cbn [py.try_except]. split; [eauto|]. split; [reflexivity|].
    intros data. split; [discriminate | intros (? & [=] & _)].
Qed.

Lemma veo_models_loop (models veo_models : list string) :
  py.list_truthy (fold_left video_generator.veo_models_step models veo_models)
  = py.list_truthy veo_models
    || existsb (fun model_name => py.str_contains "veo" (py.lower model_name))
         models.
Proof.
  revert veo_models. induction models as [|m models IH]; intros veo_models.
  - cbn. now rewrite orb_false_r.
  - cbn [fold_left existsb]. rewrite IH. unfold video_generator.veo_models_step.
    destruct (py.str_contains "veo" (py.lower m)).
    + rewrite orb_true_r. now destruct veo_models.
    + reflexivity.
Qed.

(** X24: [validate_video_generation] never raises, and answers [True]
    exactly when the key is set and is not the placeholder of the
    template, the client library accepts it, the list of models can be
    read, and the name of some model contains "veo" in any letter
    case. *)
Theorem validate_video_generation_true
    (environ : gmap string string)
    (genai_configure : string -> py.Result unit)
    (genai_list_models : py.Result (list string)) :
  let outcome :=
    video_generator.validate_video_generation environ genai_configure
      genai_list_models in
  (exists answer, fst outcome = py.Ok answer)
  /\ (fst outcome = py.Ok true <->
      exists api_key models model_name,
        environ !! "GOOGLE_AI_API_KEY" = Some api_key
        /\ py.str_truthy api_key = true
        /\ api_key <> "your-google-ai-api-key"
        /\ genai_configure api_key = py.Ok tt
        /\ genai_list_models = py.Ok models
        /\ In model_name models
        /\ py.str_contains "veo" (py.lower model_name) = true).
Proof.
  intros outcome. subst outcome.
  unfold video_generator.validate_video_generation.
  destruct (environ !! "GOOGLE_AI_API_KEY") as [key|] eqn:Hkey;
    cbn [py.opt_truthy].
  2:{ cbn. split; [eauto|]. split; [discriminate | intros (? & ? & ? & [=] & _)]. }
  destruct (py.str_truthy key) eqn:Ht; cbn [negb orb default from_option id].
  2:{ cbn. split; [eauto|].
      split; [discriminate | intros (? & ? & ? & [= <-] & ? & _); congruence]. }
  destruct (String.eqb_spec key "your-google-ai-api-key") as [Hph|Hph].
  { cbn. split; [eauto|].
    split; [discriminate | intros (? & ? & ? & [= <-] & _ & ? & _); congruence]. }
  destruct (genai_configure key) as [[]|e] eqn:Hconf.
  2:{ cbn. split; [eauto|].
      split; [discriminate
             | intros (? & ? & ? & [= <-] & _ & _ & ? & _); congruence]. }
  destruct genai_list_models as [models|e] eqn:Hmodels;
    cbn [py.bind py.try_except fst].
  2:{ split; [eauto|].
      split; [discriminate
             | intros (? & ? & ? & _ & _ & _ & _ & [=] & _)]. }
  rewrite veo_models_loop. cbn [py.list_truthy orb].
  destruct (existsb _ models) eqn:Hex; cbn [py.try_except].
  - split; [eauto|]. split; [intros _ | reflexivity].
    apply existsb_exists in Hex as (model_name & Hin & Hveo).
    exists key, models, model_name. auto 10.
  - split; [eauto|]. split; [discriminate|].
    intros (? & models' & model_name & _ & _ & _ & _ & [= <-] & Hin & Hveo).
    assert (existsb (fun n => py.str_contains "veo" (py.lower n)) models = true)
      by (apply existsb_exists; eauto).
    congruence.
Qed.
